(** * JobFinder Pro: the job record, the store, the search client and the
      search orchestrator of [main.py], embedded in Rocq.

    Python values are embedded as a small universe [value] (the JSON
    fragment of Python: [None], [bool], [int], [str], [list], [dict]);
    floats are left out.  A [str] is a Rocq [string], one [ascii] per
    character, so the characters of the model are the code points below
    256; a literal of the source with characters beyond that range is
    written with the bytes the source file holds for it.  A [dict] is an
    association list in insertion order with unique keys, read with
    [dict_get] and written with [dict_set].

    Code that can raise returns a [result]; code that also changes the
    application (the store, the held job list, the widgets, the log, the
    Tk callback queue) runs in the monad [M], in which the changes made
    before an exception are kept, as in Python. *)

From Stdlib Require Import String Ascii ZArith List Bool Lia Permutation Sorted.
From Stdlib Require Import DecimalString DecimalZ.
From Stdlib Require DecimalPos DecimalFacts.
Import ListNotations.
Set Warnings "-register-all".
Local Open Scope string_scope.
Local Open Scope Z_scope.

(* ====================================================================== *)
(** * Part I: definitions                                                  *)
(* ====================================================================== *)

(** ** Python values *)

Inductive value : Type :=
| VNone
| VBool (b : bool)
| VInt (z : Z)
| VStr (s : string)
| VList (l : list value)
| VDict (d : list (string * value)).

Definition dict : Type := list (string * value).

(** [type(o).__name__], as it appears in the message of an AttributeError. *)
Definition type_name (o : value) : string :=
  match o with
  | VNone => "NoneType"
  | VBool _ => "bool"
  | VInt _ => "int"
  | VStr _ => "str"
  | VList _ => "list"
  | VDict _ => "dict"
  end.

(** ** Exceptions *)

Inductive exn : Type :=
| AttributeError (ty attr : string)   (* '<ty>' object has no attribute '<attr>' *)
| KeyError (key : string)
| TypeError (msg : string)
| NameError (name : string)
| RequestException (msg : string)     (* requests: no connection, timeout, error status *)
| JSONDecodeError (msg : string)
| OperationalError (msg : string)     (* sqlite3: storage unavailable *)
| ProgrammingError (msg : string)     (* sqlite3: a parameter cannot be bound *)
| OverflowError (msg : string).

(** [str(e)] *)
Definition exn_str (e : exn) : string :=
  match e with
  | AttributeError ty attr =>
      "'" ++ ty ++ "' object has no attribute '" ++ attr ++ "'"
  | KeyError key => "'" ++ key ++ "'"
  | TypeError msg => msg
  | NameError name =>
      "cannot access free variable '" ++ name
        ++ "' where it is not associated with a value in enclosing scope"
  | RequestException msg => msg
  | JSONDecodeError msg => msg
  | OperationalError msg => msg
  | ProgrammingError msg => msg
  | OverflowError msg => msg
  end.

Inductive result (A : Type) : Type :=
| Ok (a : A)
| Err (e : exn).
Arguments Ok {A} a.
Arguments Err {A} e.

Definition rbind {A B : Type} (r : result A) (f : A -> result B) : result B :=
  match r with
  | Ok a => f a
  | Err e => Err e
  end.

Declare Scope result_scope.
Delimit Scope result_scope with result.
Notation "x <- c ;; k" := (rbind c (fun x => k))
  (at level 61, c at next level, right associativity) : result_scope.

(** A list comprehension [[f(x) for x in xs]]: left to right, the first
    exception ends it. *)
Fixpoint map_result {A B : Type} (f : A -> result B) (xs : list A)
  : result (list B) :=
  match xs with
  | [] => Ok []
  | x :: xs' =>
      match f x with
      | Err e => Err e
      | Ok y =>
          match map_result f xs' with
          | Err e => Err e
          | Ok ys => Ok (y :: ys)
          end
      end
  end.

(** ** Dictionaries *)

Fixpoint dict_get (d : dict) (k : string) : option value :=
  match d with
  | [] => None
  | (k', v) :: d' => if String.eqb k' k then Some v else dict_get d' k
  end.

(** [d[k] = v]: an existing key keeps its place, a new key goes last. *)
Fixpoint dict_set (d : dict) (k : string) (v : value) : dict :=
  match d with
  | [] => [(k, v)]
  | (k', v') :: d' =>
      if String.eqb k' k then (k', v) :: d' else (k', v') :: dict_set d' k v
  end.

(** [d.update(other)] *)
Definition dict_update (d other : dict) : dict :=
  fold_left (fun acc kv => dict_set acc (fst kv) (snd kv)) other d.

Definition dict_keys (d : dict) : list string := map fst d.

(** [o.get(k, default)]: only a dict has [get]. *)
Definition py_get (o : value) (k : string) (default : value) : result value :=
  match o with
  | VDict d =>
      Ok (match dict_get d k with Some v => v | None => default end)
  | _ => Err (AttributeError (type_name o) "get")
  end.

(** [d[k]] on a dict. *)
Definition dict_item (d : dict) (k : string) : result value :=
  match dict_get d k with
  | Some v => Ok v
  | None => Err (KeyError k)
  end.

(** [a == b] on values.  Python compares a bool with an int by number
    ([True == 1]) and dicts without regard to order; the comparisons of
    the source are all against a str literal, for which both agree with
    the structural test below. *)
Definition str_eq (o : value) (s : string) : bool :=
  match o with
  | VStr s' => String.eqb s' s
  | _ => false
  end.

(** [for x in o]: a list gives its items, a dict its keys, a str its
    characters; the other values are not iterable. *)
Fixpoint chars (s : string) : list value :=
  match s with
  | EmptyString => []
  | String c s' => VStr (String c EmptyString) :: chars s'
  end.

Definition py_iter (o : value) : result (list value) :=
  match o with
  | VList l => Ok l
  | VDict d => Ok (map (fun kv => VStr (fst kv)) d)
  | VStr s => Ok (chars s)
  | _ => Err (TypeError ("'" ++ type_name o ++ "' object is not iterable"))
  end.

(** ** The job record *)

Module Job.

(** [@dataclass class Job]: eleven fields, declared [str].  Python does
    not check the declaration, and [from_api] stores whatever the API
    record holds, so a field is a [value]. *)
Record t : Type := mk {
  id : value;
  title : value;
  company : value;
  location : value;
  url : value;
  published_date : value;
  deadline : value;
  description : value;
  salary : value;
  employment_type : value;
  working_hours : value
}.

(** The placeholders of [from_api].  The second is the literal of the
    source, whose third and fourth characters are U+221A and U+00A7; the
    first of them is not a character of the model (whose characters are
    the code points below 256), and the two stand here as the five bytes
    the source file holds for them. *)
Definition UTAN_TITEL : string := "Utan titel".
Definition OKAND_ARBETSGIVARE : string := "Ok√§nd arbetsgivare".
Definition PLATS_EJ_ANGIVEN : string := "Plats ej angiven".

(** [asdict(self)] *)
Definition to_dict (j : t) : dict :=
  [ ("id", id j); ("title", title j); ("company", company j);
    ("location", location j); ("url", url j);
    ("published_date", published_date j); ("deadline", deadline j);
    ("description", description j); ("salary", salary j);
    ("employment_type", employment_type j);
    ("working_hours", working_hours j) ].

(** [Job.from_api(hit)].  The keyword arguments are evaluated in the
    order written, so the first lookup that raises decides the
    exception. *)
Definition from_api (hit : value) : result t :=
  (id <- py_get hit "id" (VStr "") ;;
   title <- py_get hit "headline" (VStr UTAN_TITEL) ;;
   employer <- py_get hit "employer" (VDict []) ;;
   company <- py_get employer "name" (VStr OKAND_ARBETSGIVARE) ;;
   workplace_address <- py_get hit "workplace_address" (VDict []) ;;
   location <- py_get workplace_address "municipality" (VStr PLATS_EJ_ANGIVEN) ;;
   url <- py_get hit "webpage_url" (VStr "") ;;
   published_date <- py_get hit "publication_date" (VStr "") ;;
   deadline <- py_get hit "application_deadline" (VStr "") ;;
   description_ <- py_get hit "description" (VDict []) ;;
   description <- py_get description_ "text" (VStr "") ;;
   salary <- py_get hit "salary_description" (VStr "") ;;
   employment_type_ <- py_get hit "employment_type" (VDict []) ;;
   employment_type <- py_get employment_type_ "label" (VStr "") ;;
   working_hours_type <- py_get hit "working_hours_type" (VDict []) ;;
   working_hours <- py_get working_hours_type "label" (VStr "") ;;
   Ok (mk id title company location url published_date deadline
          description salary employment_type working_hours))%result.

Definition field_names : list string :=
  [ "id"; "title"; "company"; "location"; "url"; "published_date";
    "deadline"; "description"; "salary"; "employment_type"; "working_hours" ].

Definition required (d : dict) (k : string) : result value :=
  match dict_get d k with
  | Some v => Ok v
  | None =>
      Err (TypeError ("__init__() missing required positional argument: '" ++ k ++ "'"))
  end.

Definition optional (d : dict) (k : string) : value :=
  match dict_get d k with
  | Some v => v
  | None => VStr ""
  end.

(** [Job] called with the keywords of [d]: every key has to name a
    field; the first six fields have no default. *)
Definition init (d : dict) : result t :=
  match filter (fun k => negb (existsb (String.eqb k) field_names)) (dict_keys d) with
  | k :: _ =>
      Err (TypeError ("__init__() got an unexpected keyword argument '" ++ k ++ "'"))
  | [] =>
      (id <- required d "id" ;;
       title <- required d "title" ;;
       company <- required d "company" ;;
       location <- required d "location" ;;
       url <- required d "url" ;;
       published_date <- required d "published_date" ;;
       Ok (mk id title company location url published_date
              (optional d "deadline") (optional d "description")
              (optional d "salary") (optional d "employment_type")
              (optional d "working_hours")))%result
  end.

(** The five fields [from_api] reads through a nested object. *)
Definition nested_keys : list string :=
  [ "employer"; "workplace_address"; "description"; "employment_type";
    "working_hours_type" ].

(** The key is absent from the record, or holds an object. *)
Definition object_or_absent (d : dict) (k : string) : Prop :=
  match dict_get d k with
  | None => True
  | Some (VDict _) => True
  | Some _ => False
  end.

(** What a record gives for a key, with the default for an absent key. *)
Definition field (d : dict) (k : string) (default : string) : value :=
  match dict_get d k with
  | Some v => v
  | None => VStr default
  end.

(** The same one level down: the default when the outer key or the
    inner key is absent. *)
Definition nested (d : dict) (k k' : string) (default : string) : value :=
  match dict_get d k with
  | Some (VDict d') => field d' k' default
  | _ => VStr default
  end.

Definition is_str (v : value) : bool :=
  match v with
  | VStr _ => true
  | _ => false
  end.

(** A job as the dataclass declares it: every field a str. *)
Definition typed (j : t) : Prop :=
  forallb is_str (map snd (to_dict j)) = true.

End Job.

(** ** JSON text: [json.dumps] and [json.loads] *)

Module json.

Definition dquote : ascii := ascii_of_nat 34.
Definition backslash : ascii := ascii_of_nat 92.

Definition hex_digit (n : N) : ascii :=
  if (n <? 10)%N then ascii_of_N (48 + n) else ascii_of_N (87 + n).

(** One character inside a string literal, as [ensure_ascii] writes it:
    the printable ASCII characters stand for themselves, the quote, the
    backslash and the five short escapes take a backslash, every other
    character is written [\u00XX]. *)
Definition escape_char (c : ascii) : string :=
  let n := N_of_ascii c in
  let esc (x : ascii) := String backslash (String x EmptyString) in
  if (n =? 34)%N then esc dquote
  else if (n =? 92)%N then esc backslash
  else if (n =? 10)%N then esc "n"%char
  else if (n =? 13)%N then esc "r"%char
  else if (n =? 9)%N then esc "t"%char
  else if (n =? 12)%N then esc "f"%char
  else if (n =? 8)%N then esc "b"%char
  else if ((32 <=? n) && (n <=? 126))%N then String c EmptyString
  else String backslash
         (String "u" (String "0" (String "0"
            (String (hex_digit (n / 16)) (String (hex_digit (n mod 16))
               EmptyString))))).

Fixpoint escape (s : string) : string :=
  match s with
  | EmptyString => EmptyString
  | String c s' => escape_char c ++ escape s'
  end.

Definition quote (s : string) : string :=
  String dquote (escape s ++ String dquote EmptyString).

(** [json.dumps(v)] with the default separators. *)
Fixpoint dumps (v : value) : string :=
  match v with
  | VNone => "null"
  | VBool true => "true"
  | VBool false => "false"
  | VInt z => NilZero.string_of_int (Z.to_int z)
  | VStr s => quote s
  | VList l =>
      "[" ++
      (fix items (l : list value) : string :=
         match l with
         | [] => ""
         | [x] => dumps x
         | x :: l' => dumps x ++ ", " ++ items l'
         end) l ++ "]"
  | VDict d =>
      "{" ++
      (fix members (d : list (string * value)) : string :=
         match d with
         | [] => ""
         | [(k, x)] => quote k ++ ": " ++ dumps x
         | (k, x) :: d' => quote k ++ ": " ++ dumps x ++ ", " ++ members d'
         end) d ++ "}"
  end.

(** The text between the brackets of a list, and between the braces of
    a dict. *)
Fixpoint dumps_items (l : list value) : string :=
  match l with
  | [] => ""
  | [x] => dumps x
  | x :: l' => dumps x ++ ", " ++ dumps_items l'
  end.

Fixpoint dumps_members (d : list (string * value)) : string :=
  match d with
  | [] => ""
  | [(k, x)] => quote k ++ ": " ++ dumps x
  | (k, x) :: d' => quote k ++ ": " ++ dumps x ++ ", " ++ dumps_members d'
  end.

(** *** The decoder *)

Definition is_ws (c : ascii) : bool :=
  let n := N_of_ascii c in
  ((n =? 32) || (n =? 9) || (n =? 10) || (n =? 13))%N.

Fixpoint skip_ws (s : string) : string :=
  match s with
  | String c r => if is_ws c then skip_ws r else s
  | EmptyString => EmptyString
  end.

Definition hex_val (c : ascii) : option N :=
  let n := N_of_ascii c in
  if ((48 <=? n) && (n <=? 57))%N then Some (n - 48)%N
  else if ((97 <=? n) && (n <=? 102))%N then Some (n - 87)%N
  else if ((65 <=? n) && (n <=? 70))%N then Some (n - 55)%N
  else None.

(** The character a short escape stands for. *)
Definition unescape (c : ascii) : option ascii :=
  let n := N_of_ascii c in
  if (n =? 34)%N then Some dquote
  else if (n =? 92)%N then Some backslash
  else if (n =? 47)%N then Some "/"%char
  else if (n =? 98)%N then Some (ascii_of_nat 8)
  else if (n =? 102)%N then Some (ascii_of_nat 12)
  else if (n =? 110)%N then Some (ascii_of_nat 10)
  else if (n =? 114)%N then Some (ascii_of_nat 13)
  else if (n =? 116)%N then Some (ascii_of_nat 9)
  else None.

Inductive scan_state : Type :=
| InText
| InEscape
| InHex (todo : nat) (acc : N).

Definition push (c : ascii) (r : option (string * string))
  : option (string * string) :=
  match r with
  | Some (s, rest) => Some (String c s, rest)
  | None => None
  end.

(** The body of a string literal, from after the opening quote up to
    the closing one (strict mode: a raw control character is an error).
    An escape [\uXXXX] of a code point from 256 on is outside the
    characters of the model and is refused. *)
Fixpoint scanstring (st : scan_state) (s : string)
  : option (string * string) :=
  match s with
  | EmptyString => None
  | String c r =>
      match st with
      | InText =>
          if Ascii.eqb c dquote then Some (EmptyString, r)
          else if Ascii.eqb c backslash then scanstring InEscape r
          else if (N_of_ascii c <? 32)%N then None
          else push c (scanstring InText r)
      | InEscape =>
          if Ascii.eqb c "u" then scanstring (InHex 4 0) r
          else
            match unescape c with
            | Some c' => push c' (scanstring InText r)
            | None => None
            end
      | InHex (S todo) acc =>
          match hex_val c with
          | None => None
          | Some h =>
              let acc' := (16 * acc + h)%N in
              match todo with
              | O =>
                  if (acc' <? 256)%N
                  then push (ascii_of_N acc') (scanstring InText r)
                  else None
              | S _ => scanstring (InHex todo acc') r
              end
          end
      | InHex O _ => None
      end
  end.

Definition digit_of (c : ascii) : option (Decimal.uint -> Decimal.uint) :=
  match c with
  | "0"%char => Some Decimal.D0
  | "1"%char => Some Decimal.D1
  | "2"%char => Some Decimal.D2
  | "3"%char => Some Decimal.D3
  | "4"%char => Some Decimal.D4
  | "5"%char => Some Decimal.D5
  | "6"%char => Some Decimal.D6
  | "7"%char => Some Decimal.D7
  | "8"%char => Some Decimal.D8
  | "9"%char => Some Decimal.D9
  | _ => None
  end.

Fixpoint read_digits (s : string) : Decimal.uint * string :=
  match s with
  | EmptyString => (Decimal.Nil, EmptyString)
  | String c r =>
      match digit_of c with
      | Some D => let (d, r') := read_digits r in (D d, r')
      | None => (Decimal.Nil, s)
      end
  end.

(** What may not follow the digits of an int: a fraction or an exponent
    would make the literal a float. *)
Definition float_tail (s : string) : bool :=
  match s with
  | String "."%char _ | String "e"%char _ | String "E"%char _ => true
  | _ => false
  end.

(** The digits of a number, sign apart: a lone [0], or a digit from 1
    to 9 and the digits after it. *)
Definition scan_uint (s : string) : option (Decimal.uint * string) :=
  match s with
  | String "0"%char r =>
      if float_tail r then None else Some (Decimal.D0 Decimal.Nil, r)
  | String c r =>
      match digit_of c with
      | Some _ =>
          let (d, r') := read_digits s in
          if float_tail r' then None else Some (d, r')
      | None => None
      end
  | EmptyString => None
  end.

Definition scan_number (s : string) : option (value * string) :=
  match s with
  | String "-"%char r =>
      match scan_uint r with
      | Some (d, r') => Some (VInt (Z.of_int (Decimal.Neg d)), r')
      | None => None
      end
  | _ =>
      match scan_uint s with
      | Some (d, r') => Some (VInt (Z.of_int (Decimal.Pos d)), r')
      | None => None
      end
  end.

(** [prefix p s]: [s] without its prefix [p], when it has it. *)
Fixpoint strip_prefix (p s : string) : option string :=
  match p, s with
  | EmptyString, _ => Some s
  | String a p', String b s' =>
      if Ascii.eqb a b then strip_prefix p' s' else None
  | String _ _, EmptyString => None
  end.

(** [scan_once]: one JSON value at the head of [s].  The fuel bounds
    the nesting of the calls; [loads] gives enough for any text. *)
Fixpoint scan_once (fuel : nat) (s : string) : option (value * string) :=
  match fuel with
  | O => None
  | S fuel' =>
      match s with
      | EmptyString => None
      | String c r =>
          if Ascii.eqb c dquote then
            match scanstring InText r with
            | Some (str, r') => Some (VStr str, r')
            | None => None
            end
          else if Ascii.eqb c "{" then
            match skip_ws r with
            | String "}"%char r' => Some (VDict [], r')
            | r1 => scan_members fuel' r1 []
            end
          else if Ascii.eqb c "[" then
            match skip_ws r with
            | String "]"%char r' => Some (VList [], r')
            | r1 => scan_items fuel' r1 []
            end
          else if Ascii.eqb c "n" then
            match strip_prefix "ull" r with
            | Some r' => Some (VNone, r')
            | None => None
            end
          else if Ascii.eqb c "t" then
            match strip_prefix "rue" r with
            | Some r' => Some (VBool true, r')
            | None => None
            end
          else if Ascii.eqb c "f" then
            match strip_prefix "alse" r with
            | Some r' => Some (VBool false, r')
            | None => None
            end
          else scan_number s
      end
  end
with scan_items (fuel : nat) (s : string) (acc : list value)
  : option (value * string) :=
  match fuel with
  | O => None
  | S fuel' =>
      match scan_once fuel' s with
      | None => None
      | Some (v, r) =>
          match skip_ws r with
          | String ","%char r' => scan_items fuel' (skip_ws r') (v :: acc)
          | String "]"%char r' => Some (VList (rev (v :: acc)), r')
          | _ => None
          end
      end
  end
with scan_members (fuel : nat) (s : string) (acc : dict)
  : option (value * string) :=
  match fuel with
  | O => None
  | S fuel' =>
      match s with
      | String c r =>
          if Ascii.eqb c dquote then
            match scanstring InText r with
            | None => None
            | Some (k, r1) =>
                match skip_ws r1 with
                | String ":"%char r2 =>
                    match scan_once fuel' (skip_ws r2) with
                    | None => None
                    | Some (v, r3) =>
                        match skip_ws r3 with
                        | String ","%char r4 =>
                            scan_members fuel' (skip_ws r4) (dict_set acc k v)
                        | String "}"%char r4 =>
                            Some (VDict (dict_set acc k v), r4)
                        | _ => None
                        end
                    end
                | _ => None
                end
            end
          else None
      | EmptyString => None
      end
  end.

(** [json.loads(s)]: one value, white space around it, nothing else.
    [None] stands for JSONDecodeError. *)
Definition loads (s : string) : option value :=
  match scan_once (S (String.length s)) (skip_ws s) with
  | Some (v, rest) =>
      match skip_ws rest with
      | EmptyString => Some v
      | _ => None
      end
  | None => None
  end.

(** *** What the codec is proved on *)

Fixpoint distinct (l : list string) : bool :=
  match l with
  | [] => true
  | k :: l' => negb (existsb (String.eqb k) l') && distinct l'
  end.

(** A value as Python builds it: no dict holds a key twice. *)
Fixpoint well_formed (v : value) : bool :=
  match v with
  | VList l => forallb well_formed l
  | VDict d =>
      distinct (map fst d) && forallb (fun kv => well_formed (snd kv)) d
  | _ => true
  end.

(** The calls of the decoder that one value takes: a bound on the fuel. *)
Fixpoint cost (v : value) : nat :=
  match v with
  | VList l => S (fold_right (fun x n => S (cost x + n)%nat) O l)
  | VDict d => S (fold_right (fun kv n => S (cost (snd kv) + n)%nat) O d)
  | _ => 1%nat
  end.

(** A text that starts with something else than white space or a
    closing bracket or brace. *)
Definition opens (s : string) : bool :=
  match s with
  | EmptyString => false
  | String c _ =>
      negb (is_ws c) && negb (Ascii.eqb c "]") && negb (Ascii.eqb c "}")
  end.

(** What may follow a value in a text: not a digit, and not the start of
    a fraction or of an exponent. *)
Definition delimited (rest : string) : bool :=
  match rest with
  | EmptyString => true
  | String c _ =>
      match digit_of c with
      | Some _ => false
      | None => negb (float_tail rest)
      end
  end.

(** What the decoder has to do on the text of [v], whatever follows it. *)
Definition decodes (v : value) : Prop :=
  well_formed v = true ->
  forall (fuel : nat) (rest : string),
    (cost v <= fuel)%nat -> delimited rest = true ->
    scan_once fuel (dumps v ++ rest) = Some (v, rest).

Definition cost_items (l : list value) : nat :=
  fold_right (fun x n => S (cost x + n)%nat) O l.

Definition cost_members (d : dict) : nat :=
  fold_right (fun kv n => S (cost (snd kv) + n)%nat) O d.

End json.

(** ** Configuration and enumerations *)

Module Config.
Definition API_BASE_URL : string := "https://jobsearch.api.jobtechdev.se/search".
Definition API_TIMEOUT : Z := 10.
Definition MAX_RESULTS : Z := 100.
Definition MAX_HISTORY : Z := 50.
End Config.

Module JobStatus.
Inductive t : Type := NEW | SAVED | APPLIED | INTERVIEW | REJECTED | ACCEPTED.

Definition value (s : t) : string :=
  match s with
  | NEW => "new"
  | SAVED => "saved"
  | APPLIED => "applied"
  | INTERVIEW => "interview"
  | REJECTED => "rejected"
  | ACCEPTED => "accepted"
  end.
End JobStatus.

Module SearchQuery.
(** [@dataclass class SearchQuery]; [__post_init__] stamps it with the
    clock when no timestamp is given. *)
Record t : Type := mk {
  query : string;
  locations : list string;
  filters : dict;
  timestamp : Z
}.
End SearchQuery.

(** ** Dates: [datetime.now()], [timedelta(days=n)], [strftime('%Y-%m-%d')]

    The clock is read as a number of seconds; a date is the number of
    whole days in it (counted from 1970-01-01). *)

Module datetime.

Definition date_of (now : Z) : Z := now / 86400.

Definition civil (days : Z) : Z * Z * Z :=
  let z := days + 719468 in
  let era := z / 146097 in
  let doe := z - era * 146097 in
  let yoe := (doe - doe / 1460 + doe / 36524 - doe / 146096) / 365 in
  let doy := doe - (365 * yoe + yoe / 4 - yoe / 100) in
  let mp := (5 * doy + 2) / 153 in
  let d := doy - (153 * mp + 2) / 5 + 1 in
  let m := if mp <? 10 then mp + 3 else mp - 9 in
  let y := yoe + era * 400 + (if m <=? 2 then 1 else 0) in
  (y, m, d).

Definition decimal (z : Z) : string := NilZero.string_of_int (Z.to_int z).

Definition pad (width : nat) (z : Z) : string :=
  let s := decimal z in
  (fix zeros (n : nat) : string :=
     match n with
     | O => s
     | S n' => String "0" (zeros n')
     end) (width - String.length s)%nat.

(** [strftime('%Y-%m-%d')] of a date. *)
Definition strftime_ymd (days : Z) : string :=
  let '(y, m, d) := civil days in
  pad 4 y ++ "-" ++ pad 2 m ++ "-" ++ pad 2 d.

End datetime.

(** ** The store: [DatabaseManager] over SQLite *)

Module sqlite3.

(** What a column holds. *)
Inductive sqlval : Type :=
| SNull
| SInt (z : Z)
| SText (s : string).

Definition sqlval_eqb (a b : sqlval) : bool :=
  match a, b with
  | SNull, SNull => true
  | SInt x, SInt y => x =? y
  | SText x, SText y => String.eqb x y
  | _, _ => false
  end.

(** The integers SQLite holds: 64 bits, signed. *)
Definition INT64_MIN : Z := -9223372036854775808.
Definition INT64_MAX : Z := 9223372036854775807.

Definition int64 (z : Z) : bool := (INT64_MIN <=? z) && (z <=? INT64_MAX).

(** Binding a Python object to a [?]: [None], numbers and str are
    adapted, an int that does not fit SQLite's integers is an
    OverflowError, anything else is refused. *)
Definition bind (o : value) : result sqlval :=
  match o with
  | VNone => Ok SNull
  | VBool b => Ok (SInt (if b then 1 else 0))
  | VInt z =>
      if int64 z then Ok (SInt z)
      else Err (OverflowError "Python int too large to convert to SQLite INTEGER")
  | VStr s => Ok (SText s)
  | VList _ | VDict _ =>
      Err (ProgrammingError
             ("Error binding parameter: type '" ++ type_name o
                ++ "' is not supported"))
  end.


(** A column declared TEXT stores a number as its decimal text. *)
Definition text_affinity (v : sqlval) : sqlval :=
  match v with
  | SInt z => SText (datetime.decimal z)
  | _ => v
  end.

(** [SELECT DISTINCT]: of equal rows the first one read stays. *)
Fixpoint select_distinct {A : Type} (dec : forall a b : A, {a = b} + {a <> b})
    (l : list A) : list A :=
  match l with
  | [] => []
  | x :: l' => x :: remove dec x (select_distinct dec l')
  end.

(** [ORDER BY key DESC].  SQL leaves the order of rows with equal keys
    open; the model keeps them in the order of the input, as SQLite's
    sorter does. *)
Fixpoint insert_desc {A : Type} (key : A -> Z) (x : A) (l : list A) : list A :=
  match l with
  | [] => [x]
  | y :: l' => if key y <=? key x then x :: l else y :: insert_desc key x l'
  end.

Definition order_by_desc {A : Type} (key : A -> Z) (l : list A) : list A :=
  fold_right (insert_desc key) [] l.

(** [LIMIT n]: a negative [n] puts no bound on the rows. *)
Definition limit {A : Type} (n : Z) (l : list A) : list A :=
  if n <? 0 then l else firstn (Z.to_nat n) l.

(** The order of [ORDER BY key DESC]: no row before one with a greater
    key. *)
Definition desc {A : Type} (key : A -> Z) (a b : A) : Prop := key b <= key a.

End sqlite3.

Module DatabaseManager.
Import sqlite3.

(** A row of [search_history].  The timestamp column is filled by
    CURRENT_TIMESTAMP, a text ['YYYY-MM-DD HH:MM:SS'] that sorts as the
    instant it names does; the model keeps the instant, in seconds. *)
Record history_row : Type := mk_history_row {
  h_id : Z;
  h_query : string;
  h_locations : option string;
  h_filters : option string;
  h_timestamp : Z
}.

(** A row of [saved_jobs]. *)
Record saved_row : Type := mk_saved_row {
  job_id : sqlval;
  s_title : sqlval;
  s_company : sqlval;
  s_location : sqlval;
  s_url : sqlval;
  status : string;
  notes : string;
  saved_date : Z;
  data : string
}.

(** The database file: whether it can be opened, and its tables in the
    order of insertion.  ([watched_searches] is created and never
    used.) *)
Record t : Type := mk {
  fault : option exn;
  search_history : list history_row;
  saved_jobs : list saved_row
}.

(** What one entry of [get_search_history] holds. *)
Record history_entry : Type := mk_history_entry {
  query : string;
  locations : value;
  timestamp : Z
}.

(** [sqlite3.connect(self.db_path)] *)
Definition connect (self : t) : result unit :=
  match fault self with
  | Some e => Err e
  | None => Ok tt
  end.

(** [_init_database]: CREATE TABLE IF NOT EXISTS leaves the rows of an
    existing table alone. *)
Definition _init_database (self : t) : result t :=
  (_ <- connect self ;; Ok self)%result.

Definition empty : t := mk None [] [].

Definition save_search (now : Z) (self : t) (query : SearchQuery.t) : result t :=
  (_ <- connect self ;;
   let row :=
     mk_history_row
       (Z.of_nat (List.length (search_history self)) + 1)
       (SearchQuery.query query)
       (Some (json.dumps (VList (map VStr (SearchQuery.locations query)))))
       (Some (json.dumps (VDict (SearchQuery.filters query))))
       now in
   Ok (mk (fault self) (search_history self ++ [row]) (saved_jobs self)))%result.

Definition triple : Type := (string * option string * Z)%type.

Definition triple_eq_dec (a b : triple) : {a = b} + {a <> b}.
Proof.
  repeat decide equality; try apply string_dec; try apply Ascii.ascii_dec.
Defined.

(** [SELECT DISTINCT query, locations, timestamp FROM search_history
    ORDER BY timestamp DESC LIMIT ?] *)
Definition select_history (n : Z) (self : t) : list triple :=
  limit n
    (order_by_desc (fun r : triple => snd r)
       (select_distinct triple_eq_dec
          (map (fun r => (h_query r, h_locations r, h_timestamp r))
             (search_history self)))).

(** [json.loads(row[1]) if row[1] else []] *)
Definition decode_locations (text : option string) : result value :=
  match text with
  | None => Ok (VList [])
  | Some EmptyString => Ok (VList [])
  | Some s =>
      match json.loads s with
      | Some v => Ok v
      | None => Err (JSONDecodeError "Expecting value")
      end
  end.

Definition get_search_history (self : t) (n : Z) : result (list history_entry) :=
  (_ <- connect self ;;
   _ <- bind (VInt n) ;;
   map_result
     (fun row : triple =>
        let '(q, l, ts) := row in
        locs <- decode_locations l ;;
        Ok (mk_history_entry q locs ts))
     (select_history n self))%result.

(** INSERT OR REPLACE: the rows in conflict on the primary key go, the
    new row is added.  NULL is in conflict with nothing. *)
Definition conflicts (key : sqlval) (row : saved_row) : bool :=
  match key with
  | SNull => false
  | _ => sqlval_eqb (job_id row) key
  end.

Definition save_job (now : Z) (self : t) (job : Job.t)
    (status : JobStatus.t) (notes : string) : result t :=
  (_ <- connect self ;;
   id <- bind (Job.id job) ;;
   title <- bind (Job.title job) ;;
   company <- bind (Job.company job) ;;
   location <- bind (Job.location job) ;;
   url <- bind (Job.url job) ;;
   let key := text_affinity id in
   let row :=
     mk_saved_row key (text_affinity title) (text_affinity company)
       (text_affinity location) (text_affinity url)
       (JobStatus.value status) notes now
       (json.dumps (VDict (Job.to_dict job))) in
   Ok (mk (fault self) (search_history self)
          (filter (fun r => negb (conflicts key r)) (saved_jobs self) ++ [row])))%result.

(** The job of a row: [Job] called with the keywords that
    [json.loads(row[0])] holds. *)
Definition load_job (text : string) : result Job.t :=
  match json.loads text with
  | None => Err (JSONDecodeError "Expecting value")
  | Some (VDict d) => Job.init d
  | Some v =>
      Err (TypeError ("argument after ** must be a mapping, not " ++ type_name v))
  end.

Definition get_saved_jobs (self : t) (status_ : option JobStatus.t)
  : result (list Job.t) :=
  (_ <- connect self ;;
   let rows :=
     match status_ with
     | Some st =>
         filter (fun r => String.eqb (status r) (JobStatus.value st))
           (saved_jobs self)
     | None => saved_jobs self
     end in
   map_result (fun r => load_job (data r)) (order_by_desc saved_date rows))%result.

Definition delete_job (self : t) (id : string) : result t :=
  (_ <- connect self ;;
   Ok (mk (fault self) (search_history self)
          (filter (fun r => negb (sqlval_eqb (job_id r) (SText id)))
             (saved_jobs self))))%result.

(** The key [save_job] gives the row of a job: the id as SQLite binds
    it, in a column declared TEXT. *)
Definition key_of (job : Job.t) : result sqlval :=
  (id <- bind (Job.id job) ;; Ok (text_affinity id))%result.

(** *** The stores the operations leave behind *)

(** The triples [get_search_history] selects from. *)
Definition history_triples (self : t) : list triple :=
  map (fun r => (h_query r, h_locations r, h_timestamp r)) (search_history self).

(** Every row of the history holds the locations as [save_search] writes
    them: the JSON text of a list of str. *)
Definition history_ok (self : t) : Prop :=
  Forall
    (fun r =>
       exists locs : list string,
         h_locations r = Some (json.dumps (VList (map VStr locs))))
    (search_history self).

(** The payload of a saved row is the text of a job, and the key of the
    row is the id of that job. *)
Definition row_consistent (r : saved_row) : Prop :=
  exists (j : Job.t) (s : string),
    load_job (data r) = Ok j /\ Job.id j = VStr s /\ job_id r = SText s.

Definition saved_ok (self : t) : Prop :=
  Forall row_consistent (saved_jobs self).


(** The payload of a saved row is the text of a job, and the key of the
    row is the key of that job, whatever the id of the job is. *)
Definition row_keyed (r : saved_row) : Prop :=
  exists j : Job.t, load_job (data r) = Ok j /\ key_of j = Ok (job_id r).

Definition store_keyed (self : t) : Prop :=
  Forall row_keyed (saved_jobs self).

(** A sequence of [save_job] calls, each at its own instant and with
    its own job, status and notes. *)
Definition call : Type := (Z * Job.t * JobStatus.t * string)%type.

Definition job_of (c : call) : Job.t := snd (fst (fst c)).

Fixpoint save_many (self : t) (calls : list call) : result t :=
  match calls with
  | [] => Ok self
  | (now, job, status, notes) :: calls' =>
      match save_job now self job status notes with
      | Ok self' => save_many self' calls'
      | Err e => Err e
      end
  end.


(** *** What is proved of the operations *)

(** Most recent first. *)
Definition newest_first (a b : history_entry) : Prop := timestamp b <= timestamp a.

(** The entry made of a selected triple. *)
Definition entry_of (x : triple) : history_entry :=
  mk_history_entry (fst (fst x))
    (match decode_locations (snd (fst x)) with
     | Ok v => v
     | Err _ => VList []
     end)
    (snd x).

(** [get_search_history(n)] returns; what it returns has at most [n]
    entries, the most recent first, one for each of the triples the
    query selects; these are stored triples, no triple twice; and when
    the distinct stored triples are no more than [n], every stored
    triple is there, so that two rows with the same query and different
    locations or timestamps give two entries. *)
Definition history_listed (self : t) (n : Z) : Prop :=
  exists entries,
    get_search_history self n = Ok entries /\
    Z.of_nat (List.length entries) <= n /\
    StronglySorted newest_first entries /\
    Forall2
      (fun e x =>
         query e = fst (fst x) /\ timestamp e = snd x /\
         decode_locations (snd (fst x)) = Ok (locations e))
      entries (select_history n self) /\
    NoDup (select_history n self) /\
    (forall x, In x (select_history n self) -> In x (history_triples self)) /\
    (Z.of_nat (List.length (select_distinct triple_eq_dec (history_triples self)))
     <= n ->
     forall x, In x (history_triples self) -> In x (select_history n self)).



End DatabaseManager.

(** ** The HTTP session *)

Module requests.

Record request : Type := mk_request {
  url : string;
  params : dict;
  timeout : Z
}.

(** What [session.get] comes back with: an exception of the transport
    (no connection, timeout), or a response with its status and what
    [response.json()] makes of its body ([None]: the body is not
    JSON). *)
Inductive outcome : Type :=
| Unreachable (e : exn)
| Response (status_code : Z) (body : option value).

(** [response.raise_for_status()] *)
Definition raise_for_status (status_code : Z) : result unit :=
  if (400 <=? status_code) && (status_code <? 600)
  then Err (RequestException (datetime.decimal status_code ++ " Error"))
  else Ok tt.

(** [response.json()] *)
Definition json (body : option value) : result value :=
  match body with
  | Some v => Ok v
  | None => Err (JSONDecodeError "Expecting value")
  end.

End requests.

(** ** The process: the application object, the widgets, the log, the
       requests sent, the callbacks handed to Tk *)

(** The lines of the log. *)
Inductive logrec : Type :=
| LogSearching (query : string) (locations : option (list string))
                                         (* info: Searching: .. in .. *)
| LogFound (n : value)                   (* info: Found .. results *)
| LogRequestFailed (e : exn)             (* error: API request failed: .. *)
| LogParseFailed (e : exn)               (* error: Failed to parse API response: .. *)
| LogSearchFailed (e : exn)              (* error: Search failed: .. *)
| LogEmptyQuery.                         (* warning: Empty search query *)

(** The functions handed to [self.after(0, ...)].  The second is
    [lambda: self._display_error(str(e))]: it holds no exception, it
    holds the variable [e] of the worker, here the number of its cell,
    and reads it when it is called. *)
Inductive callback : Type :=
| DisplayResults (jobs : list Job.t) (total : value)
| DisplayError (cell : nat)
| EnableSearch.

Inductive button_state : Type := Normal | Disabled.

(** The two texts of the search button. *)
Inductive button_text : Type :=
| TextSok         (* Sök Jobb *)
| TextSoker.      (* Söker... *)

Record button : Type := mk_button {
  state : button_state;
  text : button_text
}.

(** The texts of the statistics label. *)
Inductive stats : Type :=
| StatsPrompt                              (* Sök efter jobb ovan *)
| StatsSearching                           (* Söker... *)
| StatsShowing (count : nat) (total : value)  (* Visar <count> av <total> jobb *)
| StatsFound (count : nat)                 (* <count> jobb hittades *)
| StatsFailed.                             (* Sökning misslyckades *)

(** What is inserted in the results text. *)
Inductive segment : Type :=
| SegLoading                               (* Söker... *)
| SegNoResults                             (* Inga jobb hittades *)
| SegJobCard (index : nat) (job : Job.t)
| SegError (error : string).               (* Fel: <error> *)

(** What the process does to the world outside, in the order it does
    it: a call of [save_search] with how it ended ([None]: the row is
    committed), a GET sent. *)
Inductive io_event : Type :=
| IoSaveSearch (search_query : SearchQuery.t) (raised : option exn)
| IoHttpGet (req : requests.request).

(** The arguments a worker thread is started with. *)
Definition thread_args : Type := (string * list string * dict)%type.

Record World : Type := mkWorld {
  db : DatabaseManager.t;
  selected_orts : list string;
  current_filters : dict;
  all_jobs : list Job.t;
  filter_visible : bool;
  entry_yrke : string;
  btn_sok : button;
  stats_label : stats;
  results_area : list segment;
  history_frame : list string;
  log : list logrec;
  io : list io_event;
  after_queue : list callback;
  threads : list thread_args;
  cells : list (option exn);
  tk_errors : list exn
}.

Definition set_db (x : DatabaseManager.t) (w : World) : World :=
  mkWorld x (selected_orts w) (current_filters w) (all_jobs w)
    (filter_visible w) (entry_yrke w) (btn_sok w) (stats_label w)
    (results_area w) (history_frame w) (log w) (io w) (after_queue w)
    (threads w) (cells w) (tk_errors w).

Definition set_selected_orts (x : list string) (w : World) : World :=
  mkWorld (db w) x (current_filters w) (all_jobs w) (filter_visible w)
    (entry_yrke w) (btn_sok w) (stats_label w) (results_area w)
    (history_frame w) (log w) (io w) (after_queue w) (threads w) (cells w)
    (tk_errors w).

Definition set_current_filters (x : dict) (w : World) : World :=
  mkWorld (db w) (selected_orts w) x (all_jobs w) (filter_visible w)
    (entry_yrke w) (btn_sok w) (stats_label w) (results_area w)
    (history_frame w) (log w) (io w) (after_queue w) (threads w) (cells w)
    (tk_errors w).

Definition set_all_jobs (x : list Job.t) (w : World) : World :=
  mkWorld (db w) (selected_orts w) (current_filters w) x (filter_visible w)
    (entry_yrke w) (btn_sok w) (stats_label w) (results_area w)
    (history_frame w) (log w) (io w) (after_queue w) (threads w) (cells w)
    (tk_errors w).

Definition set_filter_visible (x : bool) (w : World) : World :=
  mkWorld (db w) (selected_orts w) (current_filters w) (all_jobs w) x
    (entry_yrke w) (btn_sok w) (stats_label w) (results_area w)
    (history_frame w) (log w) (io w) (after_queue w) (threads w) (cells w)
    (tk_errors w).

Definition set_entry_yrke (x : string) (w : World) : World :=
  mkWorld (db w) (selected_orts w) (current_filters w) (all_jobs w)
    (filter_visible w) x (btn_sok w) (stats_label w) (results_area w)
    (history_frame w) (log w) (io w) (after_queue w) (threads w) (cells w)
    (tk_errors w).

Definition set_btn_sok (x : button) (w : World) : World :=
  mkWorld (db w) (selected_orts w) (current_filters w) (all_jobs w)
    (filter_visible w) (entry_yrke w) x (stats_label w) (results_area w)
    (history_frame w) (log w) (io w) (after_queue w) (threads w) (cells w)
    (tk_errors w).

Definition set_stats_label (x : stats) (w : World) : World :=
  mkWorld (db w) (selected_orts w) (current_filters w) (all_jobs w)
    (filter_visible w) (entry_yrke w) (btn_sok w) x (results_area w)
    (history_frame w) (log w) (io w) (after_queue w) (threads w) (cells w)
    (tk_errors w).

Definition set_results_area (x : list segment) (w : World) : World :=
  mkWorld (db w) (selected_orts w) (current_filters w) (all_jobs w)
    (filter_visible w) (entry_yrke w) (btn_sok w) (stats_label w) x
    (history_frame w) (log w) (io w) (after_queue w) (threads w) (cells w)
    (tk_errors w).

Definition set_history_frame (x : list string) (w : World) : World :=
  mkWorld (db w) (selected_orts w) (current_filters w) (all_jobs w)
    (filter_visible w) (entry_yrke w) (btn_sok w) (stats_label w)
    (results_area w) x (log w) (io w) (after_queue w) (threads w) (cells w)
    (tk_errors w).

Definition set_log (x : list logrec) (w : World) : World :=
  mkWorld (db w) (selected_orts w) (current_filters w) (all_jobs w)
    (filter_visible w) (entry_yrke w) (btn_sok w) (stats_label w)
    (results_area w) (history_frame w) x (io w) (after_queue w) (threads w)
    (cells w) (tk_errors w).

Definition set_io (x : list io_event) (w : World) : World :=
  mkWorld (db w) (selected_orts w) (current_filters w) (all_jobs w)
    (filter_visible w) (entry_yrke w) (btn_sok w) (stats_label w)
    (results_area w) (history_frame w) (log w) x (after_queue w) (threads w)
    (cells w) (tk_errors w).

Definition set_after_queue (x : list callback) (w : World) : World :=
  mkWorld (db w) (selected_orts w) (current_filters w) (all_jobs w)
    (filter_visible w) (entry_yrke w) (btn_sok w) (stats_label w)
    (results_area w) (history_frame w) (log w) (io w) x (threads w)
    (cells w) (tk_errors w).

Definition set_threads (x : list thread_args) (w : World) : World :=
  mkWorld (db w) (selected_orts w) (current_filters w) (all_jobs w)
    (filter_visible w) (entry_yrke w) (btn_sok w) (stats_label w)
    (results_area w) (history_frame w) (log w) (io w) (after_queue w) x
    (cells w) (tk_errors w).

Definition set_cells (x : list (option exn)) (w : World) : World :=
  mkWorld (db w) (selected_orts w) (current_filters w) (all_jobs w)
    (filter_visible w) (entry_yrke w) (btn_sok w) (stats_label w)
    (results_area w) (history_frame w) (log w) (io w) (after_queue w)
    (threads w) x (tk_errors w).

Definition set_tk_errors (x : list exn) (w : World) : World :=
  mkWorld (db w) (selected_orts w) (current_filters w) (all_jobs w)
    (filter_visible w) (entry_yrke w) (btn_sok w) (stats_label w)
    (results_area w) (history_frame w) (log w) (io w) (after_queue w)
    (threads w) (cells w) x.


(** What the process does not own: the clock and the network. *)
Record Env : Type := mkEnv {
  clock : Z;
  http : requests.request -> requests.outcome
}.

(** Computations that read the environment, change the process and may
    raise.  What was changed before an exception stays changed. *)
Definition M (A : Type) : Type := Env -> World -> result A * World.

Definition ret {A : Type} (a : A) : M A := fun _ w => (Ok a, w).

Definition bind {A B : Type} (c : M A) (f : A -> M B) : M B :=
  fun env w =>
    match c env w with
    | (Ok a, w') => f a env w'
    | (Err e, w') => (Err e, w')
    end.

Definition raise {A : Type} (e : exn) : M A := fun _ w => (Err e, w).

Definition lift {A : Type} (r : result A) : M A := fun _ w => (r, w).

Definition ask : M Env := fun env w => (Ok env, w).

Definition get : M World := fun _ w => (Ok w, w).

Definition modify (f : World -> World) : M unit := fun _ w => (Ok tt, f w).

Declare Scope monad_scope.
Delimit Scope monad_scope with monad.
Notation "x <- c ;; k" := (bind c (fun x => k))
  (at level 61, c at next level, right associativity) : monad_scope.
Notation "c ;; k" := (bind c (fun _ => k))
  (at level 61, right associativity) : monad_scope.

(** [try: c  except Exception: h] for a handler that does not name the
    exception in a closure. *)
Definition try_except {A : Type} (c : M A) (h : exn -> M A) : M A :=
  fun env w =>
    match c env w with
    | (Ok a, w') => (Ok a, w')
    | (Err e, w') => h e env w'
    end.

(** [try: c  except Exception as e: h].  The variable [e] lives in a
    cell of its own, which a closure made by the handler shares.  Python
    binds it on entry and unbinds it when the handler is left, however it
    is left. *)
Definition try_except_as {A : Type} (c : M A) (h : nat -> exn -> M A) : M A :=
  fun env w =>
    match c env w with
    | (Ok a, w') => (Ok a, w')
    | (Err e, w') =>
        let cell := List.length (cells w') in
        let '(r, w'') := h cell e env (set_cells (cells w' ++ [Some e]) w') in
        (r, set_cells (firstn cell (cells w'') ++ None :: skipn (S cell) (cells w'')) w'')
    end.

(** [try: c  finally: f] *)
Definition try_finally {A : Type} (c : M A) (f : M unit) : M A :=
  fun env w =>
    let '(r, w') := c env w in
    match f env w' with
    | (Ok _, w'') => (r, w'')
    | (Err e, w'') => (Err e, w'')
    end.

Definition logging (r : logrec) : M unit :=
  modify (fun w => set_log (log w ++ [r]) w).

(** [self.after(0, f)]: [f] joins the callbacks the main loop will run. *)
Definition after (f : callback) : M unit :=
  modify (fun w => set_after_queue (after_queue w ++ [f]) w).

(** Reading the variable of a cell; an unbound one is a NameError. *)
Definition read_cell (cell : nat) : M exn :=
  fun _ w =>
    match nth_error (cells w) cell with
    | Some (Some e) => (Ok e, w)
    | _ => (Err (NameError "e"), w)
    end.

(** ** The search client *)

Module JobAPIClient.

(** [filters.get(k) == s] *)
Definition get_eq (filters : dict) (k s : string) : bool :=
  match dict_get filters k with
  | Some v => str_eq v s
  | None => false
  end.

(** [(datetime.now() - timedelta(days=n)).strftime('%Y-%m-%d')] *)
Definition days_ago (now n : Z) : value :=
  VStr (datetime.strftime_ymd (datetime.date_of now - n)).

Definition _build_filter_params (now : Z) (filters : dict) : result dict :=
  let params : dict := [] in
  let params :=
    if get_eq filters "omfattning" "heltid"
    then dict_set params "working-hours-type" (VStr "heltid")
    else if get_eq filters "omfattning" "deltid"
    then dict_set params "working-hours-type" (VStr "deltid")
    else params in
  if negb (get_eq filters "publicerad" "alla") then
    (period <- dict_item filters "publicerad" ;;
     if str_eq period "idag"
     then Ok (dict_set params "published-after" (days_ago now 0))
     else if str_eq period "7dagar"
     then Ok (dict_set params "published-after" (days_ago now 7))
     else if str_eq period "30dagar"
     then Ok (dict_set params "published-after" (days_ago now 30))
     else Ok params)%result
  else Ok params.

(** [','.join(locations)] *)
Fixpoint join (sep : string) (l : list string) : string :=
  match l with
  | [] => ""
  | [x] => x
  | x :: l' => x ++ sep ++ join sep l'
  end.

(** The parameters of the request, as [search] builds them before its
    [try]. *)
Definition build_params (now : Z) (query : string)
    (locations : option (list string)) (filters : option dict)
    (limit : option Z) : result dict :=
  let params : dict :=
    [ ("q", VStr query);
      ("limit",
       VInt (match limit with
             | Some n => if n =? 0 then Config.MAX_RESULTS else n
             | None => Config.MAX_RESULTS
             end)) ] in
  let params :=
    match locations with
    | Some (x :: l) => dict_set params "municipality" (VStr (join "," (x :: l)))
    | _ => params
    end in
  match filters with
  | Some (kv :: d) =>
      (fp <- _build_filter_params now (kv :: d) ;;
       Ok (dict_update params fp))%result
  | _ => Ok params
  end.

(** [self.session.get(self.base_url, params=params, timeout=self.timeout)] *)
Definition session_get (params : dict) : M (Z * option value) :=
  fun env w =>
    let req := requests.mk_request Config.API_BASE_URL params Config.API_TIMEOUT in
    let w' := set_io (io w ++ [IoHttpGet req]) w in
    match http env req with
    | requests.Unreachable e => (Err e, w')
    | requests.Response status_code body => (Ok (status_code, body), w')
    end.

(** The two [except] clauses of [search]: log and raise again.  What
    [response.json()] raises is the JSONDecodeError of requests, which is
    a RequestException as well (requests 2.27 and later), so the first
    clause takes it and the second is left with nothing that the [try]
    block raises.  Any other exception passes through. *)
Definition reraise {A : Type} (e : exn) : M A :=
  (match e with
   | RequestException _ | JSONDecodeError _ =>
       logging (LogRequestFailed e) ;; raise e
   | _ => raise e
   end)%monad.

Definition search (query : string) (locations : option (list string))
    (filters : option dict) (limit : option Z) : M value :=
  (env <- ask ;;
   params <- lift (build_params (clock env) query locations filters limit) ;;
   try_except
     (logging (LogSearching query locations) ;;
      response <- session_get params ;;
      lift (requests.raise_for_status (fst response)) ;;
      data <- lift (requests.json (snd response)) ;;
      found <- lift (total <- py_get data "total" (VDict []) ;;
                     py_get total "value" (VInt 0))%result ;;
      logging (LogFound found) ;;
      ret data)
     reraise)%monad.

(** The request [search] sends with given parameters, as it stands in
    the trace. *)
Definition request_of (params : dict) : io_event :=
  IoHttpGet (requests.mk_request Config.API_BASE_URL params Config.API_TIMEOUT).

End JobAPIClient.

(** ** The application: [JobFinderPro] *)

Module JobFinderPro.

(** The application as [__init__] leaves it, over a given store. *)
Definition init (db : DatabaseManager.t) : World :=
  mkWorld db [] [] [] false "" (mk_button Normal TextSok) StatsPrompt []
    [] [] [] [] [] [] [].

(** [str.isspace] on the characters of the model. *)
Definition is_space (c : ascii) : bool :=
  let n := N_of_ascii c in
  (((9 <=? n) && (n <=? 13)) || ((28 <=? n) && (n <=? 32))
   || (n =? 133) || (n =? 160))%N.

Fixpoint lstrip (s : string) : string :=
  match s with
  | String c r => if is_space c then lstrip r else s
  | EmptyString => EmptyString
  end.

Fixpoint rstrip (s : string) : string :=
  match s with
  | String c r =>
      match rstrip r with
      | EmptyString => if is_space c then EmptyString else String c EmptyString
      | r' => String c r'
      end
  | EmptyString => EmptyString
  end.

(** [s.strip()] *)
Definition strip (s : string) : string := rstrip (lstrip s).

(** [filter_jobs]: the filters are not applied. *)
Definition filter_jobs (jobs : list Job.t) (filters : dict) : list Job.t :=
  let filtered := jobs in
  filtered.

(** [self.db.save_search(search_query)] *)
Definition db_save_search (search_query : SearchQuery.t) : M unit :=
  fun env w =>
    match DatabaseManager.save_search (clock env) (db w) search_query with
    | Ok db' =>
        (Ok tt, set_db db' (set_io (io w ++ [IoSaveSearch search_query None]) w))
    | Err e =>
        (Err e, set_io (io w ++ [IoSaveSearch search_query (Some e)]) w)
    end.

(** [total > count] *)
Definition gt_count (total : value) (count : nat) : result bool :=
  match total with
  | VInt z => Ok (Z.of_nat count <? z)
  | VBool b => Ok (Z.of_nat count <? (if b then 1 else 0))
  | _ =>
      Err (TypeError ("'>' not supported between instances of '"
                        ++ type_name total ++ "' and 'int'"))
  end.

Definition load_history : M unit :=
  (modify (set_history_frame []) ;;
   w <- get ;;
   history <- lift (DatabaseManager.get_search_history (db w) 15) ;;
   modify (set_history_frame (map DatabaseManager.query history)))%monad.

(** The cards of [for i, job in enumerate(jobs, 1)]. *)
Fixpoint job_cards (i : nat) (jobs : list Job.t) : list segment :=
  match jobs with
  | [] => []
  | job :: jobs' => SegJobCard i job :: job_cards (S i) jobs'
  end.

Definition _display_results (jobs : list Job.t) (total : value) : M unit :=
  (modify (set_results_area []) ;;
   let count := List.length jobs in
   more <- lift (gt_count total count) ;;
   modify (set_stats_label
             (if more : bool then StatsShowing count total else StatsFound count)) ;;
   match count with
   | O => modify (fun w => set_results_area (results_area w ++ [SegNoResults]) w)
   | S _ =>
       modify (fun w => set_results_area (results_area w ++ job_cards 1 jobs) w) ;;
       load_history
   end)%monad.

(** [display_jobs]: the total shown is the number of held jobs. *)
Definition display_jobs (jobs : list Job.t) : M unit :=
  (w <- get ;;
   _display_results jobs (VInt (Z.of_nat (List.length (all_jobs w)))))%monad.

Definition apply_filters (filters : dict) : M unit :=
  (modify (set_current_filters filters) ;;
   w <- get ;;
   match all_jobs w with
   | [] => ret tt
   | _ => display_jobs (filter_jobs (all_jobs w) filters)
   end)%monad.

Definition _display_error (error : string) : M unit :=
  (modify (set_results_area [SegError error]) ;;
   modify (set_stats_label StatsFailed))%monad.

(** The [try] block of [_search_worker]. *)
Definition _search_worker_try (query : string) (locations : list string)
    (filters : dict) : M unit :=
  (env <- ask ;;
   let search_query := SearchQuery.mk query locations filters (clock env) in
   db_save_search search_query ;;
   result <- JobAPIClient.search query (Some locations) (Some filters) None ;;
   hits <- lift (py_get result "hits" (VList [])) ;;
   total <- lift (total <- py_get result "total" (VDict []) ;;
                  py_get total "value" (VInt 0))%result ;;
   jobs <- lift (items <- py_iter hits ;;
                 map_result Job.from_api items)%result ;;
   modify (set_all_jobs jobs) ;;
   after (DisplayResults jobs total))%monad.

(** The [except Exception as e] block. *)
Definition _search_worker_except (e_cell : nat) (e : exn) : M unit :=
  (logging (LogSearchFailed e) ;;
   after (DisplayError e_cell))%monad.

Definition _search_worker (query : string) (locations : list string)
    (filters : dict) : M unit :=
  try_finally
    (try_except_as (_search_worker_try query locations filters)
       _search_worker_except)
    (after EnableSearch).

Definition start_search : M unit :=
  (w <- get ;;
   let query := strip (entry_yrke w) in
   match query with
   | EmptyString => logging LogEmptyQuery
   | _ =>
       modify (set_results_area [SegLoading]) ;;
       modify (set_stats_label StatsSearching) ;;
       modify (set_btn_sok (mk_button Disabled TextSoker)) ;;
       modify (fun w' =>
                 set_threads
                   (threads w' ++ [(query, selected_orts w', current_filters w')]) w')
   end)%monad.

(** What a callback does when the main loop calls it. *)
Definition run_callback (f : callback) : M unit :=
  (match f with
   | DisplayResults jobs total => _display_results jobs total
   | DisplayError e_cell => e <- read_cell e_cell ;; _display_error (exn_str e)
   | EnableSearch => modify (set_btn_sok (mk_button Normal TextSok))
   end)%monad.

(** The main loop runs the callbacks in the order they were handed
    over; an exception in one is reported and the loop goes on. *)
Fixpoint run_callbacks (fs : list callback) : M unit :=
  match fs with
  | [] => ret tt
  | f :: fs' =>
      fun env w =>
        match run_callback f env w with
        | (Ok _, w') => run_callbacks fs' env w'
        | (Err e, w') =>
            run_callbacks fs' env (set_tk_errors (tk_errors w' ++ [e]) w')
        end
  end.

Definition mainloop : M unit :=
  fun env w => run_callbacks (after_queue w) env (set_after_queue [] w).

(** The worker threads started so far run, each to its end. *)
Fixpoint run_threads (ts : list thread_args) : M unit :=
  match ts with
  | [] => ret tt
  | (query, locations, filters) :: ts' =>
      fun env w =>
        run_threads ts' env (snd (_search_worker query locations filters env w))
  end.

Definition join_threads : M unit :=
  fun env w => run_threads (threads w) env (set_threads [] w).

(** One user action from the trigger to the last callback: the search
    is started, the worker runs to its end, and then the main loop runs
    what the worker handed over, as [after] is there for: the callbacks
    of a worker run after the worker has left its [except] and [finally]
    blocks. *)
Definition search_action : M unit :=
  (start_search ;; join_threads ;; mainloop)%monad.

(** [quick_search]: the entry is emptied, filled with the query, and the
    search is started. *)
Definition quick_search (query : string) : M unit :=
  (modify (set_entry_yrke query) ;; start_search)%monad.

(** The world a worker starts in: what [start_search] has set, and the
    thread taken from those waiting. *)
Definition started (w : World) : World :=
  set_threads []
    (set_btn_sok (mk_button Disabled TextSoker)
       (set_stats_label StatsSearching (set_results_area [SegLoading] w))).

(** *** What is proved of a search *)

(** The query was refused: a warning in the log and nothing else. *)
Definition rejected (env : Env) (w : World) : Prop :=
  start_search env w = (Ok tt, set_log (log w ++ [LogEmptyQuery]) w) /\
  let w' := snd (start_search env w) in
  db w' = db w /\ io w' = io w /\ all_jobs w' = all_jobs w /\
  threads w' = threads w /\ after_queue w' = after_queue w /\
  btn_sok w' = btn_sok w /\ stats_label w' = stats_label w /\
  results_area w' = results_area w.

(** The trace of a worker and, when the history write raised, the state
    it leaves: the write comes first; a request follows only a committed
    write, and only when the parameters could be built; after a failed
    write nothing is sent, the store and the held jobs are as before, the
    error is logged, and the error callback and the callback that
    enables the button are handed to the main loop. *)
Definition history_first (query : string) (locations : list string)
    (filters : dict) (env : Env) (w : World) : Prop :=
  let sq := SearchQuery.mk query locations filters (clock env) in
  let w' := snd (_search_worker query locations filters env w) in
  match DatabaseManager.save_search (clock env) (db w) sq with
  | Ok db' =>
      db w' = db' /\
      io w'
      = (io w ++ IoSaveSearch sq None
           :: match JobAPIClient.build_params (clock env) query
                      (Some locations) (Some filters) None with
              | Ok params => [JobAPIClient.request_of params]
              | Err _ => []
              end)%list
  | Err e =>
      io w' = (io w ++ [IoSaveSearch sq (Some e)])%list /\
      db w' = db w /\
      all_jobs w' = all_jobs w /\
      log w' = (log w ++ [LogSearchFailed e])%list /\
      after_queue w'
      = (after_queue w ++ [DisplayError (List.length (cells w)); EnableSearch])%list
  end.

(** A failed search, once the main loop has run what the worker handed
    over: the held jobs are those of before and the button is enabled,
    but [_display_error] never ran: its callback found [e] unbound, so
    the label and the results text are what they were and Tk has a
    NameError to report. *)
Definition failed_unshown (query : string) (locations : list string)
    (filters : dict) (env : Env) (w : World) : Prop :=
  let w' := snd (_search_worker query locations filters env w) in
  let w'' := snd (mainloop env w') in
  all_jobs w' = all_jobs w /\
  after_queue w' = [DisplayError (List.length (cells w)); EnableSearch] /\
  nth_error (cells w') (List.length (cells w)) = Some None /\
  all_jobs w'' = all_jobs w /\
  btn_sok w'' = mk_button Normal TextSok /\
  stats_label w'' = stats_label w /\
  results_area w'' = results_area w /\
  tk_errors w'' = (tk_errors w ++ [NameError "e"])%list.

(** The request of the search for "developer" with no location and no
    filter, and the municipality parameter of a search with locations. *)
Definition developer_request (env : Env) (w : World) : Prop :=
  let params := [("q", VStr "developer"); ("limit", VInt Config.MAX_RESULTS)] in
  io (snd (search_action env w))
  = (io w ++ [IoSaveSearch (SearchQuery.mk "developer" [] [] (clock env)) None;
              JobAPIClient.request_of params])%list /\
  dict_get params "municipality" = None /\
  (forall env' w',
     io (snd (JobAPIClient.search "developer" (Some []) (Some []) None env' w'))
     = (io w' ++ [JobAPIClient.request_of params])%list) /\
  (forall now query x l limit,
     exists params',
       JobAPIClient.build_params now query (Some (x :: l)) (Some []) limit = Ok params' /\
       dict_get params' "municipality" = Some (VStr (JobAPIClient.join "," (x :: l))) /\
       count_occ string_dec (dict_keys params') "municipality" = 1%nat) /\
  (forall now query x l filters limit,
     match JobAPIClient.build_params now query (Some (x :: l)) filters limit with
     | Ok params' =>
         dict_get params' "municipality"
         = Some (VStr (JobAPIClient.join "," (x :: l))) /\
         count_occ string_dec (dict_keys params') "municipality" = 1%nat
     | Err e =>
         exists d, filters = Some d /\ JobAPIClient._build_filter_params now d = Err e
     end).

End JobFinderPro.

(** ** Sequences of operations on the store *)

Module StoreOps.
Import sqlite3 DatabaseManager.

(** The writing operations of [DatabaseManager], as a caller issues
    them. *)
Inductive op : Type :=
| OpSaveSearch (now : Z) (query : SearchQuery.t)
| OpSaveJob (now : Z) (job : Job.t) (status : JobStatus.t) (notes : string)
| OpDeleteJob (id : string).

Definition apply_op (self : t) (o : op) : result t :=
  match o with
  | OpSaveSearch now query => save_search now self query
  | OpSaveJob now job status notes => save_job now self job status notes
  | OpDeleteJob id => delete_job self id
  end.

(** The store after a sequence of operations; one that raises leaves
    the store as it was, and the next one goes on from there. *)
Fixpoint run_ops (self : t) (ops : list op) : t :=
  match ops with
  | [] => self
  | o :: ops' =>
      match apply_op self o with
      | Ok self' => run_ops self' ops'
      | Err _ => run_ops self ops'
      end
  end.

(** The keys of the saved rows, NULL apart. *)
Definition keys (rows : list saved_row) : list sqlval :=
  flat_map (fun r => match job_id r with SNull => [] | k => [k] end) rows.


(** Every field of the job is a value as Python builds it. *)
Definition job_well_formed (j : Job.t) : Prop :=
  json.well_formed (VDict (Job.to_dict j)) = true.



(** Every saved row has a payload that decodes to a job. *)
Definition payloads_ok (self : t) : Prop :=
  Forall (fun r => exists j, load_job (data r) = Ok j) (saved_jobs self).

(** The row is read under the status filter. *)
Definition selected (status_ : option JobStatus.t) (r : saved_row) : bool :=
  match status_ with
  | Some st => String.eqb (status r) (JobStatus.value st)
  | None => true
  end.

(** [job.id == id] *)
Definition has_id (id : string) (job : Job.t) : bool := str_eq (Job.id job) id.

End StoreOps.

(** ** The filter menu: [FilterMenu] *)

Module FilterMenu.

(** The variables [get_active_filters] reads.  (The check boxes of
    [filter_values] and its [utbildning] are set up and never read.) *)
Record t : Type := mk {
  omfattning : string;
  publicerad : string;
  distance_var : Z;
  salary_var : Z;
  sort_var : string
}.

(** The menu as [__init__] and [setup_ui] leave it. *)
Definition init : t := mk "alla" "alla" 50 0 "relevans".

Definition get_active_filters (self : t) : dict :=
  [ ("omfattning", VStr (omfattning self));
    ("publicerad", VStr (publicerad self));
    ("distance", VInt (distance_var self));
    ("salary", VInt (salary_var self));
    ("sort", VStr (sort_var self)) ].

(** [notify_change]: [on_filter_change] is the callback the menu was
    made with, or [None]. *)
Definition notify_change (self : t) (on_filter_change : option (dict -> M unit))
  : M unit :=
  match on_filter_change with
  | Some f => f (get_active_filters self)
  | None => ret tt
  end.

End FilterMenu.

(** ** What a computation leaves alone *)

(** The part of the process a search may not touch before it has its
    result: everything but the store, the trace and the log. *)
Definition frame (w : World) : World :=
  set_db DatabaseManager.empty (set_io [] (set_log [] w)).

Definition preserves {A : Type} (c : M A) : Prop :=
  forall env w, frame (snd (c env w)) = frame w.

Definition fails_framed {A : Type} (c : M A) : Prop :=
  forall env w e w1, c env w = (Err e, w1) -> frame w1 = frame w.

Definition keeps {X A : Type} (proj : World -> X) (c : M A) : Prop :=
  forall env w, proj (snd (c env w)) = proj w.

(* ====================================================================== *)
(** * Part II: theorems                                                    *)
(* ====================================================================== *)

(** ** The job record *)

Module JobFacts.
Import Job.

Lemma py_get_dict (d : dict) (k : string) (default : string) :
  py_get (VDict d) k (VStr default) = Ok (field d k default).
Proof. reflexivity. Qed.

(** A nested lookup on a record whose outer key is absent or holds an
    object: the inner value, or the default. *)
Lemma nested_lookup (d : dict) (k k' : string) (default : string) :
  object_or_absent d k ->
  (o <- py_get (VDict d) k (VDict []) ;; py_get o k' (VStr default))%result
  = Ok (nested d k k' default).
Proof.
  unfold object_or_absent, nested. cbn.
  destruct (dict_get d k) as [[]|]; intros H; try contradiction; reflexivity.
Qed.

(** A nested lookup on a record whose outer key holds anything but an
    object raises AttributeError. *)
Lemma nested_lookup_raises (d : dict) (k k' : string) (v default : value) :
  dict_get d k = Some v ->
  (forall d', v <> VDict d') ->
  (o <- py_get (VDict d) k (VDict []) ;; py_get o k' default)%result
  = Err (AttributeError (type_name v) "get").
Proof.
  intros Hk Hv. cbn. rewrite Hk.
  destruct v; try reflexivity. exfalso. apply (Hv d0). reflexivity.
Qed.

(** C1 (as amended).  On a raw record in which each of the five nested
    fields is absent or an object, [from_api] returns a job and does
    not raise; each field is what the record holds for its key, or,
    independently of the others, its default when the key or the nested
    key is absent: the placeholders for title, company and location,
    the empty string for the rest. *)
Theorem from_api_defaults (d : dict) :
  (forall k, In k nested_keys -> object_or_absent d k) ->
  from_api (VDict d)
  = Ok (mk (field d "id" "")
           (field d "headline" UTAN_TITEL)
           (nested d "employer" "name" OKAND_ARBETSGIVARE)
           (nested d "workplace_address" "municipality" PLATS_EJ_ANGIVEN)
           (field d "webpage_url" "")
           (field d "publication_date" "")
           (field d "application_deadline" "")
           (nested d "description" "text" "")
           (field d "salary_description" "")
           (nested d "employment_type" "label" "")
           (nested d "working_hours_type" "label" "")).
Proof.
  intros H.
  assert (H1 : object_or_absent d "employer") by (apply H; simpl; tauto).
  assert (H2 : object_or_absent d "workplace_address") by (apply H; simpl; tauto).
  assert (H3 : object_or_absent d "description") by (apply H; simpl; tauto).
  assert (H4 : object_or_absent d "employment_type") by (apply H; simpl; tauto).
  assert (H5 : object_or_absent d "working_hours_type") by (apply H; simpl; tauto).
  clear H. unfold from_api, object_or_absent, nested, field in *. cbn.
  destruct (dict_get d "employer") as [[]|]; try contradiction;
  destruct (dict_get d "workplace_address") as [[]|]; try contradiction;
  destruct (dict_get d "description") as [[]|]; try contradiction;
  destruct (dict_get d "employment_type") as [[]|]; try contradiction;
  destruct (dict_get d "working_hours_type") as [[]|]; try contradiction;
  reflexivity.
Qed.

(** The record with no key at all: every field takes its default. *)
Lemma from_api_defaults_witness :
  (forall k, In k nested_keys -> object_or_absent [] k) /\
  from_api (VDict [])
  = Ok (mk (VStr "") (VStr UTAN_TITEL) (VStr OKAND_ARBETSGIVARE)
           (VStr PLATS_EJ_ANGIVEN) (VStr "") (VStr "") (VStr "") (VStr "")
           (VStr "") (VStr "") (VStr "")).
Proof.
  assert (H : forall k, In k nested_keys -> object_or_absent [] k)
    by (intros k _; exact I).
  split; [exact H | exact (from_api_defaults [] H)].
Defined.

(** C1 as it is written fails: a raw record whose [workplace_address]
    is null makes [from_api] raise. *)
Lemma from_api_not_total :
  from_api (VDict [("id", VStr "7"); ("workplace_address", VNone)])
  = Err (AttributeError "NoneType" "get") /\
  ~ (forall d : dict, exists j, from_api (VDict d) = Ok j).
Proof.
  split; [reflexivity|].
  intros H. destruct (H [("id", VStr "7"); ("workplace_address", VNone)]) as [j Hj].
  discriminate Hj.
Qed.

(** C10.  There are raw records on which [from_api] raises: a nested
    field that is present but null, or a string, has no [get], and the
    lookup raises AttributeError where an absent key takes the
    default. *)
Theorem from_api_raises_on_non_object :
  from_api (VDict [("employer", VNone)])
    = Err (AttributeError "NoneType" "get") /\
  from_api (VDict [("description", VNone)])
    = Err (AttributeError "NoneType" "get") /\
  from_api (VDict [("employment_type", VStr "Heltid")])
    = Err (AttributeError "str" "get") /\
  (exists d j, from_api (VDict (("employer", VDict []) :: d)) = Ok j).
Proof.
  repeat split.
  exists []. eexists. reflexivity.
Qed.

End JobFacts.


(** ** JSON: decoding what was encoded *)

Module JsonFacts.
Import json.

Lemma append_assoc (a b c : string) : (a ++ b) ++ c = a ++ (b ++ c).
Proof. induction a as [|x a IH]; simpl; [reflexivity | now rewrite IH]. Qed.

Lemma length_append (a b : string) :
  String.length (a ++ b) = (String.length a + String.length b)%nat.
Proof. induction a as [|x a IH]; simpl; [reflexivity | now rewrite IH]. Qed.

(** Induction on values, with the hypothesis for every item of a list
    and every value of a dict. *)
Lemma value_rect' (P : value -> Prop) :
  P VNone ->
  (forall b, P (VBool b)) ->
  (forall z, P (VInt z)) ->
  (forall s, P (VStr s)) ->
  (forall l, Forall P l -> P (VList l)) ->
  (forall d, Forall (fun kv => P (snd kv)) d -> P (VDict d)) ->
  forall v, P v.
Proof.
  intros HN HB HI HS HL HD.
  fix IH 1. intros [ | b | z | s | l | d ].
  - exact HN.
  - apply HB.
  - apply HI.
  - apply HS.
  - apply HL. induction l as [|x l IHl]; constructor; [apply IH | exact IHl].
  - apply HD. induction d as [|[k x] d IHd]; constructor; [apply IH | exact IHd].
Qed.

(** *** Strings *)

Ltac each_char c :=
  destruct c as [[] [] [] [] [] [] [] []].

Lemma scan_escape_char (c : ascii) (rest : string) :
  scanstring InText (escape_char c ++ rest) = push c (scanstring InText rest).
Proof. each_char c; reflexivity. Qed.

Lemma scan_escape (s rest : string) :
  scanstring InText (escape s ++ String dquote rest) = Some (s, rest).
Proof.
  induction s as [|c s IH]; simpl.
  - reflexivity.
  - rewrite append_assoc, scan_escape_char, IH. reflexivity.
Qed.

Lemma scan_quote (s rest : string) (fuel : nat) :
  scan_once (S fuel) (quote s ++ rest) = Some (VStr s, rest).
Proof.
  unfold quote. simpl. rewrite append_assoc. simpl.
  rewrite scan_escape. reflexivity.
Qed.

(** *** Numbers *)

Lemma delimited_inv (rest : string) :
  delimited rest = true ->
  float_tail rest = false /\ read_digits rest = (Decimal.Nil, rest).
Proof.
  destruct rest as [|c r]; simpl; [auto|].
  destruct (digit_of c) eqn:E; [discriminate|].
  intros H. split; [|reflexivity].
  now apply negb_true_iff in H.
Qed.

Lemma read_digits_string (d : Decimal.uint) (rest : string) :
  read_digits rest = (Decimal.Nil, rest) ->
  read_digits (NilEmpty.string_of_uint d ++ rest) = (d, rest).
Proof.
  intros H. induction d; simpl; try rewrite IHd; auto.
Qed.

Lemma to_uint_head (p : positive) :
  match Pos.to_uint p with
  | Decimal.Nil | Decimal.D0 _ => False
  | _ => True
  end.
Proof.
  pose proof (DecimalPos.Unsigned.to_uint_nonnil p) as Hnil.
  pose proof (DecimalPos.Unsigned.to_uint_nonzero p) as Hzero.
  pose proof (DecimalPos.Unsigned.to_of (Pos.to_uint p)) as Hnorm.
  rewrite DecimalPos.Unsigned.of_to in Hnorm. simpl in Hnorm.
  destruct (Pos.to_uint p) as [|d| | | | | | | | | ] eqn:E; try exact I.
  - now apply Hnil.
  - pose proof (DecimalFacts.nb_digits_nzhead d) as Hlen.
    unfold Decimal.unorm in Hnorm. simpl in Hnorm.
    destruct (Decimal.nzhead d) eqn:Eh; try discriminate Hnorm.
    + exact (Hzero Hnorm).
    + injection Hnorm as Hd. rewrite Hd in Hlen. simpl in Hlen. lia.
Qed.

Lemma scan_uint_pos (p : positive) (rest : string) :
  delimited rest = true ->
  scan_uint (NilEmpty.string_of_uint (Pos.to_uint p) ++ rest)
  = Some (Pos.to_uint p, rest).
Proof.
  intros H. destruct (delimited_inv rest H) as [Hf Hr].
  pose proof (to_uint_head p) as Hh.
  destruct (Pos.to_uint p) as [|d|d|d|d|d|d|d|d|d|d]; try contradiction;
    unfold scan_uint; simpl; rewrite (read_digits_string d rest Hr), Hf; reflexivity.
Qed.

Lemma string_of_uint_pos (p : positive) :
  NilZero.string_of_uint (Pos.to_uint p) = NilEmpty.string_of_uint (Pos.to_uint p).
Proof.
  pose proof (DecimalPos.Unsigned.to_uint_nonnil p). now destruct (Pos.to_uint p).
Qed.

Lemma scan_number_int (z : Z) (rest : string) :
  delimited rest = true ->
  scan_number (dumps (VInt z) ++ rest) = Some (VInt z, rest).
Proof.
  intros H. destruct z as [|p|p].
  - destruct (delimited_inv rest H) as [Hf _]. simpl. rewrite Hf. reflexivity.
  - change (dumps (VInt (Z.pos p))) with (NilZero.string_of_uint (Pos.to_uint p)).
    rewrite string_of_uint_pos.
    pose proof (scan_uint_pos p rest H) as Hs.
    pose proof (to_uint_head p) as Hh.
    assert (E : Z.of_int (Decimal.Pos (Pos.to_uint p)) = Z.pos p)
      by (exact (DecimalZ.of_to (Z.pos p))).
    unfold scan_number.
    destruct (Pos.to_uint p) as [|d|d|d|d|d|d|d|d|d|d]; try contradiction;
      simpl NilEmpty.string_of_uint in *; simpl append in *; cbv iota;
      rewrite Hs, E; reflexivity.
  - change (dumps (VInt (Z.neg p)))
      with (String "-" (NilZero.string_of_uint (Pos.to_uint p))).
    rewrite string_of_uint_pos. simpl.
    rewrite (scan_uint_pos p rest H).
    assert (E : Z.of_int (Decimal.Neg (Pos.to_uint p)) = Z.neg p)
      by (exact (DecimalZ.of_to (Z.neg p))).
    unfold Z.of_int in E |- *. rewrite E. reflexivity.
Qed.

Lemma dumps_list (l : list value) : dumps (VList l) = "[" ++ dumps_items l ++ "]".
Proof. reflexivity. Qed.

Lemma dumps_dict (d : dict) : dumps (VDict d) = "{" ++ dumps_members d ++ "}".
Proof. reflexivity. Qed.

Lemma opens_skip_ws (s : string) : opens s = true -> skip_ws s = s.
Proof.
  destruct s as [|c r]; simpl; [discriminate|].
  destruct (is_ws c); [discriminate | reflexivity].
Qed.

Lemma opens_uint (p : positive) (rest : string) :
  opens (NilEmpty.string_of_uint (Pos.to_uint p) ++ rest) = true.
Proof.
  pose proof (to_uint_head p) as H.
  destruct (Pos.to_uint p); try contradiction; reflexivity.
Qed.

Lemma opens_dumps (v : value) (rest : string) : opens (dumps v ++ rest) = true.
Proof.
  destruct v as [ | [] | [|p|p] | s | l | d ]; try reflexivity.
  - change (dumps (VInt (Z.pos p))) with (NilZero.string_of_uint (Pos.to_uint p)).
    rewrite string_of_uint_pos. apply opens_uint.
Qed.

Lemma scan_open_list (fuel : nat) (s : string) :
  opens s = true -> scan_once (S fuel) (String "[" s) = scan_items fuel s [].
Proof.
  intros H. simpl. rewrite (opens_skip_ws s H).
  destruct s as [|c r]; [discriminate|].
  each_char c; try discriminate H; reflexivity.
Qed.

Lemma scan_open_dict (fuel : nat) (s : string) :
  opens s = true -> scan_once (S fuel) (String "{" s) = scan_members fuel s [].
Proof.
  intros H. simpl. rewrite (opens_skip_ws s H).
  destruct s as [|c r]; [discriminate|].
  each_char c; try discriminate H; reflexivity.
Qed.

Lemma scan_items_step (fuel : nat) (s : string) (acc : list value) :
  scan_items (S fuel) s acc
  = match scan_once fuel s with
    | None => None
    | Some (v, r) =>
        match skip_ws r with
        | String ","%char r' => scan_items fuel (skip_ws r') (v :: acc)
        | String "]"%char r' => Some (VList (rev (v :: acc)), r')
        | _ => None
        end
    end.
Proof. reflexivity. Qed.

Lemma scan_members_quote (fuel : nat) (k rest : string) (acc : dict) :
  scan_members (S fuel) (quote k ++ String ":" (String " " rest)) acc
  = match scan_once fuel (skip_ws rest) with
    | None => None
    | Some (v, r3) =>
        match skip_ws r3 with
        | String ","%char r4 => scan_members fuel (skip_ws r4) (dict_set acc k v)
        | String "}"%char r4 => Some (VDict (dict_set acc k v), r4)
        | _ => None
        end
    end.
Proof.
  unfold quote. simpl. rewrite append_assoc. simpl. rewrite scan_escape.
  reflexivity.
Qed.

Lemma scan_once_int (fuel : nat) (z : Z) (rest : string) :
  delimited rest = true ->
  scan_once (S fuel) (dumps (VInt z) ++ rest) = Some (VInt z, rest).
Proof.
  intros H. rewrite <- (scan_number_int z rest H).
  destruct z as [|p|p]; try reflexivity.
  change (dumps (VInt (Z.pos p))) with (NilZero.string_of_uint (Pos.to_uint p)).
  rewrite string_of_uint_pos.
  pose proof (to_uint_head p) as Hh.
  destruct (Pos.to_uint p); try contradiction; reflexivity.
Qed.

Lemma scan_items_dumps (l : list value) :
  Forall decodes l ->
  forallb well_formed l = true ->
  l <> [] ->
  forall (fuel : nat) (acc : list value) (rest : string),
    (cost_items l <= fuel)%nat ->
    scan_items fuel (dumps_items l ++ String "]" rest) acc
    = Some (VList (rev acc ++ l), rest).
Proof.
  induction l as [|x l IH]; intros HP Hwf Hne fuel acc rest Hfuel;
    [congruence|].
  inversion HP as [|? ? Hx Hl]; subst.
  simpl in Hwf. apply andb_true_iff in Hwf. destruct Hwf as [Hwx Hwl].
  simpl in Hfuel. destruct fuel as [|fuel]; [lia|].
  rewrite scan_items_step.
  destruct l as [|y l].
  - simpl dumps_items.
    rewrite (Hx Hwx fuel (String "]" rest)); [| simpl in *; lia | reflexivity].
    simpl. rewrite <- ?app_assoc. reflexivity.
  - change (dumps_items (x :: y :: l))
      with (dumps x ++ ", " ++ dumps_items (y :: l)).
    rewrite !append_assoc.
    rewrite (Hx Hwx fuel); [| simpl in *; lia | reflexivity].
    assert (Ho : opens (dumps_items (y :: l) ++ String "]" rest) = true).
    { change (dumps_items (y :: l)) with
        (match l with [] => dumps y | _ => dumps y ++ ", " ++ dumps_items l end).
      destruct l; [| rewrite append_assoc]; apply opens_dumps. }
    remember (dumps_items (y :: l) ++ String "]" rest) as tail eqn:Et.
    simpl. rewrite (opens_skip_ws tail Ho). subst tail.
    rewrite IH; auto; [| congruence | simpl in *; lia].
    simpl. rewrite <- ?app_assoc. reflexivity.
Qed.

Lemma dict_set_distinct (acc : dict) (k : string) (x : value) (d : dict) :
  distinct (map fst (acc ++ (k, x) :: d)) = true ->
  dict_set acc k x = (acc ++ [(k, x)])%list.
Proof.
  induction acc as [|[k' v'] acc IH]; simpl; intros H; [reflexivity|].
  apply andb_true_iff in H. destruct H as [Hk Hd].
  apply negb_true_iff in Hk.
  rewrite map_app, existsb_app in Hk. apply orb_false_iff in Hk.
  destruct Hk as [_ Hk]. simpl in Hk. apply orb_false_iff in Hk.
  destruct Hk as [Hk _]. rewrite Hk, (IH Hd). reflexivity.
Qed.

Lemma opens_quote (k rest : string) : opens (quote k ++ rest) = true.
Proof. reflexivity. Qed.

Lemma scan_members_dumps (d : dict) :
  Forall (fun kv => decodes (snd kv)) d ->
  forallb (fun kv => well_formed (snd kv)) d = true ->
  d <> [] ->
  forall (fuel : nat) (acc : dict) (rest : string),
    distinct (map fst (acc ++ d)) = true ->
    (cost_members d <= fuel)%nat ->
    scan_members fuel (dumps_members d ++ String "}" rest) acc
    = Some (VDict (acc ++ d), rest).
Proof.
  induction d as [|[k x] d IH]; intros HP Hwf Hne fuel acc rest Hdis Hfuel;
    [congruence|].
  inversion HP as [|? ? Hx Hl]; subst. simpl in Hx.
  simpl in Hwf. apply andb_true_iff in Hwf. destruct Hwf as [Hwx Hwl].
  simpl in Hfuel. destruct fuel as [|fuel]; [lia|].
  pose proof (dict_set_distinct acc k x d Hdis) as Hset.
  destruct d as [|[k' y] d].
  - change (dumps_members [(k, x)]) with (quote k ++ ": " ++ dumps x).
    rewrite !append_assoc.
    change (": " ++ dumps x ++ String "}" rest)
      with (String ":" (String " " (dumps x ++ String "}" rest))).
    rewrite scan_members_quote.
    rewrite (opens_skip_ws _ (opens_dumps x _)).
    rewrite (Hx Hwx fuel); [| simpl in *; lia | reflexivity].
    simpl. rewrite Hset. reflexivity.
  - change (dumps_members ((k, x) :: (k', y) :: d))
      with (quote k ++ ": " ++ dumps x ++ ", " ++ dumps_members ((k', y) :: d)).
    rewrite !append_assoc.
    assert (Ho : opens (dumps_members ((k', y) :: d) ++ String "}" rest) = true).
    { change (dumps_members ((k', y) :: d)) with
        (match d with
         | [] => quote k' ++ ": " ++ dumps y
         | _ => quote k' ++ ": " ++ dumps y ++ ", " ++ dumps_members d
         end).
      destruct d; rewrite append_assoc; apply opens_quote. }
    remember (dumps_members ((k', y) :: d) ++ String "}" rest) as tail eqn:Et.
    change (": " ++ dumps x ++ ", " ++ tail)
      with (String ":" (String " " (dumps x ++ ", " ++ tail))).
    rewrite scan_members_quote.
    rewrite (opens_skip_ws _ (opens_dumps x _)).
    rewrite (Hx Hwx fuel); [| simpl in *; lia | reflexivity].
    simpl. rewrite (opens_skip_ws tail Ho). subst tail.
    rewrite Hset.
    rewrite IH; auto; [| congruence | | simpl in *; lia].
    + rewrite <- app_assoc. reflexivity.
    + rewrite <- app_assoc. exact Hdis.
Qed.

Lemma fuel_pos (fuel : nat) : (1 <= fuel)%nat -> exists f, fuel = S f.
Proof. destruct fuel; [lia | eauto]. Qed.

(** Decoding the text of a value gives the value and leaves what
    follows it. *)
Lemma scan_once_dumps (v : value) : decodes v.
Proof.
  induction v as [ | b | z | s | l IH | d IH ] using value_rect';
    intros Hwf fuel rest Hfuel Hrest.
  - destruct (fuel_pos fuel Hfuel) as [f ->]. reflexivity.
  - destruct (fuel_pos fuel Hfuel) as [f ->]. destruct b; reflexivity.
  - destruct (fuel_pos fuel Hfuel) as [f ->]. now apply scan_once_int.
  - destruct (fuel_pos fuel Hfuel) as [f ->]. apply scan_quote.
  - destruct fuel as [|f]; [simpl in Hfuel; lia|].
    destruct l as [|x l]; [reflexivity|].
    rewrite dumps_list.
    change (("[" ++ dumps_items (x :: l) ++ "]") ++ rest)
      with (String "[" ((dumps_items (x :: l) ++ "]") ++ rest)).
    rewrite append_assoc.
    change ("]" ++ rest) with (String "]" rest).
    rewrite scan_open_list.
    + rewrite scan_items_dumps;
        [reflexivity | exact IH | exact Hwf | congruence | simpl in Hfuel; unfold cost_items; simpl; lia].
    + change (dumps_items (x :: l)) with
        (match l with [] => dumps x | _ => dumps x ++ ", " ++ dumps_items l end).
      destruct l; [| rewrite append_assoc]; apply opens_dumps.
  - destruct fuel as [|f]; [simpl in Hfuel; lia|].
    destruct d as [|[k x] d]; [reflexivity|].
    simpl in Hwf. apply andb_true_iff in Hwf. destruct Hwf as [Hdis Hwf].
    rewrite dumps_dict.
    change (("{" ++ dumps_members ((k, x) :: d) ++ "}") ++ rest)
      with (String "{" ((dumps_members ((k, x) :: d) ++ "}") ++ rest)).
    rewrite append_assoc.
    change ("}" ++ rest) with (String "}" rest).
    rewrite scan_open_dict.
    + rewrite scan_members_dumps;
        [reflexivity | exact IH | exact Hwf | congruence | exact Hdis
        | simpl in Hfuel; unfold cost_members; simpl; lia].
    + change (dumps_members ((k, x) :: d)) with
        (match d with
         | [] => quote k ++ ": " ++ dumps x
         | _ => quote k ++ ": " ++ dumps x ++ ", " ++ dumps_members d
         end).
      destruct d; rewrite append_assoc; apply opens_quote.
Qed.

Lemma opens_length (s : string) : opens s = true -> (1 <= String.length s)%nat.
Proof. destruct s; simpl; [discriminate | lia]. Qed.

Lemma append_nil_r (s : string) : s ++ "" = s.
Proof. induction s as [|c s IH]; simpl; [reflexivity | now rewrite IH]. Qed.

Lemma dumps_length_pos (v : value) : (1 <= String.length (dumps v))%nat.
Proof.
  apply opens_length. rewrite <- (append_nil_r (dumps v)). apply opens_dumps.
Qed.

Lemma cost_items_length (l : list value) :
  Forall (fun x => (cost x <= String.length (dumps x))%nat) l ->
  (cost_items l <= String.length (dumps_items l) + 1)%nat.
Proof.
  induction l as [|x l IH]; intros H; [simpl; lia|].
  inversion H as [|? ? Hx Hl]; subst. specialize (IH Hl).
  destruct l as [|y l].
  - simpl in *. lia.
  - change (dumps_items (x :: y :: l))
      with (dumps x ++ ", " ++ dumps_items (y :: l)).
    change (cost_items (x :: y :: l)) with (S (cost x + cost_items (y :: l))).
    rewrite !length_append. change (String.length ", ") with 2%nat. lia.
Qed.

Lemma quote_length (k : string) : (2 <= String.length (quote k))%nat.
Proof. unfold quote. simpl. rewrite length_append. simpl. lia. Qed.

Lemma cost_members_length (d : dict) :
  Forall (fun kv => (cost (snd kv) <= String.length (dumps (snd kv)))%nat) d ->
  (cost_members d <= String.length (dumps_members d) + 1)%nat.
Proof.
  induction d as [|[k x] d IH]; intros H; [simpl; lia|].
  inversion H as [|? ? Hx Hl]; subst. specialize (IH Hl). simpl in Hx.
  pose proof (quote_length k) as Hk.
  destruct d as [|[k' y] d].
  - change (dumps_members [(k, x)]) with (quote k ++ ": " ++ dumps x).
    change (cost_members [(k, x)]) with (S (cost x + 0)).
    rewrite !length_append. change (String.length ": ") with 2%nat. lia.
  - change (dumps_members ((k, x) :: (k', y) :: d))
      with (quote k ++ ": " ++ dumps x ++ ", " ++ dumps_members ((k', y) :: d)).
    change (cost_members ((k, x) :: (k', y) :: d))
      with (S (cost x + cost_members ((k', y) :: d))).
    rewrite !length_append. change (String.length ": ") with 2%nat.
    change (String.length ", ") with 2%nat. lia.
Qed.

Lemma cost_length (v : value) : (cost v <= String.length (dumps v))%nat.
Proof.
  induction v as [ | b | z | s | l IH | d IH ] using value_rect';
    try apply dumps_length_pos.
  - rewrite dumps_list, !length_append.
    change (String.length "[") with 1%nat. change (String.length "]") with 1%nat.
    pose proof (cost_items_length l IH) as H.
    change (cost (VList l)) with (S (cost_items l)). lia.
  - rewrite dumps_dict, !length_append.
    change (String.length "{") with 1%nat. change (String.length "}") with 1%nat.
    pose proof (cost_members_length d IH) as H.
    change (cost (VDict d)) with (S (cost_members d)). lia.
Qed.

(** [json.loads(json.dumps(v))] is [v]. *)
Lemma loads_dumps (v : value) :
  well_formed v = true -> loads (dumps v) = Some v.
Proof.
  intros Hwf. unfold loads.
  assert (Ho : opens (dumps v) = true)
    by (rewrite <- (append_nil_r (dumps v)); apply opens_dumps).
  rewrite (opens_skip_ws _ Ho).
  rewrite <- (append_nil_r (dumps v)) at 2.
  rewrite (scan_once_dumps v Hwf).
  - reflexivity.
  - pose proof (cost_length v). lia.
  - reflexivity.
Qed.

End JsonFacts.

(** ** The store *)

Module StoreFacts.
Import sqlite3 DatabaseManager JsonFacts.

(** *** Ordering and limiting rows *)

Section OrderBy.
Context {A : Type} (key : A -> Z).

Lemma insert_desc_perm (x : A) (l : list A) :
  Permutation (insert_desc key x l) (x :: l).
Proof.
  induction l as [|y l IH]; simpl; [reflexivity|].
  destruct (key y <=? key x); [reflexivity|].
  rewrite IH. apply perm_swap.
Qed.

Lemma order_by_desc_perm (l : list A) : Permutation (order_by_desc key l) l.
Proof.
  induction l as [|x l IH]; simpl; [reflexivity|].
  rewrite insert_desc_perm. now constructor.
Qed.

Lemma insert_desc_sorted (x : A) (l : list A) :
  StronglySorted (desc key) l -> StronglySorted (desc key) (insert_desc key x l).
Proof.
  induction 1 as [|y l Hs IH Hy]; simpl.
  - repeat constructor.
  - destruct (Z.leb_spec (key y) (key x)) as [Hle|Hgt].
    + constructor; [now constructor|].
      constructor; [exact Hle|].
      eapply Forall_impl; [|exact Hy]. unfold desc in *. intros; lia.
    + constructor; [exact IH|].
      eapply Permutation_Forall; [symmetry; apply insert_desc_perm|].
      constructor; [unfold desc in *; lia | exact Hy].
Qed.

Lemma order_by_desc_sorted (l : list A) : StronglySorted (desc key) (order_by_desc key l).
Proof.
  induction l as [|x l IH]; simpl; [constructor | now apply insert_desc_sorted].
Qed.

Lemma firstn_incl (n : nat) (l : list A) (x : A) : In x (firstn n l) -> In x l.
Proof.
  intros H. rewrite <- (firstn_skipn n l). apply in_or_app. now left.
Qed.

Lemma firstn_sorted (n : nat) (l : list A) :
  StronglySorted (desc key) l -> StronglySorted (desc key) (firstn n l).
Proof.
  intros H. revert n. induction H as [|y l Hs IH Hy]; intros [|n]; simpl;
    try constructor; auto.
  rewrite Forall_forall in *. intros z Hz. apply Hy.
  revert Hz. apply firstn_incl.
Qed.

Lemma limit_sorted (n : Z) (l : list A) :
  StronglySorted (desc key) l -> StronglySorted (desc key) (limit n l).
Proof.
  unfold limit. destruct (n <? 0); [auto | apply firstn_sorted].
Qed.

Lemma limit_length (n : Z) (l : list A) :
  0 <= n -> Z.of_nat (List.length (limit n l)) <= n.
Proof.
  intros Hn. unfold limit. destruct (Z.ltb_spec n 0); [lia|].
  pose proof (firstn_le_length (Z.to_nat n) l). lia.
Qed.

Lemma limit_incl (n : Z) (l : list A) (x : A) : In x (limit n l) -> In x l.
Proof.
  unfold limit. destruct (n <? 0); [auto | apply firstn_incl ].
Qed.

Lemma limit_all (n : Z) (l : list A) :
  Z.of_nat (List.length l) <= n -> limit n l = l.
Proof.
  intros H. unfold limit. destruct (Z.ltb_spec n 0); [reflexivity|].
  apply firstn_all2. lia.
Qed.

Lemma limit_nodup (n : Z) (l : list A) : NoDup l -> NoDup (limit n l).
Proof.
  unfold limit. destruct (n <? 0); [auto|].
  intros H. rewrite <- (firstn_skipn (Z.to_nat n) l) in H.
  now apply NoDup_app_remove_r in H.
Qed.

End OrderBy.


(** *** Comprehensions *)

Lemma map_result_map {A B : Type} (f : A -> result B) (g : A -> B) (l : list A) :
  (forall x, In x l -> f x = Ok (g x)) -> map_result f l = Ok (map g l).
Proof.
  induction l as [|x l IH]; intros H; simpl; [reflexivity|].
  rewrite (H x (or_introl eq_refl)), IH; [reflexivity|].
  intros y Hy. apply H. now right.
Qed.

Lemma map_result_Forall2 {A B : Type} (f : A -> result B) (l : list A) :
  Forall (fun x => exists y, f x = Ok y) l ->
  exists ys, map_result f l = Ok ys /\ Forall2 (fun x y => f x = Ok y) l ys.
Proof.
  induction 1 as [|x l [y Hy] Hl [ys [Hys HF]]]; simpl.
  - exists []. split; [reflexivity | constructor].
  - exists (y :: ys). rewrite Hy, Hys. split; [reflexivity | now constructor].
Qed.

Lemma sorted_map {A B : Type} (R : A -> A -> Prop) (R' : B -> B -> Prop)
    (g : A -> B) (l : list A) :
  (forall a b, R a b -> R' (g a) (g b)) ->
  StronglySorted R l -> StronglySorted R' (map g l).
Proof.
  intros HR. induction 1 as [|x l Hs IH Hx]; simpl; constructor; auto.
  rewrite Forall_map. eapply Forall_impl; [|exact Hx]. auto.
Qed.

(** *** The search history *)

Lemma well_formed_strs (locs : list string) :
  json.well_formed (VList (map VStr locs)) = true.
Proof. induction locs as [|x l IH]; simpl; auto. Qed.

Lemma decode_locations_dumps (locs : list string) :
  decode_locations (Some (json.dumps (VList (map VStr locs))))
  = Ok (VList (map VStr locs)).
Proof.
  unfold decode_locations.
  rewrite (loads_dumps _ (well_formed_strs locs)).
  rewrite dumps_list. reflexivity.
Qed.

Lemma select_distinct_In {A : Type} (dec : forall a b : A, {a = b} + {a <> b})
    (l : list A) (x : A) :
  In x (select_distinct dec l) <-> In x l.
Proof.
  induction l as [|a l IH]; simpl; [tauto|]. split.
  - intros [->|H]; [now left|]. apply in_remove in H. right. now apply IH.
  - intros [->|H]; [now left|].
    destruct (dec a x) as [->|Hne]; [now left|].
    right. apply in_in_remove; [congruence | now apply IH].
Qed.

Lemma remove_NoDup {A : Type} (dec : forall a b : A, {a = b} + {a <> b})
    (l : list A) (x : A) :
  NoDup l -> NoDup (remove dec x l).
Proof.
  induction 1 as [|a l Ha Hl IH]; simpl; [constructor|].
  destruct (dec x a); [exact IH|].
  constructor; [|exact IH]. intros H. apply in_remove in H. tauto.
Qed.

Lemma select_distinct_NoDup {A : Type} (dec : forall a b : A, {a = b} + {a <> b})
    (l : list A) :
  NoDup (select_distinct dec l).
Proof.
  induction l as [|a l IH]; simpl; constructor.
  - apply remove_In.
  - now apply remove_NoDup.
Qed.

Lemma bind_int64 (n : Z) :
  INT64_MIN <= n <= INT64_MAX -> bind (VInt n) = Ok (SInt n).
Proof.
  intros H. unfold bind, int64.
  destruct (Z.leb_spec INT64_MIN n); [|lia].
  destruct (Z.leb_spec n INT64_MAX); [reflexivity | lia].
Qed.

Lemma get_search_history_eq (self : t) (n : Z) :
  fault self = None -> INT64_MIN <= n <= INT64_MAX ->
  get_search_history self n
  = map_result
      (fun row : triple =>
         let '(q, l, ts) := row in
         (locs <- decode_locations l ;; Ok (mk_history_entry q locs ts))%result)
      (select_history n self).
Proof.
  intros Hf Hn. unfold get_search_history, connect.
  rewrite Hf, (bind_int64 n Hn). reflexivity.
Qed.

Lemma select_history_incl (n : Z) (self : t) (x : triple) :
  In x (select_history n self) -> In x (history_triples self).
Proof.
  unfold select_history. intros H. apply limit_incl in H.
  apply (Permutation_in _ (order_by_desc_perm _ _)) in H.
  now apply select_distinct_In in H.
Qed.

Lemma history_ok_decodes (self : t) (x : triple) :
  history_ok self -> In x (history_triples self) ->
  exists locs, decode_locations (snd (fst x)) = Ok (VList (map VStr locs)).
Proof.
  unfold history_ok, history_triples. intros Hok Hin.
  apply in_map_iff in Hin. destruct Hin as [r [<- Hr]].
  rewrite Forall_forall in Hok. destruct (Hok r Hr) as [locs Hl].
  exists locs. simpl. rewrite Hl. apply decode_locations_dumps.
Qed.

(** C3 (as amended).  For every stored history, as [save_search]
    writes it, and every limit [n] from 0 on that SQLite takes (an
    integer of 64 bits), [get_search_history(n)] returns at most [n]
    entries, ordered by timestamp, the most recent first, and
    deduplicated as DISTINCT does it over the stored triple of query,
    locations and timestamp: rows with the same query and different
    timestamps or locations remain distinct entries. *)
Theorem get_search_history_bounded (self : t) (n : Z) :
  0 <= n <= INT64_MAX -> fault self = None -> history_ok self ->
  history_listed self n.
Proof.
  intros [Hn Hmax] Hfault Hok. unfold history_listed.
  assert (Hdec : forall x, In x (select_history n self) ->
            (let '(q, l, ts) := x in
             (locs <- decode_locations l ;; Ok (mk_history_entry q locs ts))%result)
            = Ok (entry_of x)).
  { intros [[q l] ts] Hx. apply select_history_incl in Hx.
    destruct (history_ok_decodes self _ Hok Hx) as [locs Hl].
    unfold entry_of. simpl in *. rewrite Hl. reflexivity. }
  exists (map entry_of (select_history n self)).
  repeat split.
  - rewrite get_search_history_eq by (assumption || (unfold INT64_MIN; lia)).
    apply map_result_map. exact Hdec.
  - rewrite length_map. unfold select_history. now apply limit_length.
  - apply sorted_map with (R := desc (fun r : triple => snd r)).
    + intros a b H. exact H.
    + unfold select_history. apply limit_sorted, order_by_desc_sorted.
  - assert (H : forall x, In x (select_history n self) -> In x (history_triples self))
      by (intros x; apply select_history_incl).
    induction (select_history n self) as [|x l IH]; simpl; constructor.
    + repeat split.
      destruct (history_ok_decodes self x Hok (H x (or_introl eq_refl))) as [locs Hl].
      simpl. rewrite Hl. reflexivity.
    + apply IH. * intros y Hy. apply Hdec. now right. * intros y Hy. apply H. now right.
  - unfold select_history. apply limit_nodup.
    eapply Permutation_NoDup; [symmetry; apply order_by_desc_perm|].
    apply select_distinct_NoDup.
  - intros x. apply select_history_incl.
  - intros Hall x Hx. unfold select_history. rewrite limit_all.
    + apply (Permutation_in _ (Permutation_sym (order_by_desc_perm _ _))).
      now apply select_distinct_In.
    + rewrite (Permutation_length (order_by_desc_perm _ _)). exact Hall.
Qed.

(** *** Saved jobs *)

Lemma sqlval_eqb_eq (a b : sqlval) : sqlval_eqb a b = true <-> a = b.
Proof.
  destruct a, b; simpl; split; intros H; try discriminate; try reflexivity.
  - apply Z.eqb_eq in H. now subst.
  - injection H as ->. apply Z.eqb_refl.
  - apply String.eqb_eq in H. now subst.
  - injection H as ->. apply String.eqb_refl.
Qed.


Lemma filter_id {A : Type} (p : A -> bool) (l : list A) :
  (forall x, In x l -> p x = true) -> filter p l = l.
Proof.
  induction l as [|x l IH]; intros H; simpl; [reflexivity|].
  rewrite (H x (or_introl eq_refl)), IH; [reflexivity|].
  intros y Hy. apply H. now right.
Qed.



Lemma typed_fields (j : Job.t) :
  Job.typed j ->
  exists a b c d e f g h i k l,
    j = Job.mk (VStr a) (VStr b) (VStr c) (VStr d) (VStr e) (VStr f) (VStr g)
          (VStr h) (VStr i) (VStr k) (VStr l).
Proof.
  destruct j as [a b c d e f g h i k l]. unfold Job.typed. simpl.
  destruct a; simpl; try discriminate; destruct b; simpl; try discriminate;
  destruct c; simpl; try discriminate; destruct d; simpl; try discriminate;
  destruct e; simpl; try discriminate; destruct f; simpl; try discriminate;
  destruct g; simpl; try discriminate; destruct h; simpl; try discriminate;
  destruct i; simpl; try discriminate; destruct k; simpl; try discriminate;
  destruct l; simpl; try discriminate.
  intros _. repeat eexists.
Qed.

Lemma init_to_dict (j : Job.t) : Job.init (Job.to_dict j) = Ok j.
Proof. destruct j. reflexivity. Qed.

(** A job with str fields comes back from its payload. *)
Lemma load_job_dumps (j : Job.t) :
  Job.typed j -> load_job (json.dumps (VDict (Job.to_dict j))) = Ok j.
Proof.
  intros H. destruct (typed_fields j H) as (a & b & c & d & e & f & g & h & i & k & l & ->).
  unfold load_job. rewrite loads_dumps; [| reflexivity].
  apply init_to_dict.
Qed.

Lemma typed_id (j : Job.t) : Job.typed j -> exists s, Job.id j = VStr s.
Proof.
  intros H. destruct (typed_fields j H) as (a & b & c & d & e & f & g & h & i & k & l & ->).
  now exists a.
Qed.

(** What [save_job] does to the table for a job with str fields. *)
Lemma save_job_typed (now : Z) (self : t) (j : Job.t) (st : JobStatus.t)
    (text : string) (s : string) :
  fault self = None -> Job.typed j -> Job.id j = VStr s ->
  exists row,
    save_job now self j st text
    = Ok (mk None (search_history self)
            (filter (fun r => negb (sqlval_eqb (job_id r) (SText s))) (saved_jobs self)
               ++ [row])) /\
    job_id row = SText s /\ status row = JobStatus.value st /\
    notes row = text /\ saved_date row = now /\
    data row = json.dumps (VDict (Job.to_dict j)).
Proof.
  intros Hfault Ht Hid.
  destruct (typed_fields j Ht) as (a & b & c & d & e & f & g & h & i & k & l & ->).
  simpl in Hid. injection Hid as ->.
  unfold save_job, connect. rewrite Hfault. simpl.
  eexists. split; [reflexivity|]. simpl. repeat split.
Qed.

Lemma row_consistent_new (row : saved_row) (j : Job.t) (s : string) :
  Job.typed j -> Job.id j = VStr s -> job_id row = SText s ->
  data row = json.dumps (VDict (Job.to_dict j)) ->
  row_consistent row.
Proof.
  intros Ht Hid Hk Hd. exists j, s. rewrite Hd. auto using load_job_dumps.
Qed.

Lemma save_job_keeps_ok (now : Z) (self self' : t) (j : Job.t)
    (st : JobStatus.t) (text : string) :
  fault self = None -> saved_ok self -> Job.typed j ->
  save_job now self j st text = Ok self' ->
  fault self' = None /\ saved_ok self'.
Proof.
  intros Hfault Hok Ht Hsave.
  destruct (typed_id j Ht) as [s Hid].
  destruct (save_job_typed now self j st text s Hfault Ht Hid)
    as (row & Hrow & Hk & _ & _ & _ & Hd).
  rewrite Hrow in Hsave. injection Hsave as <-. split; [reflexivity|].
  unfold saved_ok in *. simpl. apply Forall_app. split.
  - rewrite Forall_forall in *. intros r Hr. apply filter_In in Hr. apply Hok, Hr.
  - constructor; [|constructor]. eapply row_consistent_new; eauto.
Qed.

Lemma save_many_ok (calls : list call) (self : t) :
  fault self = None -> saved_ok self ->
  Forall (fun c => Job.typed (job_of c)) calls ->
  exists self', save_many self calls = Ok self' /\
                fault self' = None /\ saved_ok self'.
Proof.
  revert self. induction calls as [|[[[now j] st] text] calls IH];
    intros self Hfault Hok Hall; simpl.
  - eauto.
  - inversion Hall as [|? ? Ht Hrest]; subst. unfold job_of in Ht. simpl in Ht.
    destruct (typed_id j Ht) as [s Hid].
    destruct (save_job_typed now self j st text s Hfault Ht Hid) as (row & Hrow & _).
    destruct (save_job_keeps_ok now self _ j st text Hfault Hok Ht Hrow) as [Hf' Hok'].
    rewrite Hrow. apply IH; assumption.
Qed.







Lemma Forall2_In_r {A B : Type} (R : A -> B -> Prop) (l : list A) (l' : list B) (y : B) :
  Forall2 R l l' -> In y l' -> exists x, In x l /\ R x y.
Proof.
  induction 1 as [|x y' l l' Hxy HF IH]; simpl; [tauto|].
  intros [<-|Hy].
  - exists x. auto.
  - destruct (IH Hy) as [x' [Hin HR]]. exists x'. auto.
Qed.

(** A job comes back from its payload, whatever JSON values its fields
    hold. *)
Lemma payload_decodes (j : Job.t) :
  json.well_formed (VDict (Job.to_dict j)) = true ->
  load_job (json.dumps (VDict (Job.to_dict j))) = Ok j.
Proof.
  intros H. unfold load_job. rewrite (loads_dumps _ H). apply init_to_dict.
Qed.

Lemma save_job_inv (now : Z) (self self' : t) (j : Job.t) (st : JobStatus.t)
    (text : string) :
  save_job now self j st text = Ok self' ->
  exists k row,
    fault self = None /\ bind (Job.id j) = Ok k /\
    job_id row = text_affinity k /\ status row = JobStatus.value st /\
    notes row = text /\ saved_date row = now /\
    data row = json.dumps (VDict (Job.to_dict j)) /\
    self'
    = mk None (search_history self)
        (filter (fun r => negb (conflicts (text_affinity k) r)) (saved_jobs self)
           ++ [row]).
Proof.
  unfold save_job, connect. destruct (fault self) eqn:Hf; simpl; [discriminate|].
  destruct (bind (Job.id j)) as [k|]; simpl; [|discriminate].
  destruct (bind (Job.title j)); simpl; [|discriminate].
  destruct (bind (Job.company j)); simpl; [|discriminate].
  destruct (bind (Job.location j)); simpl; [|discriminate].
  destruct (bind (Job.url j)); simpl; [|discriminate].
  intros H. injection H as <-. eexists k, _.
  repeat split; reflexivity.
Qed.

Lemma sqlval_eqb_refl (k : sqlval) : sqlval_eqb k k = true.
Proof. now apply sqlval_eqb_eq. Qed.

Lemma bind_not_null (v : value) (k : sqlval) :
  v <> VNone -> bind v = Ok k -> text_affinity k <> SNull.
Proof.
  destruct v as [|b|z|s|l|d]; simpl; intros Hv H; try congruence.
  - injection H as <-. discriminate.
  - destruct (int64 z); [injection H as <-|]; discriminate.
  - injection H as <-. discriminate.
Qed.

Lemma conflicts_self (key : sqlval) (r : saved_row) :
  key <> SNull -> job_id r = key -> conflicts key r = true.
Proof.
  intros Hk E. unfold conflicts. rewrite E.
  destruct key; [congruence| |]; apply sqlval_eqb_refl.
Qed.








(** A store with two searches for the same text, one with a location. *)
Lemma get_search_history_bounded_witness :
  let self :=
    mk None
      [ mk_history_row 1 "developer"
          (Some (json.dumps (VList (map VStr []))))
          (Some (json.dumps (VDict []))) 100;
        mk_history_row 2 "developer"
          (Some (json.dumps (VList (map VStr ["Lund"]))))
          (Some (json.dumps (VDict []))) 200 ] [] in
  0 <= 1 <= INT64_MAX /\ fault self = None /\ history_ok self /\
  history_listed self 1.
Proof.
  intros self.
  assert (H1 : 0 <= 1 <= INT64_MAX) by (unfold INT64_MAX; lia).
  assert (H2 : fault self = None) by reflexivity.
  assert (H3 : history_ok self).
  { unfold history_ok. simpl. constructor; [exists []; reflexivity|].
    constructor; [exists ["Lund"]; reflexivity | constructor]. }
  split; [exact H1|]. split; [exact H2|]. split; [exact H3|].
  exact (get_search_history_bounded self 1 H1 H2 H3).
Defined.

(** A negative limit puts no bound on the rows. *)
Lemma get_search_history_negative_limit (self : t) (n : Z) :
  n < 0 ->
  select_history n self
  = order_by_desc (fun r : triple => snd r)
      (select_distinct triple_eq_dec (history_triples self)).
Proof.
  intros H. unfold select_history, limit.
  destruct (Z.ltb_spec n 0); [reflexivity | lia].
Qed.

(** C3 as it is written fails: with the limit -1 a history of two
    searches is returned whole, two entries where the claim allows none,
    and with a limit of 2^63 the call raises, the limit being no integer
    of SQLite. *)
Theorem get_search_history_limit_not_total :
  let self :=
    mk None
      [ mk_history_row 1 "developer"
          (Some (json.dumps (VList (map VStr []))))
          (Some (json.dumps (VDict []))) 100;
        mk_history_row 2 "developer"
          (Some (json.dumps (VList (map VStr ["Lund"]))))
          (Some (json.dumps (VDict []))) 200 ] [] in
  fault self = None /\ history_ok self /\
  get_search_history self (-1)
  = Ok [ mk_history_entry "developer" (VList [VStr "Lund"]) 200;
         mk_history_entry "developer" (VList []) 100 ] /\
  ~ (Z.of_nat 2 <= -1) /\
  get_search_history self (INT64_MAX + 1)
  = Err (OverflowError "Python int too large to convert to SQLite INTEGER").
Proof.
  intros self. split; [reflexivity|]. split.
  - constructor; [now exists [] | constructor; [now exists ["Lund"] | constructor]].
  - split; [vm_compute; reflexivity|]. split; [lia | reflexivity].
Qed.

(** *** The stores the operations reach *)

Lemma empty_store_ok : fault empty = None /\ saved_ok empty /\ history_ok empty.
Proof. repeat split; constructor. Qed.

Lemma save_search_keeps_ok (now : Z) (self self' : t) (q : SearchQuery.t) :
  history_ok self -> save_search now self q = Ok self' ->
  history_ok self' /\ saved_jobs self' = saved_jobs self /\ fault self' = fault self.
Proof.
  unfold save_search, connect, history_ok. intros Hok.
  destruct (fault self); simpl; [discriminate|].
  intros E. injection E as <-. simpl. repeat split.
  apply Forall_app. split; [exact Hok|].
  constructor; [|constructor]. now exists (SearchQuery.locations q).
Qed.

Lemma delete_job_keeps_ok (self self' : t) (id : string) :
  saved_ok self -> delete_job self id = Ok self' ->
  saved_ok self' /\ search_history self' = search_history self /\
  fault self' = fault self.
Proof.
  unfold delete_job, connect, saved_ok. intros Hok.
  destruct (fault self); simpl; [discriminate|].
  intros E. injection E as <-. simpl. repeat split.
  rewrite Forall_forall in *. intros r Hr. apply filter_In in Hr. apply Hok, Hr.
Qed.

(** Two searches for the same text at different instants are two
    entries, the later one first. *)
Example same_query_two_entries :
  (a <- save_search 100 empty (SearchQuery.mk "developer" [] [] 100) ;;
   b <- save_search 200 a (SearchQuery.mk "developer" [] [] 200) ;;
   get_search_history b 50)%result
  = Ok [ mk_history_entry "developer" (VList []) 200;
         mk_history_entry "developer" (VList []) 100 ].
Proof. reflexivity. Qed.

(** The same search twice in the same second is one entry. *)
Example same_row_one_entry :
  (a <- save_search 100 empty (SearchQuery.mk "developer" ["Lund"] [] 100) ;;
   b <- save_search 100 a (SearchQuery.mk "developer" ["Lund"] [] 100) ;;
   get_search_history b 50)%result
  = Ok [ mk_history_entry "developer" (VList [VStr "Lund"]) 100 ].
Proof. reflexivity. Qed.

End StoreFacts.

(** ** The search client and the orchestrator *)

Module SearchFacts.
Import JobFinderPro.

Lemma preserves_ret {A : Type} (a : A) : preserves (ret a).
Proof. intros env w. reflexivity. Qed.

Lemma preserves_lift {A : Type} (r : result A) : preserves (lift r).
Proof. intros env w. reflexivity. Qed.

Lemma preserves_raise {A : Type} (e : exn) : preserves (@raise A e).
Proof. intros env w. reflexivity. Qed.

Lemma preserves_ask : preserves ask.
Proof. intros env w. reflexivity. Qed.

Lemma preserves_logging (r : logrec) : preserves (logging r).
Proof. intros env w. reflexivity. Qed.

Lemma preserves_bind {A B : Type} (c : M A) (f : A -> M B) :
  preserves c -> (forall a, preserves (f a)) -> preserves (bind c f).
Proof.
  intros Hc Hf env w. unfold bind. specialize (Hc env w).
  destruct (c env w) as [[a|e] w1]; simpl in *.
  - now rewrite Hf.
  - exact Hc.
Qed.

Lemma preserves_try_except {A : Type} (c : M A) (h : exn -> M A) :
  preserves c -> (forall e, preserves (h e)) -> preserves (try_except c h).
Proof.
  intros Hc Hh env w. unfold try_except. specialize (Hc env w).
  destruct (c env w) as [[a|e] w1]; simpl in *.
  - exact Hc.
  - now rewrite Hh.
Qed.

Lemma preserves_session_get (params : dict) :
  preserves (JobAPIClient.session_get params).
Proof.
  intros env w. unfold JobAPIClient.session_get.
  destruct (http env _); reflexivity.
Qed.

Lemma preserves_db_save_search (q : SearchQuery.t) : preserves (db_save_search q).
Proof.
  intros env w. unfold db_save_search.
  destruct (DatabaseManager.save_search _ _ _); reflexivity.
Qed.

Lemma preserves_reraise {A : Type} (e : exn) : preserves (@JobAPIClient.reraise A e).
Proof.
  destruct e; unfold JobAPIClient.reraise;
    repeat (apply preserves_bind; intros);
    auto using preserves_logging, preserves_raise.
Qed.

Lemma preserves_search query locations filters limit :
  preserves (JobAPIClient.search query locations filters limit).
Proof.
  unfold JobAPIClient.search.
  apply preserves_bind; [apply preserves_ask | intros env].
  apply preserves_bind; [apply preserves_lift | intros params].
  apply preserves_try_except; [| apply preserves_reraise].
  repeat (apply preserves_bind; intros);
    auto using preserves_logging, preserves_session_get, preserves_lift, preserves_ret.
Qed.

Lemma preserves_fails {A : Type} (c : M A) : preserves c -> fails_framed c.
Proof. intros H env w e w1 E. specialize (H env w). now rewrite E in H. Qed.

Lemma fails_framed_bind {A B : Type} (c : M A) (f : A -> M B) :
  preserves c -> (forall a, fails_framed (f a)) -> fails_framed (bind c f).
Proof.
  intros Hc Hf env w e w1. unfold bind. specialize (Hc env w).
  destruct (c env w) as [[a|e'] w0]; simpl in *; intros E.
  - rewrite <- Hc. eapply Hf. exact E.
  - injection E as <- <-. exact Hc.
Qed.

(** A run of the [try] block that raises has changed nothing but the
    store, the trace and the log. *)
Lemma search_worker_try_fails query locations filters :
  fails_framed (_search_worker_try query locations filters).
Proof.
  unfold _search_worker_try.
  apply fails_framed_bind; [apply preserves_ask | intros env].
  apply fails_framed_bind; [apply preserves_db_save_search | intros _].
  apply fails_framed_bind; [apply preserves_search | intros result].
  apply fails_framed_bind; [apply preserves_lift | intros hits].
  apply fails_framed_bind; [apply preserves_lift | intros total].
  apply fails_framed_bind; [apply preserves_lift | intros jobs].
  intros env' w e w1 E. discriminate E.
Qed.

Section Keeps.
Context {X : Type} (proj : World -> X).

Lemma keeps_ret {A : Type} (a : A) : keeps proj (ret a).
Proof. intros env w. reflexivity. Qed.

Lemma keeps_lift {A : Type} (r : result A) : keeps proj (lift r).
Proof. intros env w. reflexivity. Qed.

Lemma keeps_raise {A : Type} (e : exn) : keeps proj (@raise A e).
Proof. intros env w. reflexivity. Qed.

Lemma keeps_ask : keeps proj ask.
Proof. intros env w. reflexivity. Qed.

Lemma keeps_get : keeps proj get.
Proof. intros env w. reflexivity. Qed.

Lemma keeps_modify (f : World -> World) :
  (forall w, proj (f w) = proj w) -> keeps proj (modify f).
Proof. intros H env w. apply H. Qed.

Lemma keeps_bind {A B : Type} (c : M A) (f : A -> M B) :
  keeps proj c -> (forall a, keeps proj (f a)) -> keeps proj (bind c f).
Proof.
  intros Hc Hf env w. unfold bind. specialize (Hc env w).
  destruct (c env w) as [[a|e] w1]; simpl in *.
  - now rewrite Hf.
  - exact Hc.
Qed.

Lemma keeps_try_except {A : Type} (c : M A) (h : exn -> M A) :
  keeps proj c -> (forall e, keeps proj (h e)) -> keeps proj (try_except c h).
Proof.
  intros Hc Hh env w. unfold try_except. specialize (Hc env w).
  destruct (c env w) as [[a|e] w1]; simpl in *.
  - exact Hc.
  - now rewrite Hh.
Qed.

End Keeps.

Lemma keeps_io_reraise {A : Type} (e : exn) : keeps io (@JobAPIClient.reraise A e).
Proof.
  destruct e; unfold JobAPIClient.reraise;
    repeat (apply keeps_bind; intros);
    try apply keeps_raise; apply keeps_modify; reflexivity.
Qed.

Lemma keeps_db_reraise {A : Type} (e : exn) : keeps db (@JobAPIClient.reraise A e).
Proof.
  destruct e; unfold JobAPIClient.reraise;
    repeat (apply keeps_bind; intros);
    try apply keeps_raise; apply keeps_modify; reflexivity.
Qed.

Lemma keeps_db_search query locations filters limit :
  keeps db (JobAPIClient.search query locations filters limit).
Proof.
  unfold JobAPIClient.search.
  apply keeps_bind; [apply keeps_ask | intros env].
  apply keeps_bind; [apply keeps_lift | intros params].
  apply keeps_try_except; [| apply keeps_db_reraise].
  apply keeps_bind; [apply keeps_modify; reflexivity | intros _].
  apply keeps_bind.
  - intros env' w. unfold JobAPIClient.session_get. destruct (http env' _); reflexivity.
  - intros resp. repeat (apply keeps_bind; intros);
      try apply keeps_lift; try apply keeps_ret; apply keeps_modify; reflexivity.
Qed.

(** [search] sends one request when it has built its parameters, and
    none when building them raised. *)
Lemma search_io query locations filters limit env w :
  io (snd (JobAPIClient.search query locations filters limit env w))
  = match JobAPIClient.build_params (clock env) query locations filters limit with
    | Ok params => (io w ++ [JobAPIClient.request_of params])%list
    | Err _ => io w
    end.
Proof.
  unfold JobAPIClient.search, bind at 1, ask, bind at 1, lift.
  destruct (JobAPIClient.build_params _ _ _ _ _) as [params|e]; [|reflexivity].
  unfold try_except, bind at 1, logging, modify, bind at 1, JobAPIClient.session_get.
  cbn [fst snd log io set_log].
  destruct (http env _) as [e|status body].
  - rewrite keeps_io_reraise. reflexivity.
  - match goal with
    | |- io (snd (match ?c ?env ?w0 with _ => _ end)) = _ =>
        assert (H : io (snd (c env w0)) = io w0);
        [| destruct (c env w0) as [[a|e] w1]; simpl in H |- *;
           [| rewrite keeps_io_reraise]; rewrite H; reflexivity]
    end.
    match goal with
    | |- io (snd (?c env ?w0)) = io ?w0 => apply (fun H : keeps io c => H env w0)
    end.
    repeat (apply keeps_bind; intros);
      try apply keeps_lift; try apply keeps_ret; apply keeps_modify; reflexivity.
Qed.


Lemma firstn_snoc {A : Type} (l : list A) (x : A) :
  firstn (List.length l) (l ++ [x]) = l.
Proof. induction l as [|y l IH]; simpl; [reflexivity | now rewrite IH]. Qed.

Lemma skipn_snoc {A : Type} (l : list A) (x : A) :
  skipn (S (List.length l)) (l ++ [x]) = [].
Proof. induction l as [|y l IH]; simpl; [reflexivity | exact IH]. Qed.

Lemma nth_error_snoc {A : Type} (l : list A) (x : A) :
  nth_error (l ++ [x]) (List.length l) = Some x.
Proof. induction l as [|y l IH]; simpl; [reflexivity | exact IH]. Qed.

(** What [_search_worker] leaves when its [try] block raised. *)
Lemma search_worker_raised query locations filters env w e w1 :
  _search_worker_try query locations filters env w = (Err e, w1) ->
  _search_worker query locations filters env w
  = (Ok tt,
     set_after_queue
       (after_queue w1 ++ [DisplayError (List.length (cells w1)); EnableSearch])
       (set_cells (cells w1 ++ [None])
          (set_log (log w1 ++ [LogSearchFailed e]) w1))).
Proof.
  intros E. unfold _search_worker, try_finally, try_except_as. rewrite E.
  unfold _search_worker_except, bind, logging, after, modify.
  cbn [fst snd cells set_cells set_log set_after_queue after_queue log].
  rewrite firstn_snoc, skipn_snoc, <- app_assoc. reflexivity.
Qed.

(** What it leaves when the block came to its end. *)
Lemma search_worker_returned query locations filters env w w1 :
  _search_worker_try query locations filters env w = (Ok tt, w1) ->
  _search_worker query locations filters env w
  = (Ok tt, set_after_queue (after_queue w1 ++ [EnableSearch]) w1).
Proof.
  intros E. unfold _search_worker, try_finally, try_except_as. rewrite E.
  reflexivity.
Qed.

Lemma io_try_finally {A : Type} (c : M A) (h : nat -> exn -> M A) (f : M unit) env w :
  (forall cell e, keeps io (h cell e)) -> keeps io f ->
  io (snd (try_finally (try_except_as c h) f env w)) = io (snd (c env w)).
Proof.
  intros Hh Hf. unfold try_finally, try_except_as.
  destruct (c env w) as [[a|e] w1]; simpl.
  - specialize (Hf env w1). destruct (f env w1) as [[u|e] w2]; exact Hf.
  - specialize (Hh (List.length (cells w1)) e env
                  (set_cells (cells w1 ++ [Some e]) w1)).
    destruct (h _ e env _) as [r w2]. simpl in Hh.
    match goal with
    | |- io (snd (match f env ?w3 with _ => _ end)) = _ =>
        specialize (Hf env w3); destruct (f env w3) as [[u|e'] w4];
        simpl in *; rewrite Hf; exact Hh
    end.
Qed.

Lemma io_bind_tail {A B : Type} (c : M A) (f : A -> M B) env w :
  (forall a, keeps io (f a)) ->
  io (snd (bind c f env w)) = io (snd (c env w)).
Proof.
  intros Hf. unfold bind. destruct (c env w) as [[a|e] w1]; simpl; [apply Hf | reflexivity].
Qed.

Lemma keeps_io_except cell e : keeps io (_search_worker_except cell e).
Proof.
  unfold _search_worker_except.
  apply keeps_bind; intros; apply keeps_modify; reflexivity.
Qed.

Lemma keeps_io_after f : keeps io (after f).
Proof. apply keeps_modify. reflexivity. Qed.

(** The trace of a worker is the trace of its [try] block. *)
Lemma search_worker_io query locations filters env w :
  io (snd (_search_worker query locations filters env w))
  = io (snd (_search_worker_try query locations filters env w)).
Proof.
  unfold _search_worker. apply io_try_finally.
  - apply keeps_io_except.
  - apply keeps_io_after.
Qed.

Lemma search_worker_try_save_failed query locations filters env w e :
  DatabaseManager.save_search (clock env) (db w)
    (SearchQuery.mk query locations filters (clock env)) = Err e ->
  _search_worker_try query locations filters env w
  = (Err e,
     set_io (io w ++ [IoSaveSearch
                        (SearchQuery.mk query locations filters (clock env))
                        (Some e)]) w).
Proof.
  intros E. unfold _search_worker_try, bind at 1, ask, bind at 1, db_save_search.
  rewrite E. reflexivity.
Qed.

Lemma search_worker_trace query locations filters env w :
  history_first query locations filters env w.
Proof.
  cbv beta delta [history_first]. intros sq w'.
  destruct (DatabaseManager.save_search (clock env) (db w) sq) as [db'|e] eqn:E.
  - split.
    + subst w'. unfold _search_worker, try_finally, try_except_as.
      assert (Hdb : db (snd (_search_worker_try query locations filters env w)) = db').
      { unfold _search_worker_try, bind at 1, ask, bind at 1, db_save_search.
        fold sq. rewrite E.
        match goal with
        | |- db (snd (bind ?c ?f env ?w0)) = _ =>
            change db' with (db w0);
            apply (fun H : keeps db (bind c f) => H env w0)
        end.
        apply keeps_bind; [apply keeps_db_search | intros result].
        repeat (apply keeps_bind; intros);
          try apply keeps_lift; apply keeps_modify; reflexivity. }
      destruct (_search_worker_try query locations filters env w) as [[[]|e] w1];
        simpl in *; exact Hdb.
    + subst w'. rewrite search_worker_io.
      unfold _search_worker_try, bind at 1, ask, bind at 1, db_save_search.
      fold sq. rewrite E.
      rewrite io_bind_tail.
      * rewrite search_io. cbn [io set_db set_io].
        destruct (JobAPIClient.build_params _ _ _ _ _);
          rewrite <- ?app_assoc; reflexivity.
      * intros result. repeat (apply keeps_bind; intros);
          try apply keeps_lift; apply keeps_modify; reflexivity.
  - subst w'.
    rewrite (search_worker_raised _ _ _ _ _ _ _
               (search_worker_try_save_failed _ _ _ _ _ _ E)).
    cbn. auto.
Qed.

Lemma frame_fields (w1 w : World) :
  frame w1 = frame w ->
  all_jobs w1 = all_jobs w /\ after_queue w1 = after_queue w /\
  cells w1 = cells w /\ tk_errors w1 = tk_errors w /\
  btn_sok w1 = btn_sok w /\ stats_label w1 = stats_label w /\
  results_area w1 = results_area w /\ history_frame w1 = history_frame w /\
  threads w1 = threads w.
Proof.
  destruct w1, w. unfold frame. simpl. intros H. injection H. intros. subst.
  repeat split.
Qed.

(** The error callback, called when its variable is unbound, raises;
    the main loop reports it and goes on to enable the button. *)
Lemma run_unbound_error_callback env w cell :
  nth_error (cells w) cell = Some None ->
  run_callbacks [DisplayError cell; EnableSearch] env w
  = (Ok tt,
     set_btn_sok (mk_button Normal TextSok)
       (set_tk_errors (tk_errors w ++ [NameError "e"]) w)).
Proof.
  intros H. unfold run_callbacks, run_callback, bind, read_cell.
  rewrite H. reflexivity.
Qed.

(** C6, on the code.  Whenever the [try] block of a search raises, be
    it in the store, in the search client or in the conversion of the
    hits, the held job list is left as it was and the search button is
    enabled again; but the error is not shown: Python unbinds [e] when
    the [except] block is left, the callback that would call
    [_display_error(str(e))] runs after that and raises NameError, and the
    window keeps what it showed. *)
Theorem failed_search_shows_no_error query locations filters env w e w1 :
  after_queue w = [] ->
  _search_worker_try query locations filters env w = (Err e, w1) ->
  failed_unshown query locations filters env w.
Proof.
  cbv beta delta [failed_unshown]. intros Hq E w' w''.
  destruct (frame_fields w1 w (search_worker_try_fails _ _ _ _ _ _ _ E))
    as (Hjobs & Hafter & Hcells & Herr & Hbtn & Hstats & Hres & _).
  subst w'' w'. rewrite (search_worker_raised _ _ _ _ _ _ _ E).
  unfold mainloop.
  cbn [fst snd after_queue set_after_queue set_cells set_log all_jobs cells].
  rewrite Hafter, Hq, Hcells. cbn [app].
  rewrite run_unbound_error_callback
    by (cbn [cells set_after_queue set_cells]; apply nth_error_snoc).
  rewrite nth_error_snoc.
  cbn. rewrite Hjobs, Herr, Hstats, Hres. repeat split; reflexivity.
Qed.

Lemma keeps_io_run_callback f : keeps io (run_callback f).
Proof.
  destruct f as [jobs total|cell|]; unfold run_callback.
  - unfold _display_results, load_history.
    apply keeps_bind; [apply keeps_modify; reflexivity | intros _].
    apply keeps_bind; [apply keeps_lift | intros more].
    apply keeps_bind; [apply keeps_modify; reflexivity | intros _].
    destruct (List.length jobs).
    + apply keeps_modify; reflexivity.
    + repeat (apply keeps_bind; intros);
        try apply keeps_lift; try apply keeps_get; apply keeps_modify; reflexivity.
  - apply keeps_bind.
    + intros env w. unfold read_cell. destruct (nth_error _ _) as [[?|]|]; reflexivity.
    + intros e. unfold _display_error.
      apply keeps_bind; intros; apply keeps_modify; reflexivity.
  - apply keeps_modify; reflexivity.
Qed.

Lemma keeps_io_run_callbacks fs : keeps io (run_callbacks fs).
Proof.
  induction fs as [|f fs IH]; intros env w; simpl; [reflexivity|].
  pose proof (keeps_io_run_callback f env w) as Hf.
  destruct (run_callback f env w) as [[u|e] w1]; simpl in Hf;
    rewrite IH; [exact Hf | simpl; exact Hf].
Qed.

Lemma keeps_io_mainloop : keeps io mainloop.
Proof. intros env w. unfold mainloop. now rewrite keeps_io_run_callbacks. Qed.

(** C7.  A search started with an empty query (empty once stripped) is
    refused: no history row, no request, the held job list unchanged, no
    worker started, the button, the label and the results text as they
    were; a warning is logged. *)
Theorem empty_query_is_rejected env w :
  strip (entry_yrke w) = "" -> rejected env w.
Proof.
  unfold rejected. intros H.
  assert (E : start_search env w = (Ok tt, set_log (log w ++ [LogEmptyQuery]) w)).
  { unfold start_search, bind, get. rewrite H. reflexivity. }
  rewrite E. repeat split.
Qed.

Lemma empty_query_witness :
  let env := mkEnv 0 (fun _ => requests.Unreachable (RequestException "offline")) in
  let w := set_entry_yrke "   " (init DatabaseManager.empty) in
  strip (entry_yrke w) = "" /\ rejected env w.
Proof.
  intros env w. split; [reflexivity|].
  exact (empty_query_is_rejected env w eq_refl).
Defined.

(** *** The parameters of the request *)

Lemma build_params_municipality now query x l filters limit :
  match JobAPIClient.build_params now query (Some (x :: l)) filters limit with
  | Ok params =>
      dict_get params "municipality" = Some (VStr (JobAPIClient.join "," (x :: l))) /\
      count_occ string_dec (dict_keys params) "municipality" = 1%nat
  | Err e =>
      exists d, filters = Some d /\ JobAPIClient._build_filter_params now d = Err e
  end.
Proof.
  unfold JobAPIClient.build_params.
  destruct filters as [[|kv d]|]; try (split; reflexivity).
  destruct (JobAPIClient._build_filter_params now (kv :: d)) as [fp|e] eqn:E;
    [|simpl; eauto].
  revert E. unfold JobAPIClient._build_filter_params.
  destruct (JobAPIClient.get_eq (kv :: d) "omfattning" "heltid");
    [|destruct (JobAPIClient.get_eq (kv :: d) "omfattning" "deltid")];
    (destruct (JobAPIClient.get_eq (kv :: d) "publicerad" "alla"); cbn [negb];
     [intros E; injection E as <-; split; reflexivity|]);
    (destruct (dict_item (kv :: d) "publicerad") as [period|e]; cbn [rbind];
     [|discriminate]);
    (destruct (str_eq period "idag");
     [intros E; injection E as <-; split; reflexivity|]);
    (destruct (str_eq period "7dagar");
     [intros E; injection E as <-; split; reflexivity|]);
    (destruct (str_eq period "30dagar");
     intros E; injection E as <-; split; reflexivity).
Qed.

Lemma save_search_available now self q :
  DatabaseManager.fault self = None ->
  exists self', DatabaseManager.save_search now self q = Ok self'.
Proof.
  intros H. unfold DatabaseManager.save_search, DatabaseManager.connect.
  rewrite H. simpl. eauto.
Qed.

(** A search with a query: the worker runs on the started world with
    the stripped text, the chosen locations and the current filters, and
    the main loop runs what the worker handed over. *)
Lemma search_action_runs_worker env w c s :
  threads w = [] -> strip (entry_yrke w) = String c s ->
  search_action env w
  = mainloop env
      (snd (_search_worker (String c s) (selected_orts w) (current_filters w)
              env (started w))).
Proof.
  intros Hthreads Hstrip.
  cbv beta iota zeta delta [search_action bind start_search get].
  rewrite Hstrip.
  cbv beta iota zeta delta [modify join_threads].
  cbn [fst snd threads set_threads set_btn_sok set_stats_label set_results_area
       selected_orts current_filters].
  rewrite Hthreads. reflexivity.
Qed.

(** C9.  The search for "developer" with no location and no filter
    sends exactly one request, with the parameters [q] = "developer" and
    [limit] = the default maximum and no [municipality]; and for every
    list of locations that is not empty the parameters built hold one
    [municipality], the locations joined by commas. *)
Theorem developer_search_request env w :
  entry_yrke w = "developer" -> selected_orts w = [] ->
  current_filters w = [] -> threads w = [] ->
  DatabaseManager.fault (db w) = None ->
  developer_request env w.
Proof.
  cbv beta delta [developer_request]. intros Hentry Horts Hfilters Hthreads Hfault params.
  split; [|split; [reflexivity|split; [|split]]].
  - rewrite (search_action_runs_worker env w "d" "eveloper" Hthreads)
      by (rewrite Hentry; reflexivity).
    rewrite keeps_io_mainloop, Horts, Hfilters.
    pose proof (search_worker_trace "developer" [] [] env (started w)) as Hw.
    unfold history_first in Hw. cbv zeta in Hw.
    destruct (save_search_available (clock env) (db (started w))
                (SearchQuery.mk "developer" [] [] (clock env)) Hfault) as [db' Hdb].
    rewrite Hdb in Hw. destruct Hw as [_ Hio]. exact Hio.
  - intros env' w'. rewrite search_io. reflexivity.
  - intros now query x l limit. eexists. split; [reflexivity|]. split; reflexivity.
  - intros. apply build_params_municipality.
Qed.

Lemma developer_search_request_witness :
  let env :=
    mkEnv 1718409600
      (fun _ => requests.Response 200
                  (Some (VDict [("hits", VList []);
                                ("total", VDict [("value", VInt 0)])]))) in
  let w := set_entry_yrke "developer" (init DatabaseManager.empty) in
  entry_yrke w = "developer" /\ selected_orts w = [] /\
  current_filters w = [] /\ threads w = [] /\
  DatabaseManager.fault (db w) = None /\
  developer_request env w.
Proof.
  intros env w. do 5 (split; [reflexivity|]).
  exact (developer_search_request env w eq_refl eq_refl eq_refl eq_refl eq_refl).
Defined.

(** C5.  In every run of the worker the history write comes before the
    network call; and when the write raises, the run fails (the error is
    logged and its notification handed to the main loop) and no request
    is sent. *)
Theorem history_write_precedes_network_call query locations filters env w :
  history_first query locations filters env w.
Proof. apply search_worker_trace. Qed.

(** A search the network fails: the transport raises. *)
Lemma failed_search_shows_no_error_witness :
  let env := mkEnv 1718409600 (fun _ => requests.Unreachable (RequestException "timeout")) in
  let w := started (set_entry_yrke "developer" (init DatabaseManager.empty)) in
  after_queue w = [] /\
  _search_worker_try "developer" [] [] env w
  = (Err (RequestException "timeout"),
     snd (_search_worker_try "developer" [] [] env w)) /\
  failed_unshown "developer" [] [] env w.
Proof.
  intros env w.
  assert (H1 : after_queue w = []) by reflexivity.
  assert (H2 : _search_worker_try "developer" [] [] env w
               = (Err (RequestException "timeout"),
                  snd (_search_worker_try "developer" [] [] env w)))
    by reflexivity.
  split; [exact H1|]. split; [exact H2|].
  exact (failed_search_shows_no_error "developer" [] [] env w _ _ H1 H2).
Defined.

(** The callback that enables the button, when it is the last one
    handed over, leaves the button enabled whatever the others did. *)
Lemma run_callbacks_enable_last fs env w :
  btn_sok (snd (run_callbacks (fs ++ [EnableSearch]) env w))
  = mk_button Normal TextSok.
Proof.
  revert w. induction fs as [|f fs IH]; intros w; simpl.
  - reflexivity.
  - destruct (run_callback f env w) as [[u|e] w1]; apply IH.
Qed.

(** Both ends of a search enable the button: whatever the worker handed
    over first, the callback that enables it comes last. *)
Lemma search_button_enabled_again query locations filters env w :
  btn_sok (snd (mainloop env (snd (_search_worker query locations filters env w))))
  = mk_button Normal TextSok.
Proof.
  destruct (_search_worker_try query locations filters env w) as [[[]|e] w1] eqn:E.
  - rewrite (search_worker_returned _ _ _ _ _ _ E). unfold mainloop.
    cbn [snd after_queue set_after_queue].
    apply run_callbacks_enable_last.
  - rewrite (search_worker_raised _ _ _ _ _ _ _ E). unfold mainloop.
    cbn [snd after_queue set_after_queue set_cells set_log].
    change (after_queue w1 ++ [DisplayError (List.length (cells w1)); EnableSearch])%list
      with (after_queue w1 ++ ([DisplayError (List.length (cells w1))] ++ [EnableSearch]))%list.
    rewrite app_assoc. apply run_callbacks_enable_last.
Qed.

(** *** Two runs *)

(** A search the API answers with one hit out of three: the hit is
    held and shown, the label counts it, the history has the query, the
    button is enabled. *)
Example search_with_one_hit :
  let env :=
    mkEnv 1718409600
      (fun _ => requests.Response 200
                  (Some (VDict [("hits", VList [VDict [("id", VStr "1");
                                                       ("headline", VStr "Developer")]]);
                                ("total", VDict [("value", VInt 3)])]))) in
  let w := snd (search_action env
                  (set_entry_yrke " developer " (init DatabaseManager.empty))) in
  List.length (all_jobs w) = 1%nat /\
  results_area w = job_cards 1 (all_jobs w) /\
  stats_label w = StatsShowing 1 (VInt 3) /\
  history_frame w = ["developer"] /\
  btn_sok w = mk_button Normal TextSok /\
  tk_errors w = [].
Proof. repeat split. Qed.

(** The same search when the request times out: the button is enabled,
    the label and the text still say that the search is going on, and Tk
    has the NameError of the error callback. *)
Example search_timed_out :
  let env :=
    mkEnv 1718409600 (fun _ => requests.Unreachable (RequestException "timeout")) in
  let w := snd (search_action env
                  (set_entry_yrke " developer " (init DatabaseManager.empty))) in
  all_jobs w = [] /\
  results_area w = [SegLoading] /\
  stats_label w = StatsSearching /\
  btn_sok w = mk_button Normal TextSok /\
  log w = [ LogSearching "developer" (Some []);
            LogRequestFailed (RequestException "timeout");
            LogSearchFailed (RequestException "timeout") ] /\
  tk_errors w = [NameError "e"].
Proof. repeat split. Qed.

(** *** The filters *)

(** When the translation of the filters returns, the working-hours
    parameter is the provider value of the option: [heltid] for heltid,
    [deltid] for deltid, and no parameter for anything else. *)
Lemma working_hours_parameter now filters params :
  JobAPIClient._build_filter_params now filters = Ok params ->
  dict_get params "working-hours-type"
  = if JobAPIClient.get_eq filters "omfattning" "heltid" then Some (VStr "heltid")
    else if JobAPIClient.get_eq filters "omfattning" "deltid" then Some (VStr "deltid")
    else None.
Proof.
  unfold JobAPIClient._build_filter_params.
  destruct (JobAPIClient.get_eq filters "omfattning" "heltid");
    [|destruct (JobAPIClient.get_eq filters "omfattning" "deltid")];
    (destruct (JobAPIClient.get_eq filters "publicerad" "alla"); cbn [negb];
     [intros E; injection E as <-; reflexivity|]);
    (destruct (dict_item filters "publicerad") as [period|e]; cbn [rbind];
     [|discriminate]);
    (destruct (str_eq period "idag");
     [intros E; injection E as <-; reflexivity|]);
    (destruct (str_eq period "7dagar");
     [intros E; injection E as <-; reflexivity|]);
    (destruct (str_eq period "30dagar");
     intros E; injection E as <-; reflexivity).
Qed.

(** The translation returns exactly when the filters hold the
    publication option. *)
Lemma filter_params_raise now filters :
  match JobAPIClient._build_filter_params now filters with
  | Ok _ => dict_get filters "publicerad" <> None
  | Err e => dict_get filters "publicerad" = None /\ e = KeyError "publicerad"
  end.
Proof.
  unfold JobAPIClient._build_filter_params, JobAPIClient.get_eq, dict_item.
  destruct (dict_get filters "publicerad") as [v|] eqn:E; cbn [negb rbind].
  - destruct (str_eq v "alla"); cbn [negb]; [discriminate|].
    destruct (str_eq v "idag"); [discriminate|].
    destruct (str_eq v "7dagar"); [discriminate|].
    destruct (str_eq v "30dagar"); discriminate.
  - auto.
Qed.

(** The filters as the filter menu gives them when nothing is chosen. *)
Lemma filter_params_of_the_menu now :
  JobAPIClient._build_filter_params now
    [ ("omfattning", VStr "alla"); ("publicerad", VStr "alla");
      ("distance", VInt 50); ("salary", VInt 0); ("sort", VStr "relevans") ]
  = Ok [].
Proof. reflexivity. Qed.

(** C4, on the code.  With the filters [{omfattning: alla}] and nothing
    else, the translation does not come to an end: the test on
    [publicerad] reads the key with [get], finds it absent, and the next
    line reads it with a subscript, which raises KeyError; the search
    raises before it has logged or sent anything. *)
Theorem working_hours_alone_raises now :
  JobAPIClient._build_filter_params now [("omfattning", VStr "alla")]
  = Err (KeyError "publicerad") /\
  JobAPIClient._build_filter_params now [("omfattning", VStr "heltid")]
  = Err (KeyError "publicerad") /\
  (forall query locations limit env w,
     JobAPIClient.search query locations
       (Some [("omfattning", VStr "alla")]) limit env w
     = (Err (KeyError "publicerad"), w)).
Proof.
  split; [reflexivity|]. split; [reflexivity|].
  intros query [[|x l]|] limit env w; reflexivity.
Qed.

End SearchFacts.

(** ** The store, further *)

Module StoreMore.
Import sqlite3 DatabaseManager JsonFacts StoreFacts StoreOps.

(** *** The payload *)

(** X1.  The payload [save_job] writes for a job decodes to that job:
    [Job] called with the keywords of
    [json.loads(json.dumps(job.to_dict()))] is the job, whatever JSON
    values its fields hold. *)
Theorem payload_round_trip (j : Job.t) :
  job_well_formed j -> load_job (json.dumps (VDict (Job.to_dict j))) = Ok j.
Proof. apply payload_decodes. Qed.

Lemma payload_round_trip_witness :
  let j :=
    Job.mk (VStr "42") (VStr "Developer") VNone (VStr "Lund")
      (VStr "https://example.org/42") (VStr "2024-06-01") VNone
      (VDict [("text", VStr "Builds things"); ("lines", VList [VInt 1; VInt (-2)])])
      (VBool false) (VStr "Tillsvidare") (VStr "Heltid") in
  job_well_formed j /\ load_job (json.dumps (VDict (Job.to_dict j))) = Ok j.
Proof.
  intros j.
  assert (H : job_well_formed j) by reflexivity.
  split; [exact H | exact (payload_round_trip j H)].
Defined.

(** *** What [save_job] leaves *)


Lemma conflicts_text (s : string) (r : saved_row) :
  conflicts (SText s) r = sqlval_eqb (job_id r) (SText s).
Proof. reflexivity. Qed.

Lemma filter_filter {A : Type} (p : A -> bool) (l : list A) :
  filter p (filter p l) = filter p l.
Proof.
  apply filter_id. intros x Hx. apply filter_In in Hx. tauto.
Qed.

(** *** Newest first *)

Lemma select_distinct_snoc_fresh {A : Type}
    (dec : forall a b : A, {a = b} + {a <> b}) (l : list A) (x : A) :
  ~ In x l -> select_distinct dec (l ++ [x]) = (select_distinct dec l ++ [x])%list.
Proof.
  induction l as [|a l IH]; simpl; intros Hx; [reflexivity|].
  rewrite IH by tauto. rewrite remove_app. simpl.
  destruct (dec a x); [tauto | reflexivity].
Qed.

Lemma order_by_desc_snoc_max {A : Type} (key : A -> Z) (l : list A) (x : A) :
  (forall y, In y l -> key y < key x) ->
  order_by_desc key (l ++ [x]) = x :: order_by_desc key l.
Proof.
  unfold order_by_desc. rewrite fold_right_app. simpl.
  induction l as [|a l IH]; simpl; intros H; [reflexivity|].
  rewrite IH by auto. simpl.
  assert (Ha : key a < key x) by auto.
  destruct (Z.leb_spec (key x) (key a)); [lia | reflexivity].
Qed.

Lemma limit_cons {A : Type} (n : Z) (x : A) (l : list A) :
  1 <= n -> limit n (x :: l) = x :: limit (n - 1) l.
Proof.
  intros Hn. unfold limit.
  destruct (Z.ltb_spec n 0); [lia|]. destruct (Z.ltb_spec (n - 1) 0); [lia|].
  replace (Z.to_nat n) with (S (Z.to_nat (n - 1))) by lia. reflexivity.
Qed.

Lemma get_search_history_entries (self : t) (n : Z) :
  fault self = None -> history_ok self -> INT64_MIN <= n <= INT64_MAX ->
  get_search_history self n = Ok (map entry_of (select_history n self)).
Proof.
  intros Hf Hok Hn. rewrite get_search_history_eq by assumption.
  apply map_result_map. intros [[q l] ts] Hx.
  destruct (history_ok_decodes self (q, l, ts) Hok (select_history_incl _ _ _ Hx))
    as [locs Hl].
  unfold entry_of. simpl in *. rewrite Hl. reflexivity.
Qed.

Lemma save_search_ok (now : Z) (self : t) (q : SearchQuery.t) :
  fault self = None ->
  save_search now self q
  = Ok (mk None
          (search_history self
             ++ [mk_history_row
                   (Z.of_nat (List.length (search_history self)) + 1)
                   (SearchQuery.query q)
                   (Some (json.dumps (VList (map VStr (SearchQuery.locations q)))))
                   (Some (json.dumps (VDict (SearchQuery.filters q))))
                   now])
          (saved_jobs self)).
Proof. intros Hf. unfold save_search, connect. rewrite Hf. reflexivity. Qed.

Lemma select_history_length (n : Z) (self : t) :
  0 <= n -> Z.of_nat (List.length (select_history n self)) <= n.
Proof. intros Hn. unfold select_history. now apply limit_length. Qed.

Lemma select_history_eq (n : Z) (self : t) :
  select_history n self
  = limit n (order_by_desc (fun r : triple => snd r)
               (select_distinct triple_eq_dec (history_triples self))).
Proof. reflexivity. Qed.

Lemma history_triples_snoc (f : option exn) (rows : list history_row)
    (r : history_row) (saved : list saved_row) :
  history_triples (mk f (rows ++ [r]) saved)
  = (history_triples (mk f rows saved) ++ [(h_query r, h_locations r, h_timestamp r)])%list.
Proof. unfold history_triples. cbn [search_history]. now rewrite map_app. Qed.

Lemma save_search_heads (now : Z) (self : t) (q : SearchQuery.t) (n : Z) :
  fault self = None -> history_ok self ->
  (forall r, In r (search_history self) -> h_timestamp r < now) ->
  1 <= n <= INT64_MAX ->
  exists self' rest,
    save_search now self q = Ok self' /\
    get_search_history self (n - 1) = Ok rest /\
    get_search_history self' n
    = Ok (mk_history_entry (SearchQuery.query q)
            (VList (map VStr (SearchQuery.locations q))) now :: rest).
Proof.
  intros Hf Hok Hlate Hn.
  pose proof (save_search_ok now self q Hf) as Hs.
  destruct (save_search_keeps_ok _ _ _ _ Hok Hs) as (Hok' & _ & Hf').
  eexists _, (map entry_of (select_history (n - 1) self)).
  assert (Hn1 : INT64_MIN <= n - 1 <= INT64_MAX) by (unfold INT64_MIN; lia).
  assert (Hn0 : INT64_MIN <= n <= INT64_MAX) by (unfold INT64_MIN; lia).
  split; [exact Hs|]. split; [now apply get_search_history_entries|].
  rewrite get_search_history_entries
    by (exact Hok' || exact Hn0 || (rewrite Hf'; exact Hf)).
  rewrite !select_history_eq, history_triples_snoc.
  rewrite select_distinct_snoc_fresh.
  2:{ intros Hin. apply in_map_iff in Hin. destruct Hin as (r & Hr & Hin).
      injection Hr as _ _ Hts. specialize (Hlate r Hin). lia. }
  rewrite order_by_desc_snoc_max.
  2:{ intros y Hy. apply select_distinct_In in Hy. apply in_map_iff in Hy.
      destruct Hy as (r & <- & Hin). cbn [snd]. auto. }
  rewrite limit_cons by apply Hn. cbn [map]. f_equal. f_equal.
  unfold entry_of. cbn [fst snd h_query h_locations h_timestamp].
  rewrite decode_locations_dumps. reflexivity.
Qed.

(** X2.  A search saved at an instant later than every stored one
    heads the history: [get_search_history(n)], for [n] at least 1 and
    an integer of 64 bits, returns the saved query with its locations
    decoded back to the list that was saved, followed by what
    [get_search_history(n - 1)] returned before. *)
Theorem save_search_heads_history (now : Z) (self : t) (q : SearchQuery.t) (n : Z) :
  fault self = None -> history_ok self ->
  (forall r, In r (search_history self) -> h_timestamp r < now) ->
  1 <= n <= INT64_MAX ->
  exists self' rest,
    save_search now self q = Ok self' /\
    get_search_history self (n - 1) = Ok rest /\
    get_search_history self' n
    = Ok (mk_history_entry (SearchQuery.query q)
            (VList (map VStr (SearchQuery.locations q))) now :: rest).
Proof. apply save_search_heads. Qed.

Lemma save_search_heads_history_witness :
  let self :=
    mk None
      [ mk_history_row 1 "developer"
          (Some (json.dumps (VList (map VStr ["Lund"]))))
          (Some (json.dumps (VDict []))) 100 ] [] in
  let q := SearchQuery.mk "tester" ["Malmo"; "Lund"] [] 200 in
  fault self = None /\ history_ok self /\
  (forall r, In r (search_history self) -> h_timestamp r < 200) /\
  1 <= 2 <= INT64_MAX /\
  exists self' rest,
    save_search 200 self q = Ok self' /\
    get_search_history self (2 - 1) = Ok rest /\
    get_search_history self' 2
    = Ok (mk_history_entry "tester" (VList [VStr "Malmo"; VStr "Lund"]) 200 :: rest).
Proof.
  intros self q.
  assert (Hf : fault self = None) by reflexivity.
  assert (Hok : history_ok self) by (repeat constructor; now exists ["Lund"]).
  assert (Hlate : forall r, In r (search_history self) -> h_timestamp r < 200)
    by (intros r [<-|[]]; simpl; lia).
  assert (Hn : 1 <= 2 <= INT64_MAX) by (unfold INT64_MAX; lia).
  repeat (split; [assumption|]).
  exact (save_search_heads_history 200 self q 2 Hf Hok Hlate Hn).
Defined.

(** *** Listing the saved jobs *)

Lemma map_result_ok_inv {A B : Type} (f : A -> result B) (l : list A) (ys : list B) :
  map_result f l = Ok ys -> Forall2 (fun x y => f x = Ok y) l ys.
Proof.
  revert ys. induction l as [|x l IH]; simpl; intros ys H.
  - injection H as <-. constructor.
  - destruct (f x) eqn:Hx; [|discriminate].
    destruct (map_result f l); [|discriminate].
    injection H as <-. constructor; auto.
Qed.

Lemma map_result_err {A B : Type} (f : A -> result B) (l : list A) (x : A) (e : exn) :
  In x l -> f x = Err e -> exists e', map_result f l = Err e'.
Proof.
  induction l as [|a l IH]; simpl; intros Hin Hx; [contradiction|].
  destruct (f a) eqn:Ha; [|eauto].
  destruct Hin as [->|Hin]; [congruence|].
  destruct (IH Hin Hx) as [e' ->]. eauto.
Qed.

Lemma Forall2_In_l {A B : Type} (R : A -> B -> Prop) (l : list A) (l' : list B) (x : A) :
  Forall2 R l l' -> In x l -> exists y, In y l' /\ R x y.
Proof.
  induction 1 as [|a b l l' Hab _ IH]; simpl; intros Hin; [contradiction|].
  destruct Hin as [->|Hin]; [eauto|].
  destruct (IH Hin) as (y & Hy & Hr). eauto.
Qed.

Lemma get_saved_jobs_eq (self : t) (status_ : option JobStatus.t) :
  fault self = None ->
  get_saved_jobs self status_
  = map_result (fun r => load_job (data r))
      (order_by_desc saved_date (filter (selected status_) (saved_jobs self))).
Proof.
  intros Hf. unfold get_saved_jobs, connect. rewrite Hf. simpl.
  destruct status_; simpl; [reflexivity|].
  now rewrite (filter_id (selected None)).
Qed.

Lemma in_listed_rows (self : t) (status_ : option JobStatus.t) (r : saved_row) :
  In r (order_by_desc saved_date (filter (selected status_) (saved_jobs self)))
  <-> In r (saved_jobs self) /\ selected status_ r = true.
Proof.
  rewrite <- filter_In. split; apply Permutation_in.
  - apply order_by_desc_perm.
  - symmetry. apply order_by_desc_perm.
Qed.

(** What is listed: a job for each row under the filter, and nothing
    else. *)
Lemma get_saved_jobs_lists (self : t) (status_ : option JobStatus.t) :
  fault self = None -> payloads_ok self ->
  exists jobs,
    get_saved_jobs self status_ = Ok jobs /\
    forall x,
      In x jobs <->
      exists r, In r (saved_jobs self) /\ selected status_ r = true /\
                load_job (data r) = Ok x.
Proof.
  intros Hf Hok. rewrite get_saved_jobs_eq by exact Hf.
  destruct (map_result_Forall2 (fun r => load_job (data r))
              (order_by_desc saved_date (filter (selected status_) (saved_jobs self))))
    as (jobs & Hjobs & HF).
  { apply Forall_forall. intros r Hr. apply in_listed_rows in Hr.
    unfold payloads_ok in Hok. rewrite Forall_forall in Hok. apply Hok. tauto. }
  exists jobs. split; [exact Hjobs|]. intros x. split.
  - intros Hx. destruct (Forall2_In_r _ _ _ _ HF Hx) as (r & Hr & Hl).
    apply in_listed_rows in Hr. exists r. tauto.
  - intros (r & Hr & Hs & Hl).
    destruct (Forall2_In_l _ _ _ r HF) as (y & Hy & Hl').
    { apply in_listed_rows. tauto. }
    simpl in Hl'. congruence.
Qed.

Lemma saved_ok_payloads (self : t) : saved_ok self -> payloads_ok self.
Proof.
  unfold saved_ok, payloads_ok. apply Forall_impl.
  intros r (j & s & H & _). eauto.
Qed.

Lemma payloads_ok_filter (f : option exn) (h : list history_row)
    (p : saved_row -> bool) (rows : list saved_row) :
  payloads_ok (mk f h rows) -> payloads_ok (mk f h (filter p rows)).
Proof.
  unfold payloads_ok. cbn [saved_jobs]. rewrite !Forall_forall.
  intros H r Hr. apply filter_In in Hr. apply H. tauto.
Qed.

(** X3.  A job saved at an instant later than every stored one heads
    the list of saved jobs, and the jobs behind it are those listed once
    the row with its id is deleted: saving replaces, it does not add a
    second entry. *)
Theorem saved_job_listed_first (now : Z) (self self' : t) (j : Job.t) (s : string)
    (st : JobStatus.t) (text : string) :
  payloads_ok self -> job_well_formed j -> Job.id j = VStr s ->
  (forall r, In r (saved_jobs self) -> saved_date r < now) ->
  save_job now self j st text = Ok self' ->
  exists self_d rest,
    delete_job self s = Ok self_d /\
    get_saved_jobs self_d None = Ok rest /\
    get_saved_jobs self' None = Ok (j :: rest).
Proof.
  intros Hok Hwf Hid Hlate Hs.
  destruct (save_job_inv _ _ _ _ _ _ Hs)
    as (k & row & Hf & Hk & Hkey & _ & _ & Hdate & Hdata & ->).
  rewrite Hid in Hk. injection Hk as <-. cbn [text_affinity] in *.
  set (kept := filter (fun r => negb (conflicts (SText s) r)) (saved_jobs self)).
  assert (Hd : delete_job self s = Ok (mk None (search_history self) kept)).
  { unfold delete_job, connect. rewrite Hf. reflexivity. }
  assert (Hokd : payloads_ok (mk None (search_history self) kept)).
  { apply payloads_ok_filter. destruct self; simpl in *. subst. exact Hok. }
  destruct (get_saved_jobs_lists (mk None (search_history self) kept) None
              eq_refl Hokd) as (rest & Hrest & _).
  exists (mk None (search_history self) kept), rest.
  split; [exact Hd|]. split; [exact Hrest|].
  rewrite get_saved_jobs_eq in Hrest |- * by reflexivity.
  cbn [saved_jobs] in *.
  rewrite (filter_id (selected None)) in Hrest |- * by reflexivity.
  rewrite order_by_desc_snoc_max.
  2:{ intros y Hy. apply filter_In in Hy. rewrite Hdate. apply Hlate. tauto. }
  cbn [map_result]. rewrite Hdata, (payload_decodes j Hwf), Hrest. reflexivity.
Qed.

Lemma saved_job_listed_first_witness :
  let j :=
    Job.mk (VStr "42") (VStr "Developer") (VStr "Acme") (VStr "Lund")
      (VStr "") (VStr "2024-06-01") VNone (VStr "") (VStr "") (VStr "") (VStr "") in
  let k :=
    Job.mk (VStr "7") (VStr "Tester") (VStr "Acme") (VStr "Lund")
      (VStr "") (VStr "2024-06-02") (VStr "") (VStr "") (VStr "") (VStr "")
      (VStr "") in
  let row (id : string) (x : Job.t) (date : Z) :=
    mk_saved_row (SText id) SNull SNull SNull SNull "saved" "" date
      (json.dumps (VDict (Job.to_dict x))) in
  let self := mk None [] [row "42" j 10; row "7" k 20] in
  let self' := mk None [] [row "7" k 20;
                           mk_saved_row (SText "42") (SText "Developer") (SText "Acme")
                             (SText "Lund") (SText "") "applied" "sent" 30
                             (json.dumps (VDict (Job.to_dict j)))] in
  payloads_ok self /\ job_well_formed j /\ Job.id j = VStr "42" /\
  (forall r, In r (saved_jobs self) -> saved_date r < 30) /\
  save_job 30 self j JobStatus.APPLIED "sent" = Ok self' /\
  exists self_d rest,
    delete_job self "42" = Ok self_d /\
    get_saved_jobs self_d None = Ok rest /\
    get_saved_jobs self' None = Ok (j :: rest).
Proof.
  intros j k row self self'.
  assert (Hok : payloads_ok self).
  { repeat constructor; [exists j | exists k]; vm_compute; reflexivity. }
  assert (Hwf : job_well_formed j) by reflexivity.
  assert (Hid : Job.id j = VStr "42") by reflexivity.
  assert (Hlate : forall r, In r (saved_jobs self) -> saved_date r < 30)
    by (intros r [<-|[<-|[]]]; simpl; lia).
  assert (Hs : save_job 30 self j JobStatus.APPLIED "sent" = Ok self')
    by reflexivity.
  repeat (split; [assumption|]).
  exact (saved_job_listed_first 30 self self' j "42" JobStatus.APPLIED "sent"
           Hok Hwf Hid Hlate Hs).
Defined.

Lemma store_keyed_payloads (self : t) : store_keyed self -> payloads_ok self.
Proof.
  unfold store_keyed, payloads_ok. apply Forall_impl.
  intros r (j & H & _). eauto.
Qed.

(** X4.  A job whose id is not [None] is listed under the status it was
    last saved with and under no other: on a store whose rows carry the
    keys of their jobs, after [save_job(j, st)] the list for [st] holds
    [j], and the list for any other status holds no job with the id of
    [j]. *)
Theorem saved_job_listed_under_its_status (now : Z) (self self' : t) (j : Job.t)
    (st : JobStatus.t) (text : string) :
  store_keyed self -> job_well_formed j -> Job.id j <> VNone ->
  save_job now self j st text = Ok self' ->
  (exists jobs, get_saved_jobs self' (Some st) = Ok jobs /\ In j jobs) /\
  (forall st', st' <> st ->
     exists jobs,
       get_saved_jobs self' (Some st') = Ok jobs /\
       forall x, In x jobs -> Job.id x <> Job.id j).
Proof.
  intros Hok Hwf Hid Hs.
  destruct (save_job_inv _ _ _ _ _ _ Hs)
    as (k & row & Hf & Hk & Hkey & Hst & _ & _ & Hdata & ->).
  assert (Hnn : text_affinity k <> SNull)
    by (now apply (bind_not_null (Job.id j))).
  set (key := text_affinity k) in *.
  set (kept := filter (fun r => negb (conflicts key r)) (saved_jobs self)) in *.
  assert (Hrow : load_job (data row) = Ok j)
    by (rewrite Hdata; now apply payload_decodes).
  assert (Hok' : payloads_ok (mk None (search_history self) (kept ++ [row]))).
  { unfold payloads_ok. cbn [saved_jobs]. apply Forall_app. split.
    - apply (payloads_ok_filter None (search_history self) _ (saved_jobs self)).
      apply store_keyed_payloads in Hok. exact Hok.
    - repeat constructor. eauto. }
  set (self' := mk None (search_history self) (kept ++ [row])) in *.
  assert (Hf' : fault self' = None) by reflexivity.
  split.
  - destruct (get_saved_jobs_lists self' (Some st) Hf' Hok') as (jobs & Hj & Hin).
    exists jobs. split; [exact Hj|]. apply Hin. exists row.
    cbn [saved_jobs selected]. rewrite Hst, String.eqb_refl.
    repeat split; auto. apply in_or_app. right. now left.
  - intros st' Hne.
    destruct (get_saved_jobs_lists self' (Some st') Hf' Hok') as (jobs & Hj & Hin).
    exists jobs. split; [exact Hj|]. intros x Hx.
    apply Hin in Hx. destruct Hx as (r & Hr & Hsel & Hl).
    cbn [saved_jobs selected] in Hr, Hsel. apply in_app_or in Hr.
    destruct Hr as [Hr|[<-|[]]].
    + apply filter_In in Hr. destruct Hr as [Hr Hc].
      apply negb_true_iff in Hc.
      unfold store_keyed in Hok. rewrite Forall_forall in Hok.
      destruct (Hok r Hr) as (j' & Hl' & Hkey').
      assert (x = j') by congruence. subst j'.
      intros E. unfold key_of in Hkey'. rewrite E, Hk in Hkey'.
      cbn [rbind] in Hkey'. injection Hkey' as Hkey'. fold key in Hkey'.
      rewrite (conflicts_self key r Hnn (eq_sym Hkey')) in Hc. discriminate.
    + rewrite Hst in Hsel. apply String.eqb_eq in Hsel.
      destruct st, st'; simpl in Hsel; congruence.
Qed.

Lemma saved_job_listed_under_its_status_witness :
  let j :=
    Job.mk (VInt 42) (VStr "Developer") VNone (VStr "Lund")
      (VStr "") (VStr "2024-06-01") VNone (VStr "") (VStr "") (VStr "") (VStr "") in
  let n :=
    Job.mk VNone (VStr "Writer") (VStr "Acme") (VStr "Lund")
      (VStr "") (VStr "2024-06-03") (VStr "") (VStr "") (VStr "") (VStr "")
      (VStr "") in
  let self :=
    mk None []
      [ mk_saved_row (SText "42") SNull SNull SNull SNull "saved" "" 10
          (json.dumps (VDict (Job.to_dict j)));
        mk_saved_row SNull SNull SNull SNull SNull "saved" "" 20
          (json.dumps (VDict (Job.to_dict n))) ] in
  let self' :=
    mk None []
      [ mk_saved_row SNull SNull SNull SNull SNull "saved" "" 20
          (json.dumps (VDict (Job.to_dict n)));
        mk_saved_row (SText "42") (SText "Developer") SNull
          (SText "Lund") (SText "") "applied" "sent" 30
          (json.dumps (VDict (Job.to_dict j))) ] in
  store_keyed self /\ job_well_formed j /\ Job.id j <> VNone /\
  save_job 30 self j JobStatus.APPLIED "sent" = Ok self' /\
  (exists jobs, get_saved_jobs self' (Some JobStatus.APPLIED) = Ok jobs /\ In j jobs) /\
  (forall st', st' <> JobStatus.APPLIED ->
     exists jobs,
       get_saved_jobs self' (Some st') = Ok jobs /\
       forall x, In x jobs -> Job.id x <> Job.id j).
Proof.
  intros j n self self'.
  assert (Hok : store_keyed self).
  { constructor; [|constructor; [|constructor]].
    - exists j. split; [vm_compute; reflexivity | reflexivity].
    - exists n. split; [vm_compute; reflexivity | reflexivity]. }
  assert (Hwf : job_well_formed j) by reflexivity.
  assert (Hid : Job.id j <> VNone) by discriminate.
  assert (Hs : save_job 30 self j JobStatus.APPLIED "sent" = Ok self')
    by reflexivity.
  repeat (split; [assumption|]).
  exact (saved_job_listed_under_its_status 30 self self' j JobStatus.APPLIED
           "sent" Hok Hwf Hid Hs).
Defined.

(** *** How saving and deleting compose *)

Lemma filter_snoc_out {A : Type} (p : A -> bool) (l : list A) (x : A) :
  p x = false -> filter p (l ++ [x]) = filter p l.
Proof. intros H. rewrite filter_app. simpl. rewrite H. apply app_nil_r. Qed.



(** X6.  The last write wins: saving a job over an earlier save with
    the same id, whatever that id is but [None], leaves the store that
    saving it without the earlier save leaves. *)
Theorem save_job_last_write_wins (n1 n2 : Z) (self a : t) (j1 j2 : Job.t)
    (st1 st2 : JobStatus.t) (t1 t2 : string) :
  Job.id j1 = Job.id j2 -> Job.id j2 <> VNone ->
  save_job n1 self j1 st1 t1 = Ok a ->
  save_job n2 a j2 st2 t2 = save_job n2 self j2 st2 t2.
Proof.
  intros Hid Hnone Hs.
  destruct (save_job_inv _ _ _ _ _ _ Hs)
    as (k & row & Hf & Hk & Hkey & _ & _ & _ & _ & ->).
  unfold save_job, connect. cbn [fault search_history saved_jobs].
  rewrite Hf. rewrite Hid in Hk. rewrite Hk. cbn [rbind].
  destruct (bind (Job.title j2)); cbn [rbind]; [|reflexivity].
  destruct (bind (Job.company j2)); cbn [rbind]; [|reflexivity].
  destruct (bind (Job.location j2)); cbn [rbind]; [|reflexivity].
  destruct (bind (Job.url j2)); cbn [rbind]; [|reflexivity].
  do 3 f_equal.
  rewrite filter_snoc_out.
  - apply (filter_filter (fun r => negb (conflicts (text_affinity k) r))).
  - rewrite conflicts_self; [reflexivity| |exact Hkey].
    now apply (bind_not_null (Job.id j2)).
Qed.

Lemma save_job_last_write_wins_witness :
  let j1 :=
    Job.mk (VInt 42) (VStr "Developer") (VStr "Acme") (VStr "Lund")
      (VStr "") (VStr "2024-06-01") VNone (VStr "") (VStr "") (VStr "") (VStr "") in
  let j2 :=
    Job.mk (VInt 42) (VStr "Senior developer") (VStr "Acme") (VStr "Lund")
      (VStr "") (VStr "2024-06-03") VNone (VStr "") (VStr "") (VStr "") (VStr "") in
  Job.id j1 = Job.id j2 /\ Job.id j2 <> VNone /\
  save_job 20 empty j2 JobStatus.APPLIED "sent"
  = Ok (mk None []
          [ mk_saved_row (SText "42") (SText "Senior developer") (SText "Acme")
              (SText "Lund") (SText "") "applied" "sent" 20
              (json.dumps (VDict (Job.to_dict j2))) ]) /\
  (a <- save_job 10 empty j1 JobStatus.SAVED "" ;;
   save_job 20 a j2 JobStatus.APPLIED "sent")%result
  = save_job 20 empty j2 JobStatus.APPLIED "sent".
Proof.
  intros j1 j2.
  assert (Hid : Job.id j1 = Job.id j2) by reflexivity.
  assert (Hnone : Job.id j2 <> VNone) by discriminate.
  split; [exact Hid|]. split; [exact Hnone|]. split; [reflexivity|].
  exact (save_job_last_write_wins 10 20 empty _ j1 j2 JobStatus.SAVED
           JobStatus.APPLIED "" "sent" Hid Hnone eq_refl).
Defined.

(** X7.  A job whose id is [None] is never replaced and cannot be
    deleted: every save adds a row with a NULL key beside the rows
    there, and no [delete_job] takes a row with a NULL key away. *)
Theorem save_job_without_id_piles_up (now : Z) (self self' : t) (j : Job.t)
    (st : JobStatus.t) (text : string) :
  Job.id j = VNone ->
  save_job now self j st text = Ok self' ->
  (exists row,
     job_id row = SNull /\ saved_jobs self' = (saved_jobs self ++ [row])%list) /\
  (forall id self_d r,
     delete_job self' id = Ok self_d ->
     In r (saved_jobs self') -> job_id r = SNull -> In r (saved_jobs self_d)).
Proof.
  intros Hid Hs.
  destruct (save_job_inv _ _ _ _ _ _ Hs)
    as (k & row & Hf & Hk & Hkey & _ & _ & _ & _ & ->).
  rewrite Hid in Hk. injection Hk as <-. cbn [text_affinity] in *.
  split.
  - exists row. split; [exact Hkey|]. cbn [saved_jobs]. f_equal.
    now apply filter_id.
  - intros id self_d r Hd Hr Hnull.
    unfold delete_job, connect in Hd. cbn [fault rbind] in Hd.
    injection Hd as <-. cbn [saved_jobs] in *.
    apply filter_In. split; [exact Hr|]. now rewrite Hnull.
Qed.

Lemma save_job_without_id_piles_up_witness :
  let j :=
    Job.mk VNone (VStr "Developer") (VStr "Acme") (VStr "Lund")
      (VStr "") (VStr "2024-06-01") VNone (VStr "") (VStr "") (VStr "") (VStr "") in
  let row (date : Z) :=
    mk_saved_row SNull (SText "Developer") (SText "Acme") (SText "Lund")
      (SText "") "saved" "" date (json.dumps (VDict (Job.to_dict j))) in
  let self := mk None [] [row 10] in
  let self' := mk None [] [row 10; row 20] in
  Job.id j = VNone /\
  save_job 20 self j JobStatus.SAVED "" = Ok self' /\
  (exists r,
     job_id r = SNull /\ saved_jobs self' = (saved_jobs self ++ [r])%list) /\
  (forall id self_d r,
     delete_job self' id = Ok self_d ->
     In r (saved_jobs self') -> job_id r = SNull -> In r (saved_jobs self_d)).
Proof.
  intros j row self self'.
  assert (Hid : Job.id j = VNone) by reflexivity.
  assert (Hs : save_job 20 self j JobStatus.SAVED "" = Ok self') by reflexivity.
  split; [exact Hid|]. split; [exact Hs|].
  exact (save_job_without_id_piles_up 20 self self' j JobStatus.SAVED "" Hid Hs).
Defined.



(** X9.  The list of saved jobs is all or nothing: one row under the
    filter whose payload does not decode to a job makes
    [get_saved_jobs] raise, whatever the other rows hold. *)
Theorem get_saved_jobs_all_or_nothing (self : t) (status_ : option JobStatus.t)
    (r : saved_row) (e : exn) :
  fault self = None -> In r (saved_jobs self) -> selected status_ r = true ->
  load_job (data r) = Err e ->
  exists e', get_saved_jobs self status_ = Err e'.
Proof.
  intros Hf Hr Hsel He. rewrite get_saved_jobs_eq by exact Hf.
  apply (map_result_err _ _ r e); [|exact He].
  apply in_listed_rows. tauto.
Qed.

Lemma get_saved_jobs_all_or_nothing_witness :
  let j :=
    Job.mk (VStr "42") (VStr "Developer") (VStr "Acme") (VStr "Lund")
      (VStr "") (VStr "2024-06-01") VNone (VStr "") (VStr "") (VStr "") (VStr "") in
  let good :=
    mk_saved_row (SText "42") SNull SNull SNull SNull "saved" "" 10
      (json.dumps (VDict (Job.to_dict j))) in
  let bad :=
    mk_saved_row (SText "7") SNull SNull SNull SNull "saved" "" 20
      (json.dumps (VDict [("id", VStr "7"); ("headline", VStr "Tester")])) in
  let self := mk None [] [good; bad] in
  let e := TypeError "__init__() got an unexpected keyword argument 'headline'" in
  fault self = None /\ In bad (saved_jobs self) /\ selected None bad = true /\
  load_job (data bad) = Err e /\
  exists e', get_saved_jobs self None = Err e'.
Proof.
  intros j good bad self e.
  assert (Hin : In bad (saved_jobs self)) by (right; left; reflexivity).
  assert (He : load_job (data bad) = Err e) by (vm_compute; reflexivity).
  split; [reflexivity|]. split; [exact Hin|]. split; [reflexivity|].
  split; [exact He|].
  exact (get_saved_jobs_all_or_nothing self None bad e eq_refl Hin eq_refl He).
Defined.

(** *** Deleting, as the list of saved jobs shows it *)

Lemma filter_insert_desc {A : Type} (key : A -> Z) (p : A -> bool) (x : A)
    (l : list A) :
  StronglySorted (desc key) l ->
  filter p (insert_desc key x l)
  = if p x then insert_desc key x (filter p l) else filter p l.
Proof.
  induction 1 as [|y l Hs IH Hall]; simpl.
  - destruct (p x); reflexivity.
  - destruct (Z.leb_spec (key y) (key x)) as [Hle|Hlt]; simpl.
    + destruct (p x) eqn:Hx, (p y) eqn:Hy; simpl; try reflexivity.
      * destruct (Z.leb_spec (key y) (key x)); [reflexivity | lia].
      * clear IH. induction l as [|z l IHl]; simpl; [reflexivity|].
        inversion Hall as [|? ? Hz Hall']; subst. unfold desc in Hz.
        inversion Hs; subst.
        destruct (p z); simpl.
        -- destruct (Z.leb_spec (key z) (key x)); [reflexivity | lia].
        -- apply IHl; assumption.
    + rewrite IH. destruct (p x), (p y); simpl; try reflexivity.
      destruct (Z.leb_spec (key y) (key x)); [lia | reflexivity].
Qed.

Lemma filter_order_by_desc {A : Type} (key : A -> Z) (p : A -> bool) (l : list A) :
  order_by_desc key (filter p l) = filter p (order_by_desc key l).
Proof.
  induction l as [|x l IH]; simpl; [reflexivity|].
  rewrite filter_insert_desc by apply order_by_desc_sorted.
  destruct (p x); simpl; now rewrite IH.
Qed.

Lemma filter_comm {A : Type} (p q : A -> bool) (l : list A) :
  filter p (filter q l) = filter q (filter p l).
Proof.
  induction l as [|x l IH]; simpl; [reflexivity|].
  destruct (p x) eqn:Hp, (q x) eqn:Hq; simpl; rewrite ?Hp, ?Hq, IH; reflexivity.
Qed.

Lemma map_result_filter {A B : Type} (f : A -> result B) (p : A -> bool)
    (q : B -> bool) (l : list A) (ys : list B) :
  map_result f l = Ok ys ->
  (forall x y, In x l -> f x = Ok y -> p x = q y) ->
  map_result f (filter p l) = Ok (filter q ys).
Proof.
  revert ys. induction l as [|x l IH]; simpl; intros ys H Hpq.
  - injection H as <-. reflexivity.
  - destruct (f x) as [y|] eqn:Hx; [|discriminate].
    destruct (map_result f l) as [ys'|]; [|discriminate].
    injection H as <-. simpl.
    rewrite <- (Hpq x y) by auto.
    destruct (p x); simpl; rewrite ?Hx, (IH ys') by auto; reflexivity.
Qed.

(** X10.  Deleting an id takes the job with that id, and no other, out
    of every list of saved jobs, and leaves the others in their order:
    what [get_saved_jobs] returns afterwards, under any status filter, is
    what it returned before without the jobs of that id. *)
Theorem deleted_job_leaves_every_list (self self' : t) (id : string)
    (status_ : option JobStatus.t) (jobs : list Job.t) :
  saved_ok self ->
  get_saved_jobs self status_ = Ok jobs ->
  delete_job self id = Ok self' ->
  get_saved_jobs self' status_ = Ok (filter (fun x => negb (has_id id x)) jobs).
Proof.
  intros Hok Hjobs Hd.
  assert (Hf : fault self = None).
  { unfold delete_job, connect in Hd. destruct (fault self); [discriminate|reflexivity]. }
  unfold delete_job, connect in Hd. rewrite Hf in Hd. cbn [rbind] in Hd.
  injection Hd as <-.
  rewrite get_saved_jobs_eq in Hjobs |- * by (assumption || reflexivity).
  cbn [saved_jobs]. rewrite filter_comm, filter_order_by_desc.
  apply map_result_filter; [exact Hjobs|].
  intros r x Hr Hl. apply in_listed_rows in Hr. destruct Hr as [Hr _].
  unfold saved_ok in Hok. rewrite Forall_forall in Hok.
  destruct (Hok r Hr) as (j & s & Hl' & Hid & Hkey).
  assert (x = j) by congruence. subst j.
  unfold has_id. rewrite Hid, Hkey. reflexivity.
Qed.

Lemma deleted_job_leaves_every_list_witness :
  let j :=
    Job.mk (VStr "42") (VStr "Developer") (VStr "Acme") (VStr "Lund")
      (VStr "") (VStr "2024-06-01") VNone (VStr "") (VStr "") (VStr "") (VStr "") in
  let k :=
    Job.mk (VStr "7") (VStr "Tester") (VStr "Acme") (VStr "Lund")
      (VStr "") (VStr "2024-06-02") (VStr "") (VStr "") (VStr "") (VStr "")
      (VStr "") in
  let row (id : string) (x : Job.t) (date : Z) :=
    mk_saved_row (SText id) SNull SNull SNull SNull "saved" "" date
      (json.dumps (VDict (Job.to_dict x))) in
  let self := mk None [] [row "42" j 10; row "7" k 20] in
  let self' := mk None [] [row "7" k 20] in
  saved_ok self /\
  get_saved_jobs self (Some JobStatus.SAVED) = Ok [k; j] /\
  delete_job self "42" = Ok self' /\
  get_saved_jobs self' (Some JobStatus.SAVED)
  = Ok (filter (fun x => negb (has_id "42" x)) [k; j]).
Proof.
  intros j k row self self'.
  assert (Hok : saved_ok self).
  { constructor; [|constructor; [|constructor]].
    - exists j, "42". split; [vm_compute; reflexivity | split; reflexivity].
    - exists k, "7". split; [vm_compute; reflexivity | split; reflexivity]. }
  assert (Hjobs : get_saved_jobs self (Some JobStatus.SAVED) = Ok [k; j])
    by (vm_compute; reflexivity).
  assert (Hd : delete_job self "42" = Ok self') by reflexivity.
  split; [exact Hok|]. split; [exact Hjobs|]. split; [exact Hd|].
  exact (deleted_job_leaves_every_list self self' "42" (Some JobStatus.SAVED)
           [k; j] Hok Hjobs Hd).
Defined.

(** *** What any sequence of operations keeps *)

Lemma keys_cons (r : saved_row) (rows : list saved_row) :
  keys (r :: rows) = (keys [r] ++ keys rows)%list.
Proof. unfold keys. simpl. now rewrite app_nil_r. Qed.

Lemma keys_app (a b : list saved_row) : keys (a ++ b) = (keys a ++ keys b)%list.
Proof. unfold keys. apply flat_map_app. Qed.

Lemma in_keys (rows : list saved_row) (k : sqlval) :
  In k (keys rows) <-> k <> SNull /\ exists r, In r rows /\ job_id r = k.
Proof.
  unfold keys. rewrite in_flat_map. split.
  - intros (r & Hr & Hk). destruct (job_id r) eqn:E; simpl in Hk;
      try contradiction; destruct Hk as [<-|[]];
      (split; [discriminate | exists r; auto]).
  - intros (Hn & r & Hr & Hk). exists r. split; [exact Hr|].
    rewrite Hk. destruct k; simpl; auto.
Qed.

Lemma keys_one (r : saved_row) : NoDup (keys [r]).
Proof.
  unfold keys. simpl. destruct (job_id r); simpl; repeat constructor; simpl; tauto.
Qed.

Lemma NoDup_app_disjoint {A : Type} (l1 l2 : list A) (a : A) :
  NoDup (l1 ++ l2) -> In a l1 -> ~ In a l2.
Proof.
  induction l1 as [|x l1 IH]; simpl; intros H Hin; [contradiction|].
  inversion H as [|? ? Hx Hnd]; subst. destruct Hin as [->|Hin]; [|auto].
  intros Ha. apply Hx. apply in_or_app. now right.
Qed.

Lemma keys_filter_nodup (p : saved_row -> bool) (rows : list saved_row) :
  NoDup (keys rows) -> NoDup (keys (filter p rows)).
Proof.
  induction rows as [|r rows IH]; intros H; [constructor|].
  rewrite keys_cons in H. cbn [filter].
  assert (Hrows : NoDup (keys rows)) by (now apply NoDup_app_remove_l in H).
  destruct (p r); [|auto].
  rewrite keys_cons. apply NoDup_app; [apply keys_one | auto |].
  intros a Ha Hin. apply (NoDup_app_disjoint _ _ a H Ha).
  apply in_keys in Hin. apply in_keys.
  destruct Hin as (Hn & r' & Hr' & Hk). split; [exact Hn|].
  exists r'. apply filter_In in Hr'. tauto.
Qed.

Lemma apply_op_keys (self self' : t) (o : op) :
  apply_op self o = Ok self' ->
  NoDup (keys (saved_jobs self)) -> NoDup (keys (saved_jobs self')).
Proof.
  destruct o as [now q|now j st text|id]; simpl; intros H Hnd.
  - unfold save_search, connect in H. destruct (fault self); [discriminate|].
    injection H as <-. exact Hnd.
  - destruct (save_job_inv _ _ _ _ _ _ H)
      as (k & row & _ & _ & Hkey & _ & _ & _ & _ & ->).
    cbn [saved_jobs]. rewrite keys_app.
    apply NoDup_app; [now apply keys_filter_nodup | apply keys_one |].
    intros a Ha Hrow. apply in_keys in Ha, Hrow.
    destruct Ha as (_ & r & Hr & Hk). destruct Hrow as (Hn & r' & [<-|[]] & Hk').
    apply filter_In in Hr. destruct Hr as [_ Hc].
    rewrite conflicts_self in Hc; [discriminate | congruence | congruence].
  - unfold delete_job, connect in H. destruct (fault self); [discriminate|].
    injection H as <-. now apply keys_filter_nodup.
Qed.

(** X11.  The primary key holds under any sequence of [save_search],
    [save_job] and [delete_job] calls, those that raise included: when
    no two saved rows had the same key (NULL apart) before, no two have
    after. *)
Theorem saved_keys_stay_unique (ops : list op) (self : t) :
  NoDup (keys (saved_jobs self)) ->
  NoDup (keys (saved_jobs (run_ops self ops))).
Proof.
  revert self. induction ops as [|o ops IH]; simpl; intros self H; [exact H|].
  destruct (apply_op self o) eqn:Ho; [|auto].
  apply IH. now apply (apply_op_keys self _ o).
Qed.

Lemma saved_keys_stay_unique_witness :
  let j (id : value) :=
    Job.mk id (VStr "Developer") (VStr "Acme") (VStr "Lund")
      (VStr "") (VStr "2024-06-01") VNone (VStr "") (VStr "") (VStr "") (VStr "") in
  let ops :=
    [ OpSaveJob 10 (j (VStr "42")) JobStatus.SAVED "";
      OpSaveJob 20 (j (VInt 42)) JobStatus.APPLIED "";
      OpSaveJob 30 (j (VList [])) JobStatus.SAVED "";
      OpSaveSearch 40 (SearchQuery.mk "developer" [] [] 40);
      OpSaveJob 50 (j VNone) JobStatus.SAVED "";
      OpSaveJob 60 (j VNone) JobStatus.SAVED "";
      OpDeleteJob "7" ] in
  NoDup (keys (saved_jobs empty)) /\
  map job_id (saved_jobs (run_ops empty ops)) = [SText "42"; SNull; SNull] /\
  NoDup (keys (saved_jobs (run_ops empty ops))).
Proof.
  intros j ops.
  assert (H : NoDup (keys (saved_jobs empty))) by constructor.
  split; [exact H|]. split; [reflexivity|].
  exact (saved_keys_stay_unique ops empty H).
Defined.






(** *** From the API record to the saved row and back *)

Lemma dict_get_well_formed (d : dict) (k : string) (v : value) :
  json.well_formed (VDict d) = true -> dict_get d k = Some v ->
  json.well_formed v = true.
Proof.
  cbn [json.well_formed]. intros H. apply andb_prop in H. destruct H as [_ H].
  induction d as [|[k' v'] d IH]; simpl in *; [discriminate|].
  apply andb_prop in H. destruct H as [Hv Hd].
  destruct (String.eqb k' k); [intros E; injection E as <-; exact Hv | auto].
Qed.

Lemma py_get_well_formed (o : value) (k : string) (default v : value) :
  json.well_formed o = true -> json.well_formed default = true ->
  py_get o k default = Ok v -> json.well_formed v = true.
Proof.
  intros Ho Hd. destruct o; simpl; try discriminate.
  intros H. injection H as <-.
  destruct (dict_get d k) eqn:E; [|exact Hd].
  now apply (dict_get_well_formed d k).
Qed.

Lemma from_api_well_formed (hit : value) (j : Job.t) :
  json.well_formed hit = true -> Job.from_api hit = Ok j -> job_well_formed j.
Proof.
  intros Hwf. unfold Job.from_api.
  repeat
    match goal with
    | |- rbind (py_get ?o ?k ?d) _ = _ -> _ =>
        let v := fresh "v" in
        let E := fresh "E" in
        destruct (py_get o k d) as [v|] eqn:E; cbn [rbind]; [|discriminate];
        apply py_get_well_formed in E; [|assumption|reflexivity]
    end.
  intros H. injection H as <-. unfold job_well_formed.
  cbn [json.well_formed Job.to_dict map fst snd forallb Job.id Job.title Job.company
       Job.location Job.url Job.published_date Job.deadline Job.description
       Job.salary Job.employment_type Job.working_hours].
  repeat match goal with E : json.well_formed _ = true |- _ => rewrite E; clear E end.
  reflexivity.
Qed.

(** X13.  A job built from an API record that names the employer, and
    saved, is read back as it was built: when [from_api] and [save_job]
    return, the company of the job is the name in the record, the new row
    is the last row, its payload decodes to the very job, and a store
    whose other payloads decode lists it. *)
Theorem api_job_survives_saving (now : Z) (self self' : t) (d e : dict)
    (name : value) (j : Job.t) (st : JobStatus.t) (text : string) :
  json.well_formed (VDict d) = true ->
  dict_get d "employer" = Some (VDict e) ->
  dict_get e "name" = Some name ->
  Job.from_api (VDict d) = Ok j ->
  save_job now self j st text = Ok self' ->
  Job.company j = name /\
  exists row rows,
    saved_jobs self' = (rows ++ [row])%list /\
    load_job (data row) = Ok j /\
    (payloads_ok self -> exists jobs, get_saved_jobs self' None = Ok jobs /\ In j jobs).
Proof.
  intros Hwf He Hname Hj Hs. split.
  { unfold Job.from_api in Hj. cbn [py_get rbind] in Hj. rewrite He in Hj.
    cbn [py_get rbind] in Hj. rewrite Hname in Hj.
    repeat
      match type of Hj with
      | rbind (py_get ?o ?k ?dflt) _ = _ =>
          destruct (py_get o k dflt); cbn [rbind] in Hj; [|discriminate Hj]
      end.
    injection Hj as <-. reflexivity. }
  apply (from_api_well_formed (VDict d) j Hwf) in Hj.
  destruct (save_job_inv _ _ _ _ _ _ Hs)
    as (k & row & Hf & _ & _ & _ & _ & _ & Hdata & ->).
  assert (Hrow : load_job (data row) = Ok j)
    by (rewrite Hdata; now apply payload_decodes).
  eexists row, _. split; [reflexivity|]. split; [exact Hrow|].
  intros Hok.
  set (self' := mk None (search_history self) _) in *.
  assert (Hok' : payloads_ok self').
  { unfold payloads_ok. cbn [saved_jobs self']. apply Forall_app. split.
    - apply (payloads_ok_filter None (search_history self) _ (saved_jobs self)).
      exact Hok.
    - repeat constructor. eauto. }
  destruct (get_saved_jobs_lists self' None eq_refl Hok') as (jobs & Hjobs & Hin).
  exists jobs. split; [exact Hjobs|]. apply Hin. exists row.
  split; [apply in_or_app; right; now left|]. split; [reflexivity | exact Hrow].
Qed.

Lemma api_job_survives_saving_witness :
  let e := [("name", VNone)] in
  let d :=
    [ ("id", VInt 42); ("headline", VStr "Developer"); ("employer", VDict e);
      ("description", VDict [("text", VList [VStr "a"; VStr "b"])]) ] in
  let j :=
    Job.mk (VInt 42) (VStr "Developer") VNone (VStr Job.PLATS_EJ_ANGIVEN)
      (VStr "") (VStr "") (VStr "") (VList [VStr "a"; VStr "b"]) (VStr "")
      (VStr "") (VStr "") in
  let self' :=
    mk None []
      [ mk_saved_row (SText "42") (SText "Developer") SNull
          (SText Job.PLATS_EJ_ANGIVEN) (SText "") "saved" "" 10
          (json.dumps (VDict (Job.to_dict j))) ] in
  json.well_formed (VDict d) = true /\
  dict_get d "employer" = Some (VDict e) /\
  dict_get e "name" = Some VNone /\
  Job.from_api (VDict d) = Ok j /\
  save_job 10 empty j JobStatus.SAVED "" = Ok self' /\
  Job.company j = VNone /\
  exists row rows,
    saved_jobs self' = (rows ++ [row])%list /\
    load_job (data row) = Ok j /\
    (payloads_ok empty -> exists jobs, get_saved_jobs self' None = Ok jobs /\ In j jobs).
Proof.
  intros e d j self'.
  assert (Hwf : json.well_formed (VDict d) = true) by reflexivity.
  assert (He : dict_get d "employer" = Some (VDict e)) by reflexivity.
  assert (Hname : dict_get e "name" = Some VNone) by reflexivity.
  assert (Hj : Job.from_api (VDict d) = Ok j) by reflexivity.
  assert (Hs : save_job 10 empty j JobStatus.SAVED "" = Ok self') by reflexivity.
  repeat (split; [assumption|]).
  exact (api_job_survives_saving 10 empty self' d e VNone j JobStatus.SAVED ""
           Hwf He Hname Hj Hs).
Defined.

(** *** A negative limit *)

(** X14.  A negative limit is no limit: [get_search_history(n)] with
    [n] below zero, and an integer of 64 bits, returns an entry for every
    distinct stored triple, however many there are, the most recent
    first. *)
Theorem get_search_history_unbounded (self : t) (n : Z) :
  INT64_MIN <= n < 0 -> fault self = None -> history_ok self ->
  exists entries,
    get_search_history self n = Ok entries /\
    List.length entries
    = List.length (select_distinct triple_eq_dec (history_triples self)) /\
    StronglySorted newest_first entries /\
    forall x, In x (history_triples self) ->
              exists e, In e entries /\ query e = fst (fst x) /\ timestamp e = snd x.
Proof.
  intros Hn Hf Hok.
  rewrite (get_search_history_entries self n Hf Hok)
    by (unfold INT64_MAX; lia).
  rewrite (get_search_history_negative_limit self n) by apply Hn.
  eexists. split; [reflexivity|]. split; [|split].
  - rewrite length_map. apply Permutation_length. apply order_by_desc_perm.
  - apply (sorted_map (desc (fun r : triple => snd r)) newest_first entry_of).
    + intros a b H. exact H.
    + apply order_by_desc_sorted.
  - intros x Hx. exists (entry_of x). split; [|split; reflexivity].
    apply in_map. apply (Permutation_in x (Permutation_sym (order_by_desc_perm _ _))).
    now apply select_distinct_In.
Qed.

Lemma get_search_history_unbounded_witness :
  let self :=
    mk None
      [ mk_history_row 1 "developer"
          (Some (json.dumps (VList (map VStr []))))
          (Some (json.dumps (VDict []))) 100;
        mk_history_row 2 "tester"
          (Some (json.dumps (VList (map VStr ["Lund"]))))
          (Some (json.dumps (VDict []))) 200;
        mk_history_row 3 "developer"
          (Some (json.dumps (VList (map VStr []))))
          (Some (json.dumps (VDict []))) 100 ] [] in
  INT64_MIN <= -1 < 0 /\ fault self = None /\ history_ok self /\
  get_search_history self (-1)
  = Ok [ mk_history_entry "tester" (VList [VStr "Lund"]) 200;
         mk_history_entry "developer" (VList []) 100 ] /\
  exists entries,
    get_search_history self (-1) = Ok entries /\
    List.length entries
    = List.length (select_distinct triple_eq_dec (history_triples self)) /\
    StronglySorted newest_first entries /\
    forall x, In x (history_triples self) ->
              exists e, In e entries /\ query e = fst (fst x) /\ timestamp e = snd x.
Proof.
  intros self.
  assert (Hn : INT64_MIN <= -1 < 0) by (unfold INT64_MIN; lia).
  assert (Hf : fault self = None) by reflexivity.
  assert (Hok : history_ok self).
  { constructor; [now exists [] |].
    constructor; [now exists ["Lund"] |].
    constructor; [now exists [] | constructor]. }
  split; [exact Hn|]. split; [exact Hf|]. split; [exact Hok|].
  split; [vm_compute; reflexivity|].
  exact (get_search_history_unbounded self (-1) Hn Hf Hok).
Defined.

End StoreMore.

(** ** The search client, further *)

Module ClientMore.
Import JobAPIClient.

(** *** The parameters of the request *)

(** X15.  What the filters become: whenever the filters hold a
    'publicerad' entry, [_build_filter_params] returns; the date of
    'published-after' is today, seven or thirty days back for 'idag',
    '7dagar' and '30dagar' and the key is absent for anything else;
    'working-hours-type' repeats an 'omfattning' of 'heltid' or 'deltid'
    and is absent otherwise; and no other key is made. *)
Theorem filter_params_translation (now : Z) (filters : dict) (v : value) :
  dict_get filters "publicerad" = Some v ->
  exists params,
    _build_filter_params now filters = Ok params /\
    dict_get params "published-after"
    = (if str_eq v "idag" then Some (days_ago now 0)
       else if str_eq v "7dagar" then Some (days_ago now 7)
       else if str_eq v "30dagar" then Some (days_ago now 30)
       else None) /\
    dict_get params "working-hours-type"
    = (if get_eq filters "omfattning" "heltid" then Some (VStr "heltid")
       else if get_eq filters "omfattning" "deltid" then Some (VStr "deltid")
       else None) /\
    forall k, In k (dict_keys params) ->
              k = "working-hours-type" \/ k = "published-after".
Proof.
  intros Hv.
  assert (Hp : get_eq filters "publicerad" "alla" = str_eq v "alla")
    by (unfold get_eq; now rewrite Hv).
  unfold _build_filter_params, dict_item. rewrite Hp, Hv. cbn [rbind].
  destruct (get_eq filters "omfattning" "heltid");
    [|destruct (get_eq filters "omfattning" "deltid")];
    destruct (str_eq v "alla") eqn:Halla; cbn [negb];
    try (destruct v as [| | |p| |]; try discriminate Halla;
         apply String.eqb_eq in Halla; subst p);
    cbn [str_eq];
    try (destruct (str_eq v "idag");
         [|destruct (str_eq v "7dagar"); [|destruct (str_eq v "30dagar")]]);
    eexists; (split; [reflexivity|]); (split; [reflexivity|]);
    (split; [reflexivity|]); simpl; intros k Hk; intuition (subst; auto).
Qed.

Lemma filter_params_translation_witness :
  let filters :=
    [ ("omfattning", VStr "deltid"); ("publicerad", VStr "7dagar");
      ("distance", VInt 50); ("salary", VInt 0); ("sort", VStr "relevans") ] in
  dict_get filters "publicerad" = Some (VStr "7dagar") /\
  _build_filter_params 1718409600 filters
  = Ok [ ("working-hours-type", VStr "deltid");
         ("published-after", VStr "2024-06-08") ] /\
  exists params,
    _build_filter_params 1718409600 filters = Ok params /\
    dict_get params "published-after"
    = (if str_eq (VStr "7dagar") "idag" then Some (days_ago 1718409600 0)
       else if str_eq (VStr "7dagar") "7dagar" then Some (days_ago 1718409600 7)
       else if str_eq (VStr "7dagar") "30dagar" then Some (days_ago 1718409600 30)
       else None) /\
    dict_get params "working-hours-type"
    = (if get_eq filters "omfattning" "heltid" then Some (VStr "heltid")
       else if get_eq filters "omfattning" "deltid" then Some (VStr "deltid")
       else None) /\
    forall k, In k (dict_keys params) ->
              k = "working-hours-type" \/ k = "published-after".
Proof.
  intros filters.
  split; [reflexivity|]. split; [vm_compute; reflexivity|].
  exact (filter_params_translation 1718409600 filters (VStr "7dagar") eq_refl).
Defined.

Lemma filter_params_shape (now : Z) (filters fp : dict) :
  _build_filter_params now filters = Ok fp ->
  fp = [] \/ (exists a, fp = [("working-hours-type", a)]) \/
  (exists b, fp = [("published-after", b)]) \/
  (exists a b, fp = [("working-hours-type", a); ("published-after", b)]).
Proof.
  unfold _build_filter_params, dict_item.
  destruct (get_eq filters "omfattning" "heltid");
    [|destruct (get_eq filters "omfattning" "deltid")];
    (destruct (get_eq filters "publicerad" "alla"); cbn [negb];
     [|destruct (dict_get filters "publicerad") as [v|]; cbn [rbind];
       [destruct (str_eq v "idag");
        [|destruct (str_eq v "7dagar"); [|destruct (str_eq v "30dagar")]]
       |discriminate]]);
    intros H; injection H as <-; simpl; eauto 8.
Qed.

(** X16.  The filters never displace the query: in the parameters
    [search] builds, 'q' is the query and 'limit' the limit asked for
    (100 when none, or 0, is asked), whatever the filters hold;
    'municipality' is there exactly when there is a location; and the
    only other keys are 'working-hours-type' and 'published-after'. *)
Theorem build_params_keeps_query (now : Z) (query : string)
    (locations : option (list string)) (filters : option dict) (limit : option Z)
    (params : dict) :
  build_params now query locations filters limit = Ok params ->
  dict_get params "q" = Some (VStr query) /\
  dict_get params "limit"
  = Some (VInt (match limit with
                | Some 0 | None => Config.MAX_RESULTS
                | Some n => n
                end)) /\
  dict_get params "municipality"
  = match locations with
    | Some (x :: l) => Some (VStr (join "," (x :: l)))
    | _ => None
    end /\
  forall k, In k (dict_keys params) ->
            In k ["q"; "limit"; "municipality"; "working-hours-type";
                  "published-after"].
Proof.
  assert (Hl : (match limit with
                | Some n => if n =? 0 then Config.MAX_RESULTS else n
                | None => Config.MAX_RESULTS
                end)
               = match limit with
                 | Some 0 | None => Config.MAX_RESULTS
                 | Some n => n
                 end).
  { destruct limit as [[| |]|]; reflexivity. }
  unfold build_params. rewrite Hl. clear Hl.
  destruct filters as [[|kv d]|];
    [| destruct (_build_filter_params now (kv :: d)) as [fp|] eqn:Hfp;
       cbn [rbind]; [|discriminate];
       destruct (filter_params_shape _ _ _ Hfp)
         as [->|[(a & ->)|[(b & ->)|(a & b & ->)]]]
     |];
    destruct locations as [[|x l]|];
    intros H; injection H as <-;
    (split; [reflexivity|]); (split; [reflexivity|]); (split; [reflexivity|]);
    simpl; intros k Hk; intuition (subst; auto).
Qed.

Lemma build_params_keeps_query_witness :
  let filters :=
    [ ("omfattning", VStr "heltid"); ("publicerad", VStr "idag");
      ("q", VStr "other"); ("limit", VInt 1) ] in
  let params :=
    [ ("q", VStr "developer"); ("limit", VInt 100);
      ("municipality", VStr "Lund,Malmo");
      ("working-hours-type", VStr "heltid");
      ("published-after", VStr "2024-06-15") ] in
  build_params 1718409600 "developer" (Some ["Lund"; "Malmo"]) (Some filters)
    (Some 0) = Ok params /\
  dict_get params "q" = Some (VStr "developer") /\
  dict_get params "limit" = Some (VInt Config.MAX_RESULTS) /\
  dict_get params "municipality" = Some (VStr (join "," ["Lund"; "Malmo"])) /\
  forall k, In k (dict_keys params) ->
            In k ["q"; "limit"; "municipality"; "working-hours-type";
                  "published-after"].
Proof.
  intros filters params.
  assert (H : build_params 1718409600 "developer" (Some ["Lund"; "Malmo"])
                (Some filters) (Some 0) = Ok params) by (vm_compute; reflexivity).
  split; [exact H|].
  exact (build_params_keeps_query 1718409600 "developer" (Some ["Lund"; "Malmo"])
           (Some filters) (Some 0) params H).
Defined.

(** *** What [search] returns *)

Lemma reraise_raises {A : Type} (e : exn) (env : Env) (w : World) :
  exists w', @reraise A e env w = (Err e, w').
Proof. destruct e; cbv; eauto. Qed.

Lemma search_answer (query : string) (locations : option (list string))
    (filters : option dict) (limit : option Z) (env : Env) (w w' : World)
    (data : value) :
  search query locations filters limit env w = (Ok data, w') ->
  exists params status_code d found,
    build_params (clock env) query locations filters limit = Ok params /\
    http env (requests.mk_request Config.API_BASE_URL params Config.API_TIMEOUT)
    = requests.Response status_code (Some data) /\
    (status_code < 400 \/ 600 <= status_code) /\
    data = VDict d /\
    io w' = (io w ++ [request_of params])%list /\
    log w' = (log w ++ [LogSearching query locations; LogFound found])%list.
Proof.
  unfold search, bind, ask, lift, try_except, logging, modify, session_get, ret.
  destruct (build_params (clock env) query locations filters limit) as [params|];
    [|discriminate].
  cbn [io set_log set_io].
  destruct (http env _) as [e|status_code body] eqn:Hhttp.
  { intros H. destruct (reraise_raises (A:=value) e env
                          (set_io (io w ++ [IoHttpGet
                             (requests.mk_request Config.API_BASE_URL params
                                Config.API_TIMEOUT)])
                             (set_log (log w ++ [LogSearching query locations]) w)))
      as [w1 Hw1]. simpl in Hw1, H. rewrite Hw1 in H. discriminate. }
  cbn [fst snd]. unfold requests.raise_for_status.
  destruct ((400 <=? status_code) && (status_code <? 600)) eqn:Hcode.
  { intros H. match type of H with ?r = _ =>
      match r with context [reraise ?e ?env ?w] =>
        destruct (reraise_raises (A:=value) e env w) as [w1 Hw1] end end.
    simpl in Hw1, H. rewrite Hw1 in H. discriminate. }
  destruct body as [data'|]; cbn [requests.json].
  2:{ intros H. simpl in H. discriminate. }
  destruct data' as [| | | | |d];
    try (intros H; simpl in H; discriminate).
  cbn [py_get rbind].
  destruct (match dict_get d "total" with Some v => v | None => VDict [] end)
    as [| | | | |total] eqn:Htotal;
    try (intros H; simpl in H; discriminate).
  cbn [py_get]. intros H. injection H as <- <-.
  eexists params, status_code, d, _.
  split; [reflexivity|]. split; [exact Hhttp|]. split.
  { apply andb_false_iff in Hcode. destruct Hcode as [H|H]; lia. }
  split; [reflexivity|]. split; [reflexivity|].
  simpl. rewrite <- app_assoc. reflexivity.
Qed.

(** X17.  [search] returns only what the service answered: when it
    returns [data], the parameters could be built, one request went out,
    the answer came with a status outside 400..599 and a JSON body, that
    body is [data], and [data] is an object; and the log has gained the
    two lines 'Searching' and 'Found' and nothing else. *)
Theorem search_returns_the_answer (query : string) (locations : option (list string))
    (filters : option dict) (limit : option Z) (env : Env) (w w' : World)
    (data : value) :
  search query locations filters limit env w = (Ok data, w') ->
  exists params status_code d found,
    build_params (clock env) query locations filters limit = Ok params /\
    http env (requests.mk_request Config.API_BASE_URL params Config.API_TIMEOUT)
    = requests.Response status_code (Some data) /\
    (status_code < 400 \/ 600 <= status_code) /\
    data = VDict d /\
    io w' = (io w ++ [request_of params])%list /\
    log w' = (log w ++ [LogSearching query locations; LogFound found])%list.
Proof. apply search_answer. Qed.

Lemma search_returns_the_answer_witness :
  let data := VDict [("hits", VList []); ("total", VDict [("value", VInt 0)])] in
  let env := mkEnv 1718409600 (fun _ => requests.Response 200 (Some data)) in
  let w := JobFinderPro.init DatabaseManager.empty in
  let w' := snd (search "developer" (Some ["Lund"]) None None env w) in
  search "developer" (Some ["Lund"]) None None env w = (Ok data, w') /\
  exists params status_code d found,
    build_params (clock env) "developer" (Some ["Lund"]) None None = Ok params /\
    http env (requests.mk_request Config.API_BASE_URL params Config.API_TIMEOUT)
    = requests.Response status_code (Some data) /\
    (status_code < 400 \/ 600 <= status_code) /\
    data = VDict d /\
    io w' = (io w ++ [request_of params])%list /\
    log w' = (log w ++ [LogSearching "developer" (Some ["Lund"]); LogFound found])%list.
Proof.
  intros data env w w'.
  assert (H : search "developer" (Some ["Lund"]) None None env w = (Ok data, w'))
    by (vm_compute; reflexivity).
  split; [exact H|].
  exact (search_returns_the_answer "developer" (Some ["Lund"]) None None env w w'
           data H).
Defined.

End ClientMore.

(** ** The application, further *)

Module AppMore.
Import JobFinderPro SearchFacts.

(** *** What the callbacks do *)

Lemma load_history_eq (env : Env) (w : World) :
  load_history env w
  = match DatabaseManager.get_search_history (db w) 15 with
    | Ok history =>
        (Ok tt,
         set_history_frame (map DatabaseManager.query history)
           (set_history_frame [] w))
    | Err e => (Err e, set_history_frame [] w)
    end.
Proof.
  unfold load_history, bind, modify, get, lift. cbn [db set_history_frame].
  destruct (DatabaseManager.get_search_history (db w) 15); reflexivity.
Qed.

Lemma display_results_eq (jobs : list Job.t) (total : value) (env : Env) (w : World) :
  _display_results jobs total env w
  = match gt_count total (List.length jobs) with
    | Err e => (Err e, set_results_area [] w)
    | Ok more =>
        let w1 :=
          set_stats_label
            (if more then StatsShowing (List.length jobs) total
             else StatsFound (List.length jobs))
            (set_results_area [] w) in
        match jobs with
        | [] => (Ok tt, set_results_area [SegNoResults] w1)
        | _ => load_history env (set_results_area (job_cards 1 jobs) w1)
        end
    end.
Proof.
  unfold _display_results, bind, modify, lift.
  destruct (gt_count total (List.length jobs)) as [more|e]; [|reflexivity].
  destruct jobs; reflexivity.
Qed.

Lemma run_results_callbacks (jobs : list Job.t) (total : value) (env : Env) (w : World) :
  run_callbacks [DisplayResults jobs total; EnableSearch] env w
  = match _display_results jobs total env w with
    | (Ok _, w1) => (Ok tt, set_btn_sok (mk_button Normal TextSok) w1)
    | (Err e, w1) =>
        (Ok tt,
         set_btn_sok (mk_button Normal TextSok)
           (set_tk_errors (tk_errors w1 ++ [e]) w1))
    end.
Proof.
  cbn [run_callbacks run_callback].
  destruct (_display_results jobs total env w) as [[[]|e] w1]; reflexivity.
Qed.

(** *** A search that succeeds *)

Lemma search_worker_try_ok query locations filters env w w1 :
  _search_worker_try query locations filters env w = (Ok tt, w1) ->
  exists db' data w_s hits total items jobs,
    DatabaseManager.save_search (clock env) (db w)
      (SearchQuery.mk query locations filters (clock env)) = Ok db' /\
    JobAPIClient.search query (Some locations) (Some filters) None env
      (set_db db'
         (set_io (io w ++ [IoSaveSearch
                             (SearchQuery.mk query locations filters (clock env))
                             None]) w))
    = (Ok data, w_s) /\
    py_get data "hits" (VList []) = Ok hits /\
    (t <- py_get data "total" (VDict []) ;; py_get t "value" (VInt 0))%result
    = Ok total /\
    py_iter hits = Ok items /\
    map_result Job.from_api items = Ok jobs /\
    w1 = set_after_queue (after_queue w_s ++ [DisplayResults jobs total])
           (set_all_jobs jobs w_s).
Proof.
  unfold _search_worker_try, bind, ask, db_save_search.
  destruct (DatabaseManager.save_search (clock env) (db w) _) as [db'|];
    [|discriminate].
  destruct (JobAPIClient.search _ _ _ _ env _) as [[data|] w_s] eqn:Hsearch;
    [|discriminate].
  unfold lift at 1.
  destruct (py_get data "hits" (VList [])) as [hits|] eqn:Hhits; [|discriminate].
  unfold lift at 1.
  destruct (t <- py_get data "total" (VDict []) ;; py_get t "value" (VInt 0))%result
    as [total|] eqn:Htotal; [|discriminate].
  unfold lift at 1.
  destruct (py_iter hits) as [items|] eqn:Hitems; cbn [rbind]; [|discriminate].
  destruct (map_result Job.from_api items) as [jobs|] eqn:Hjobs; [|discriminate].
  intros H. injection H as <-.
  exists db', data, w_s, hits, total, items, jobs.
  repeat split; assumption || reflexivity.
Qed.

Lemma successful_search_world query locations filters env w w1 :
  after_queue w = [] ->
  _search_worker_try query locations filters env w = (Ok tt, w1) ->
  exists db' total w_s items,
    DatabaseManager.save_search (clock env) (db w)
      (SearchQuery.mk query locations filters (clock env)) = Ok db' /\
    frame w_s = frame w /\ db w_s = db' /\
    map_result Job.from_api items = Ok (all_jobs w1) /\
    after_queue w1 = [DisplayResults (all_jobs w1) total] /\
    mainloop env (snd (_search_worker query locations filters env w))
    = run_callbacks [DisplayResults (all_jobs w1) total; EnableSearch] env
        (set_after_queue [] (set_all_jobs (all_jobs w1) w_s)).
Proof.
  intros Hq Htry. rewrite (search_worker_returned _ _ _ _ _ _ Htry).
  destruct (search_worker_try_ok _ _ _ _ _ _ Htry)
    as (db' & data & w_s & hits & total & items & jobs
        & Hsave & Hsearch & _ & _ & _ & Hjobs & ->).
  assert (Hframe : frame w_s = frame w).
  { pose proof (preserves_search query (Some locations) (Some filters) None env
                  (set_db db'
                     (set_io (io w ++ [IoSaveSearch
                                         (SearchQuery.mk query locations filters
                                            (clock env)) None]) w))) as H.
    rewrite Hsearch in H. exact H. }
  assert (Hdb : db w_s = db').
  { pose proof (keeps_db_search query (Some locations) (Some filters) None env
                  (set_db db'
                     (set_io (io w ++ [IoSaveSearch
                                         (SearchQuery.mk query locations filters
                                            (clock env)) None]) w))) as H.
    rewrite Hsearch in H. exact H. }
  destruct (frame_fields _ _ Hframe) as (_ & Hqueue & _).
  rewrite Hq in Hqueue.
  exists db', total, w_s, items.
  split; [exact Hsave|]. split; [exact Hframe|]. split; [exact Hdb|].
  split; [exact Hjobs|].
  cbn [all_jobs after_queue set_after_queue set_all_jobs snd]. rewrite Hqueue.
  split; reflexivity.
Qed.

Lemma successful_search_answer query locations filters env w w1 :
  _search_worker_try query locations filters env w = (Ok tt, w1) ->
  exists params status_code data hits items total,
    JobAPIClient.build_params (clock env) query (Some locations) (Some filters) None
    = Ok params /\
    http env (requests.mk_request Config.API_BASE_URL params Config.API_TIMEOUT)
    = requests.Response status_code (Some data) /\
    py_get data "hits" (VList []) = Ok hits /\
    py_iter hits = Ok items /\
    map_result Job.from_api items = Ok (all_jobs w1) /\
    (t <- py_get data "total" (VDict []) ;; py_get t "value" (VInt 0))%result
    = Ok total /\
    after_queue w1 = (after_queue w ++ [DisplayResults (all_jobs w1) total])%list.
Proof.
  intros Htry.
  destruct (search_worker_try_ok _ _ _ _ _ _ Htry)
    as (db' & data & w_s & hits & total & items & jobs
        & _ & Hsearch & Hhits & Htotal & Hitems & Hjobs & ->).
  destruct (ClientMore.search_answer _ _ _ _ _ _ _ _ Hsearch)
    as (params & status_code & d & found & Hparams & Hhttp & _).
  pose proof (preserves_search query (Some locations) (Some filters) None env
                (set_db db'
                   (set_io (io w ++ [IoSaveSearch
                                       (SearchQuery.mk query locations filters
                                          (clock env)) None]) w))) as Hframe.
  rewrite Hsearch in Hframe.
  destruct (frame_fields _ _ Hframe) as (_ & Hqueue & _).
  exists params, status_code, data, hits, items, total.
  repeat (split; [assumption|]).
  cbn [snd all_jobs after_queue set_after_queue set_all_jobs set_db set_io]
    in Hqueue |- *.
  rewrite Hqueue. reflexivity.
Qed.

(** X18.  A search that succeeds shows what it holds: the held jobs
    are the jobs [from_api] makes of the hits of the response, one for
    each hit and in their order, and once the main loop has run, the
    results text is their cards in that order, or the no-results line
    when there is none, the label counts them, and the button is enabled
    again.  A total that cannot be compared with a number leaves the
    results text empty and the label as it was, and Tk has the TypeError
    to report. *)
Theorem successful_search_shows_what_it_holds query locations filters env w w1 :
  after_queue w = [] ->
  _search_worker_try query locations filters env w = (Ok tt, w1) ->
  let w'' := snd (mainloop env (snd (_search_worker query locations filters env w))) in
  let jobs := all_jobs w1 in
  exists params status_code data hits items total,
    JobAPIClient.build_params (clock env) query (Some locations) (Some filters) None
    = Ok params /\
    http env (requests.mk_request Config.API_BASE_URL params Config.API_TIMEOUT)
    = requests.Response status_code (Some data) /\
    py_get data "hits" (VList []) = Ok hits /\
    py_iter hits = Ok items /\
    map_result Job.from_api items = Ok jobs /\
    (t <- py_get data "total" (VDict []) ;; py_get t "value" (VInt 0))%result
    = Ok total /\
    after_queue w1 = [DisplayResults jobs total] /\
    all_jobs w'' = jobs /\
    btn_sok w'' = mk_button Normal TextSok /\
    match gt_count total (List.length jobs) with
    | Ok more =>
        stats_label w''
        = (if more then StatsShowing (List.length jobs) total
           else StatsFound (List.length jobs)) /\
        results_area w''
        = match jobs with
          | [] => [SegNoResults]
          | _ => job_cards 1 jobs
          end
    | Err e =>
        stats_label w'' = stats_label w /\ results_area w'' = [] /\
        tk_errors w'' = (tk_errors w ++ [e])%list
    end.
Proof.
  intros Hq Htry w'' jobs. subst w''.
  destruct (successful_search_answer _ _ _ _ _ _ Htry)
    as (params & status_code & data & hits & items & total
        & Hparams & Hhttp & Hhits & Hitems & Hjobs & Htotal & Hafter).
  rewrite Hq in Hafter. cbn [app] in Hafter.
  destruct (successful_search_world _ _ _ _ _ _ Hq Htry)
    as (db' & total' & w_s & items' & _ & Hframe & _ & _ & Hafter' & ->).
  rewrite Hafter in Hafter'. injection Hafter' as <-.
  destruct (frame_fields _ _ Hframe) as (_ & _ & _ & Herr & _ & Hstats & _).
  fold jobs in Hjobs, Hafter |- *.
  exists params, status_code, data, hits, items, total.
  repeat (split; [assumption|]).
  rewrite run_results_callbacks, display_results_eq.
  destruct (gt_count total (List.length jobs)) as [more|e].
  - cbv zeta. destruct jobs as [|j jobs'].
    + repeat split; reflexivity.
    + rewrite load_history_eq.
      destruct (DatabaseManager.get_search_history _ 15); repeat split; reflexivity.
  - cbn [snd]. repeat split; try reflexivity.
    + cbn. exact Hstats.
    + cbn. now rewrite Herr.
Qed.

Lemma successful_search_shows_what_it_holds_witness :
  let data :=
    VDict [("hits", VList [VDict [("id", VStr "1")]; VDict [("id", VStr "2")]]);
           ("total", VDict [("value", VStr "many")])] in
  let env := mkEnv 1718409600 (fun _ => requests.Response 200 (Some data)) in
  let w := started (set_entry_yrke "developer" (init DatabaseManager.empty)) in
  let w1 := snd (_search_worker_try "developer" [] [] env w) in
  let w'' := snd (mainloop env (snd (_search_worker "developer" [] [] env w))) in
  after_queue w = [] /\
  _search_worker_try "developer" [] [] env w = (Ok tt, w1) /\
  List.length (all_jobs w1) = 2%nat /\
  exists params status_code data hits items total,
    JobAPIClient.build_params (clock env) "developer" (Some []) (Some []) None
    = Ok params /\
    http env (requests.mk_request Config.API_BASE_URL params Config.API_TIMEOUT)
    = requests.Response status_code (Some data) /\
    py_get data "hits" (VList []) = Ok hits /\
    py_iter hits = Ok items /\
    map_result Job.from_api items = Ok (all_jobs w1) /\
    (t <- py_get data "total" (VDict []) ;; py_get t "value" (VInt 0))%result
    = Ok total /\
    after_queue w1 = [DisplayResults (all_jobs w1) total] /\
    all_jobs w'' = all_jobs w1 /\
    btn_sok w'' = mk_button Normal TextSok /\
    match gt_count total (List.length (all_jobs w1)) with
    | Ok more =>
        stats_label w''
        = (if more then StatsShowing (List.length (all_jobs w1)) total
           else StatsFound (List.length (all_jobs w1))) /\
        results_area w''
        = match all_jobs w1 with
          | [] => [SegNoResults]
          | _ => job_cards 1 (all_jobs w1)
          end
    | Err e =>
        stats_label w'' = stats_label w /\ results_area w'' = [] /\
        tk_errors w'' = (tk_errors w ++ [e])%list
    end.
Proof.
  intros data env w w1 w''.
  assert (Hq : after_queue w = []) by reflexivity.
  assert (Htry : _search_worker_try "developer" [] [] env w = (Ok tt, w1))
    by (vm_compute; reflexivity).
  split; [exact Hq|]. split; [exact Htry|]. split; [vm_compute; reflexivity|].
  exact (successful_search_shows_what_it_holds "developer" [] [] env w w1 Hq Htry).
Defined.

Lemma save_search_opens now self q self' :
  DatabaseManager.save_search now self q = Ok self' ->
  DatabaseManager.fault self = None.
Proof.
  unfold DatabaseManager.save_search, DatabaseManager.connect.
  destruct (DatabaseManager.fault self); [discriminate | reflexivity].
Qed.

(** X19.  The history panel follows the hits.  Take a search that
    succeeds at an instant later than every stored search, on a store
    whose history is as [save_search] writes it, with a total that
    compares with a number.  It has stored its query; with at least one
    job the panel is refreshed and (at most fifteen lines) is headed by
    the query just searched; with no job the panel is left as it was, the
    stored query not shown. *)
Theorem history_panel_follows_hits query locations filters env w w1 jobs total more :
  after_queue w = [] ->
  DatabaseManager.history_ok (db w) ->
  (forall r, In r (DatabaseManager.search_history (db w)) ->
             DatabaseManager.h_timestamp r < clock env) ->
  _search_worker_try query locations filters env w = (Ok tt, w1) ->
  after_queue w1 = [DisplayResults jobs total] ->
  gt_count total (List.length jobs) = Ok more ->
  let w'' := snd (mainloop env (snd (_search_worker query locations filters env w))) in
  In query (map DatabaseManager.h_query (DatabaseManager.search_history (db w''))) /\
  match jobs with
  | [] => history_frame w'' = history_frame w
  | _ =>
      exists rest,
        history_frame w'' = query :: rest /\ (List.length rest < 15)%nat
  end.
Proof.
  intros Hq Hok Hlate Htry Hafter Hmore w''. subst w''.
  destruct (successful_search_world _ _ _ _ _ _ Hq Htry)
    as (db' & total' & w_s & items & Hsave & Hframe & Hdb & _ & Hafter' & ->).
  rewrite Hafter in Hafter'. injection Hafter' as Hjobs Htotal.
  rewrite <- Hjobs, <- Htotal. clear Hjobs Htotal total'.
  destruct (frame_fields _ _ Hframe) as (_ & _ & _ & _ & _ & _ & _ & Hhist & _).
  pose proof (save_search_opens _ _ _ _ Hsave) as Hf.
  destruct (StoreMore.save_search_heads (clock env) (db w)
              (SearchQuery.mk query locations filters (clock env)) 15 Hf Hok Hlate)
    as (self' & rest & Hsave' & Hrest & Hhead); [unfold sqlite3.INT64_MAX; lia|].
  assert (self' = db') by congruence. subst self'.
  assert (Hlen : (List.length rest <= 14)%nat).
  { rewrite (StoreMore.get_search_history_entries (db w) (15 - 1) Hf Hok) in Hrest
      by (unfold sqlite3.INT64_MIN, sqlite3.INT64_MAX; lia).
    injection Hrest as <-. rewrite length_map.
    pose proof (StoreMore.select_history_length 14 (db w) ltac:(lia)) as H.
    lia. }
  assert (Hstored :
            In query (map DatabaseManager.h_query
                        (DatabaseManager.search_history db'))).
  { rewrite (StoreMore.save_search_ok _ _ _ Hf) in Hsave. injection Hsave as <-.
    cbn [DatabaseManager.search_history]. rewrite map_app. apply in_or_app.
    right. left. reflexivity. }
  rewrite run_results_callbacks, display_results_eq, Hmore. cbv zeta.
  destruct jobs as [|j jobs'].
  - cbn [snd db set_btn_sok set_results_area set_stats_label set_after_queue
         set_all_jobs history_frame].
    rewrite Hdb. split; [exact Hstored | exact Hhist].
  - rewrite load_history_eq.
    cbn [db set_btn_sok set_results_area set_stats_label set_after_queue
         set_all_jobs set_history_frame].
    rewrite Hdb, Hhead.
    cbn [snd db set_btn_sok set_results_area set_stats_label set_after_queue
         set_all_jobs set_history_frame history_frame map DatabaseManager.query
         SearchQuery.query].
    rewrite Hdb.
    split; [exact Hstored|]. eexists. split; [reflexivity|].
    rewrite length_map. lia.
Qed.

Lemma history_panel_follows_hits_witness :
  let env :=
    mkEnv 1718409600
      (fun _ => requests.Response 200
                  (Some (VDict [("hits", VList [VDict [("id", VStr "1")]]);
                                ("total", VDict [("value", VInt 3)])]))) in
  let w := started (set_entry_yrke "developer" (init DatabaseManager.empty)) in
  let w1 := snd (_search_worker_try "developer" [] [] env w) in
  let jobs :=
    [ Job.mk (VStr "1") (VStr Job.UTAN_TITEL) (VStr Job.OKAND_ARBETSGIVARE)
        (VStr Job.PLATS_EJ_ANGIVEN) (VStr "") (VStr "") (VStr "") (VStr "")
        (VStr "") (VStr "") (VStr "") ] in
  let w'' := snd (mainloop env (snd (_search_worker "developer" [] [] env w))) in
  after_queue w = [] /\
  DatabaseManager.history_ok (db w) /\
  (forall r, In r (DatabaseManager.search_history (db w)) ->
             DatabaseManager.h_timestamp r < clock env) /\
  _search_worker_try "developer" [] [] env w = (Ok tt, w1) /\
  after_queue w1 = [DisplayResults jobs (VInt 3)] /\
  gt_count (VInt 3) (List.length jobs) = Ok true /\
  In "developer"
    (map DatabaseManager.h_query (DatabaseManager.search_history (db w''))) /\
  exists rest,
    history_frame w'' = "developer" :: rest /\ (List.length rest < 15)%nat.
Proof.
  intros env w w1 jobs w''.
  assert (Hq : after_queue w = []) by reflexivity.
  assert (Hok : DatabaseManager.history_ok (db w)) by constructor.
  assert (Hlate : forall r, In r (DatabaseManager.search_history (db w)) ->
                            DatabaseManager.h_timestamp r < clock env)
    by (intros r []).
  assert (Htry : _search_worker_try "developer" [] [] env w = (Ok tt, w1))
    by (vm_compute; reflexivity).
  assert (Hafter : after_queue w1 = [DisplayResults jobs (VInt 3)])
    by (vm_compute; reflexivity).
  assert (Hmore : gt_count (VInt 3) (List.length jobs) = Ok true) by reflexivity.
  repeat (split; [assumption|]).
  exact (history_panel_follows_hits "developer" [] [] env w w1 jobs (VInt 3) true
           Hq Hok Hlate Htry Hafter Hmore).
Defined.

(** *** Filters, history entries and the panel *)

Lemma gt_count_same (n : nat) : gt_count (VInt (Z.of_nat n)) n = Ok false.
Proof. unfold gt_count. now rewrite Z.ltb_irrefl. Qed.

Lemma apply_filters_eq (filters : dict) (env : Env) (w : World) :
  apply_filters filters env w
  = match all_jobs w with
    | [] => (Ok tt, set_current_filters filters w)
    | _ =>
        load_history env
          (set_results_area (job_cards 1 (all_jobs w))
             (set_stats_label (StatsFound (List.length (all_jobs w)))
                (set_results_area [] (set_current_filters filters w))))
    end.
Proof.
  cbv beta iota zeta delta [apply_filters bind modify get display_jobs filter_jobs ret].
  cbn [all_jobs set_current_filters].
  destruct (all_jobs w) as [|j jobs] eqn:Hjobs; [reflexivity|].
  rewrite display_results_eq. cbn [all_jobs set_current_filters].
  rewrite Hjobs, gt_count_same. reflexivity.
Qed.

Lemma apply_filters_fields (filters : dict) (env : Env) (w : World) :
  let w' := snd (apply_filters filters env w) in
  current_filters w' = filters /\ all_jobs w' = all_jobs w /\
  db w' = db w /\ io w' = io w /\ threads w' = threads w /\
  entry_yrke w' = entry_yrke w /\ selected_orts w' = selected_orts w /\
  match all_jobs w with
  | [] => results_area w' = results_area w /\ stats_label w' = stats_label w
  | _ =>
      results_area w' = job_cards 1 (all_jobs w) /\
      stats_label w' = StatsFound (List.length (all_jobs w))
  end.
Proof.
  intros w'. subst w'. rewrite apply_filters_eq.
  destruct (all_jobs w) as [|j jobs] eqn:Hjobs.
  - repeat split; try reflexivity. exact Hjobs.
  - rewrite load_history_eq.
    destruct (DatabaseManager.get_search_history _ 15);
      cbn; repeat split; try reflexivity; exact Hjobs.
Qed.

(** X20.  The filters hide nothing: [apply_filters] keeps the filters
    for the next search and, when jobs are held, shows every one of
    them again, in the order held, whatever the filters say; the label
    counts them all, and the held jobs, the store and the requests sent
    are as before. *)
Theorem apply_filters_hides_nothing (filters : dict) (env : Env) (w : World) :
  let w' := snd (apply_filters filters env w) in
  current_filters w' = filters /\ all_jobs w' = all_jobs w /\
  db w' = db w /\ io w' = io w /\ threads w' = threads w /\
  entry_yrke w' = entry_yrke w /\ selected_orts w' = selected_orts w /\
  match all_jobs w with
  | [] => results_area w' = results_area w /\ stats_label w' = stats_label w
  | _ =>
      results_area w' = job_cards 1 (all_jobs w) /\
      stats_label w' = StatsFound (List.length (all_jobs w))
  end.
Proof. apply apply_filters_fields. Qed.

Lemma lstrip_head (s : string) (c : ascii) (r : string) :
  lstrip s = String c r -> is_space c = false.
Proof.
  induction s as [|a s IH]; simpl; [discriminate|].
  destruct (is_space a) eqn:Ha; [exact IH|].
  intros H. injection H as <- _. exact Ha.
Qed.

Lemma rstrip_cons (c : ascii) (r : string) :
  is_space c = false -> rstrip (String c r) = String c (rstrip r).
Proof. intros Hc. simpl. rewrite Hc. destruct (rstrip r); reflexivity. Qed.

Lemma rstrip_idem (s : string) : rstrip (rstrip s) = rstrip s.
Proof.
  induction s as [|c r IH]; [reflexivity|]. cbn [rstrip].
  destruct (rstrip r) as [|c' r'] eqn:Hr.
  - destruct (is_space c) eqn:Hc; [reflexivity|]. simpl. now rewrite Hc.
  - change (rstrip (String c (String c' r'))) with
      (match rstrip (String c' r') with
       | EmptyString => if is_space c then EmptyString else String c EmptyString
       | r'' => String c r''
       end).
    rewrite IH. reflexivity.
Qed.

Lemma strip_idem (s : string) : strip (strip s) = strip s.
Proof.
  unfold strip. destruct (lstrip s) as [|c r] eqn:Hl; [reflexivity|].
  pose proof (lstrip_head _ _ _ Hl) as Hc.
  rewrite rstrip_cons by exact Hc. cbn [lstrip]. rewrite Hc.
  rewrite rstrip_cons by exact Hc. now rewrite rstrip_idem.
Qed.

Lemma start_search_accepts (env : Env) (w : World) (c : ascii) (s : string) :
  strip (entry_yrke w) = String c s ->
  start_search env w
  = (Ok tt,
     set_threads (threads w ++ [(String c s, selected_orts w, current_filters w)])
       (set_btn_sok (mk_button Disabled TextSoker)
          (set_stats_label StatsSearching (set_results_area [SegLoading] w)))).
Proof.
  intros H. cbv beta iota zeta delta [start_search bind get]. rewrite H. reflexivity.
Qed.

Lemma quick_search_eq (query : string) (env : Env) (w : World) :
  quick_search query env w = start_search env (set_entry_yrke query w).
Proof. reflexivity. Qed.

(** X21.  A click on a line of the history repeats the search the line
    stands for: the query a search stores is the typed text stripped, and
    [quick_search] of it starts a worker with that very query, and the
    selected locations and filters of the moment, as typing the text and
    searching does; it leaves the stored text in the entry. *)
Theorem quick_search_repeats_the_search (typed : string) (env : Env) (w : World)
    (c : ascii) (s : string) :
  strip typed = String c s ->
  let stored := strip typed in
  let w' := snd (quick_search stored env w) in
  threads w' = (threads w ++ [(stored, selected_orts w, current_filters w)])%list /\
  threads (snd (start_search env (set_entry_yrke typed w))) = threads w' /\
  entry_yrke w' = stored /\
  btn_sok w' = mk_button Disabled TextSoker /\
  results_area w' = [SegLoading].
Proof.
  intros H stored w'. subst w' stored. rewrite H.
  assert (H' : strip (String c s) = String c s) by (rewrite <- H; apply strip_idem).
  rewrite quick_search_eq.
  rewrite (start_search_accepts env (set_entry_yrke (String c s) w) c s H').
  rewrite (start_search_accepts env (set_entry_yrke typed w) c s H).
  repeat split; reflexivity.
Qed.

Lemma quick_search_repeats_the_search_witness :
  let env := mkEnv 0 (fun _ => requests.Unreachable (RequestException "offline")) in
  let w := set_selected_orts ["Lund"] (init DatabaseManager.empty) in
  let w' := snd (quick_search "java developer" env w) in
  strip "  java developer " = "java developer" /\
  threads w' = [("java developer", ["Lund"], [])] /\
  threads (snd (start_search env (set_entry_yrke "  java developer " w)))
  = threads w' /\
  entry_yrke w' = "java developer" /\
  btn_sok w' = mk_button Disabled TextSoker /\
  results_area w' = [SegLoading].
Proof.
  intros env w w'.
  assert (H : strip "  java developer " = "java developer") by reflexivity.
  split; [exact H|].
  exact (quick_search_repeats_the_search "  java developer " env w _ _ H).
Defined.

(** X22.  The history panel: [load_history] empties the panel first;
    with a store that can be read it then shows at most fifteen lines,
    each the query of a stored search, and leaves the store alone; with a
    store that cannot be opened it raises and the panel stays empty. *)
Theorem history_panel_bounded (env : Env) (w : World) :
  DatabaseManager.history_ok (db w) ->
  match DatabaseManager.fault (db w) with
  | None =>
      exists lines,
        load_history env w = (Ok tt, set_history_frame lines w) /\
        (List.length lines <= 15)%nat /\
        forall q, In q lines ->
                  In q (map DatabaseManager.h_query
                          (DatabaseManager.search_history (db w)))
  | Some e => load_history env w = (Err e, set_history_frame [] w)
  end.
Proof.
  intros Hok. rewrite load_history_eq.
  destruct (DatabaseManager.fault (db w)) as [e|] eqn:Hf.
  - unfold DatabaseManager.get_search_history, DatabaseManager.connect.
    rewrite Hf. reflexivity.
  - rewrite (StoreMore.get_search_history_entries (db w) 15 Hf Hok)
      by (unfold sqlite3.INT64_MIN, sqlite3.INT64_MAX; lia).
    eexists. split; [reflexivity|]. rewrite !map_map, length_map. split.
    + pose proof (StoreMore.select_history_length 15 (db w) ltac:(lia)) as H.
      lia.
    + intros q Hq. apply in_map_iff in Hq. destruct Hq as ([[q' l] ts] & <- & Hx).
      apply StoreFacts.select_history_incl in Hx.
      unfold DatabaseManager.history_triples in Hx.
      apply in_map_iff in Hx. destruct Hx as (r & Hr & Hin).
      injection Hr as <- _ _. cbn. apply in_map. exact Hin.
Qed.

Lemma history_panel_bounded_witness :
  let env := mkEnv 0 (fun _ => requests.Unreachable (RequestException "offline")) in
  let store :=
    DatabaseManager.mk None
      [ DatabaseManager.mk_history_row 1 "developer"
          (Some (json.dumps (VList (map VStr ["Lund"]))))
          (Some (json.dumps (VDict []))) 100;
        DatabaseManager.mk_history_row 2 "tester"
          (Some (json.dumps (VList (map VStr []))))
          (Some (json.dumps (VDict []))) 200 ] [] in
  let w := set_history_frame ["old"] (init store) in
  DatabaseManager.history_ok (db w) /\
  load_history env w = (Ok tt, set_history_frame ["tester"; "developer"] w) /\
  exists lines,
    load_history env w = (Ok tt, set_history_frame lines w) /\
    (List.length lines <= 15)%nat /\
    forall q, In q lines ->
              In q (map DatabaseManager.h_query
                      (DatabaseManager.search_history (db w))).
Proof.
  intros env store w.
  assert (Hok : DatabaseManager.history_ok (db w)).
  { constructor; [now exists ["Lund"] | constructor; [now exists [] | constructor]]. }
  split; [exact Hok|]. split; [vm_compute; reflexivity|].
  exact (history_panel_bounded env w Hok).
Defined.

(** *** From the menu to the request *)

Lemma menu_filters_translate (now : Z) (fm : FilterMenu.t) :
  exists fp,
    JobAPIClient._build_filter_params now (FilterMenu.get_active_filters fm) = Ok fp.
Proof.
  pose proof (filter_params_raise now (FilterMenu.get_active_filters fm)) as H.
  destruct (JobAPIClient._build_filter_params now (FilterMenu.get_active_filters fm))
    as [fp|e]; [eauto|].
  destruct H as [H _]. discriminate H.
Qed.

(** X23.  The filters of the menu never stop a search: whatever the
    menu holds, [notify_change] hands its five filters to
    [apply_filters], and the next search, with a store that can be
    opened, writes its history row and sends its request, whose
    parameters are those built from the query, the selected locations and
    these filters. *)
Theorem menu_filters_reach_the_request (fm : FilterMenu.t) (env : Env) (w : World)
    (c : ascii) (s : string) :
  threads w = [] -> strip (entry_yrke w) = String c s ->
  DatabaseManager.fault (db w) = None ->
  let filters := FilterMenu.get_active_filters fm in
  let w1 := snd (FilterMenu.notify_change fm (Some apply_filters) env w) in
  current_filters w1 = filters /\
  exists params,
    JobAPIClient.build_params (clock env) (String c s) (Some (selected_orts w))
      (Some filters) None = Ok params /\
    io (snd (search_action env w1))
    = (io w ++ [IoSaveSearch
                  (SearchQuery.mk (String c s) (selected_orts w) filters (clock env))
                  None;
                JobAPIClient.request_of params])%list.
Proof.
  intros Hthreads Hquery Hf filters w1. subst w1.
  change (snd (FilterMenu.notify_change fm (Some apply_filters) env w))
    with (snd (apply_filters filters env w)).
  destruct (apply_filters_fields filters env w)
    as (Hcur & _ & Hdb & Hio & Hth & Hentry & Horts & _).
  set (w1 := snd (apply_filters filters env w)) in *.
  split; [exact Hcur|].
  assert (Hparams : exists params,
             JobAPIClient.build_params (clock env) (String c s)
               (Some (selected_orts w)) (Some filters) None = Ok params).
  { destruct (menu_filters_translate (clock env) fm) as [fp Hfp].
    unfold JobAPIClient.build_params. subst filters.
    unfold FilterMenu.get_active_filters in Hfp |- *. rewrite Hfp. cbn [rbind]. eauto. }
  destruct Hparams as [params Hparams]. exists params. split; [exact Hparams|].
  rewrite (search_action_runs_worker env w1 c s)
    by (congruence || (rewrite Hentry; exact Hquery)).
  rewrite keeps_io_mainloop.
  pose proof (search_worker_trace (String c s) (selected_orts w1)
                (current_filters w1) env (started w1)) as Htrace.
  unfold history_first in Htrace. cbv zeta in Htrace.
  change (db (started w1)) with (db w1) in Htrace.
  change (io (started w1)) with (io w1) in Htrace.
  rewrite Hdb, Hio, Hcur, Horts in Htrace.
  destruct (save_search_available (clock env) (db w)
              (SearchQuery.mk (String c s) (selected_orts w) filters (clock env)) Hf)
    as [db' Hsave].
  rewrite Hsave, Hparams in Htrace. destruct Htrace as [_ Htrace].
  rewrite Horts, Hcur in *. exact Htrace.
Qed.

Lemma menu_filters_reach_the_request_witness :
  let fm := FilterMenu.mk "deltid" "7dagar" 50 0 "relevans" in
  let env := mkEnv 1718409600 (fun _ => requests.Unreachable (RequestException "offline")) in
  let w := set_entry_yrke "developer" (init DatabaseManager.empty) in
  let filters := FilterMenu.get_active_filters fm in
  let w1 := snd (FilterMenu.notify_change fm (Some apply_filters) env w) in
  threads w = [] /\ strip (entry_yrke w) = "developer" /\
  DatabaseManager.fault (db w) = None /\
  current_filters w1 = filters /\
  exists params,
    JobAPIClient.build_params (clock env) "developer" (Some (selected_orts w))
      (Some filters) None = Ok params /\
    io (snd (search_action env w1))
    = (io w ++ [IoSaveSearch
                  (SearchQuery.mk "developer" (selected_orts w) filters (clock env))
                  None;
                JobAPIClient.request_of params])%list.
Proof.
  intros fm env w filters w1.
  assert (H1 : threads w = []) by reflexivity.
  assert (H2 : strip (entry_yrke w) = "developer") by reflexivity.
  assert (H3 : DatabaseManager.fault (db w) = None) by reflexivity.
  repeat (split; [assumption|]).
  exact (menu_filters_reach_the_request fm env w _ _ H1 H2 H3).
Defined.

(** *** The button *)

(** X24.  The search button always comes back: a search that is
    accepted disables the button and names it 'searching', and when the
    worker has ended and the main loop has run, the button is enabled
    and named as at the start, whether the search succeeded, failed, or
    a callback raised. *)
Theorem search_button_comes_back (env : Env) (w : World) (c : ascii) (s : string) :
  threads w = [] -> strip (entry_yrke w) = String c s ->
  btn_sok (snd (start_search env w)) = mk_button Disabled TextSoker /\
  btn_sok (snd (search_action env w)) = mk_button Normal TextSok.
Proof.
  intros Hthreads Hquery. split.
  - rewrite (start_search_accepts env w c s Hquery). reflexivity.
  - rewrite (search_action_runs_worker env w c s Hthreads Hquery).
    apply search_button_enabled_again.
Qed.

Lemma search_button_comes_back_witness :
  let env := mkEnv 1718409600 (fun _ => requests.Response 500 None) in
  let w := set_entry_yrke "developer" (init DatabaseManager.empty) in
  threads w = [] /\ strip (entry_yrke w) = "developer" /\
  btn_sok (snd (start_search env w)) = mk_button Disabled TextSoker /\
  btn_sok (snd (search_action env w)) = mk_button Normal TextSok.
Proof.
  intros env w.
  assert (H1 : threads w = []) by reflexivity.
  assert (H2 : strip (entry_yrke w) = "developer") by reflexivity.
  split; [exact H1|]. split; [exact H2|].
  exact (search_button_comes_back env w _ _ H1 H2).
Defined.

End AppMore.
